(** * Nepali Agricultural News Service: a shallow embedding

    The development follows [nepali_agricultural_news_service.py]: the
    date normaliser, the two scrapers, the categoriser, the repository
    functions over the [news] table, the pipeline and the two read
    routes.  Effects (the database connection, the clock, the logger,
    the web) are threaded through a state-and-exception monad over a
    [World]. *)

From Stdlib Require Import ZArith List String Ascii Bool Lia PeanoNat Floats.
From Stdlib Require Import DecimalString Permutation Sorted.
Import ListNotations.
Set Warnings "-register-all,-inexact-float".
Open Scope string_scope.
Open Scope Z_scope.

(* ===================================================================== *)
(** ** Python values *)
(* ===================================================================== *)

(** An exception of class [Exception]; [str(e)] is [exn_msg e]. *)
Record exn : Type := Exception { exn_msg : string }.

(** A Python [str].  One character of the model is one code point below
    256; a text with other characters is outside the model.  Among these
    code points the white space of [str.strip] and of the class [\s] is
    [is_space], and the decimal digits of the class [\d] are the ten
    ASCII digits. *)
Definition is_space (c : ascii) : bool :=
  let n := nat_of_ascii c in
  ((9 <=? n) && (n <=? 13) || (28 <=? n) && (n <=? 32)
   || (n =? 133) || (n =? 160))%nat.

Definition is_digit (c : ascii) : bool :=
  let n := nat_of_ascii c in ((48 <=? n) && (n <=? 57))%nat.

Fixpoint lstrip (s : string) : string :=
  match s with
  | String c s' => if is_space c then lstrip s' else s
  | EmptyString => EmptyString
  end.

Fixpoint rstrip (s : string) : string :=
  match s with
  | String c s' =>
      match rstrip s' with
      | EmptyString => if is_space c then EmptyString else String c EmptyString
      | t => String c t
      end
  | EmptyString => EmptyString
  end.

(** [s.strip()] *)
Definition strip (s : string) : string := rstrip (lstrip s).

(** Truthiness of a [str]: [if s:] *)
Definition truthy (s : string) : bool :=
  match s with EmptyString => false | _ => true end.

(** [sub in s] *)
Fixpoint contains (sub s : string) : bool :=
  if prefix sub s then true
  else match s with
       | String _ s' => contains sub s'
       | EmptyString => false
       end.

(** [sep.join(l)] *)
Fixpoint join (sep : string) (l : list string) : string :=
  match l with
  | [] => ""
  | [x] => x
  | x :: l' => x ++ sep ++ join sep l'
  end.

(** [s[:n]] *)
Definition slice_to (n : nat) (s : string) : string := substring 0 n s.

Definition string_in (s : string) (l : list string) : bool :=
  existsb (String.eqb s) l.

(** [x or y] on values that may be [None] *)
Definition or_else {A} (x y : option A) : option A :=
  match x with Some _ => x | None => y end.

(* ===================================================================== *)
(** ** Naive datetimes *)
(* ===================================================================== *)

(** A naive [datetime] (and a PostgreSQL [TIMESTAMP]) is the number of
    microseconds since 0001-01-01T00:00:00 in the proleptic Gregorian
    calendar. *)
Definition datetime : Type := Z.

Definition us_per_day : Z := 86400000000.

(** [timedelta(days=n)] *)
Definition timedelta_days (n : Z) : Z := n * us_per_day.

(** [d.date()] and SQL [DATE(d)]: the day on which [d] falls. *)
Definition date_of (d : datetime) : Z := d / us_per_day.

Definition is_leap (y : Z) : bool :=
  (y mod 4 =? 0) && (negb (y mod 100 =? 0) || (y mod 400 =? 0)).

Definition days_in_month (y m : Z) : Z :=
  if m =? 2 then (if is_leap y then 29 else 28)
  else if (m =? 4) || (m =? 6) || (m =? 9) || (m =? 11) then 30
  else 31.

Definition days_before_year (y : Z) : Z :=
  let p := y - 1 in p * 365 + p / 4 - p / 100 + p / 400.

Fixpoint days_before_month_aux (y : Z) (k : nat) : Z :=
  match k with
  | O => 0
  | S k' => days_before_month_aux y k' + days_in_month y (Z.of_nat k)
  end.

Definition days_before_month (y m : Z) : Z :=
  days_before_month_aux y (Z.to_nat (m - 1)).

Definition valid_date (y m d : Z) : bool :=
  (1 <=? y) && (y <=? 9999) && (1 <=? m) && (m <=? 12)
  && (1 <=? d) && (d <=? days_in_month y m).

(** [datetime(y, m, d)]: midnight of that day. *)
Definition datetime_ymd (y m d : Z) : datetime :=
  (days_before_year y + days_before_month y m + d - 1) * us_per_day.

(* ===================================================================== *)
(** ** Library functions the service calls *)
(* ===================================================================== *)

(** Functions of [dateutil], [urllib] and the interpreter that the source
    calls and does not define. *)
Class Library : Type := {
  (** [dateutil.parser.parse]; [None] when it raises *)
  date_parser_parse : string -> option datetime;
  (** [urllib.parse.urljoin]; [inl e] when it raises [e] *)
  urljoin : string -> string -> exn + string;
  (** [int(s)] on a query-string value *)
  py_int : string -> exn + Z;
  (** [d.isoformat()] *)
  isoformat : datetime -> string
}.

(* ===================================================================== *)
(** ** Regular expressions used by the date normaliser *)
(* ===================================================================== *)

Inductive regex : Type :=
| Digit                                   (* \d *)
| Space                                   (* \s *)
| Chr (c : ascii)
| Lit (s : string)
| Seq (r1 r2 : regex)
| Alt (r1 r2 : regex)
| Rep (r : regex) (lo : nat) (hi : option nat).   (* greedy r{lo,hi} *)

Section Matcher.
Context {A : Type}.

Definition cont : Type := string -> option A.

Fixpoint exactly (step : string -> cont -> option A) (n : nat)
         (s : string) (k : cont) : option A :=
  match n with
  | O => k s
  | S n' => step s (fun s' => exactly step n' s' k)
  end.

(** Greedy: one more iteration is tried before giving the rest of the
    pattern a chance. *)
Fixpoint at_most (step : string -> cont -> option A) (n : nat)
         (s : string) (k : cont) : option A :=
  match n with
  | O => k s
  | S n' => or_else (step s (fun s' => at_most step n' s' k)) (k s)
  end.

(** Backtracking matcher in continuation-passing style: alternatives
    and repetitions are explored in the order of Python's [re]. *)
Fixpoint rmatch (r : regex) (s : string) (k : cont) {struct r} : option A :=
  match r with
  | Digit =>
      match s with
      | String c s' => if is_digit c then k s' else None
      | EmptyString => None
      end
  | Space =>
      match s with
      | String c s' => if is_space c then k s' else None
      | EmptyString => None
      end
  | Chr a =>
      match s with
      | String c s' => if Ascii.eqb a c then k s' else None
      | EmptyString => None
      end
  | Lit l =>
      if prefix l s
      then k (substring (String.length l) (String.length s - String.length l) s)
      else None
  | Seq r1 r2 => rmatch r1 s (fun s' => rmatch r2 s' k)
  | Alt r1 r2 => or_else (rmatch r1 s k) (rmatch r2 s k)
  | Rep r1 lo hi =>
      exactly (rmatch r1) lo s
        (fun s' =>
           at_most (rmatch r1)
             (match hi with
              | Some h => h - lo
              | None => String.length s'
              end)%nat s' k)
  end.
End Matcher.

(** The text matched by [r] at the start of [s]. *)
Definition match_here (r : regex) (s : string) : option string :=
  match rmatch r s (fun rest => Some rest) with
  | Some rest => Some (substring 0 (String.length s - String.length rest) s)
  | None => None
  end.

(** [re.search(r, s)] followed by [match.group(1)], for a pattern that is
    one capturing group: the leftmost match. *)
Fixpoint re_search (r : regex) (s : string) : option string :=
  match match_here r s with
  | Some m => Some m
  | None =>
      match s with
      | String _ s' => re_search r s'
      | EmptyString => None
      end
  end.

Fixpoint seq_of (l : list regex) : regex :=
  match l with
  | [] => Lit ""
  | [r] => r
  | r :: l' => Seq r (seq_of l')
  end.

Fixpoint alt_of (l : list string) : regex :=
  match l with
  | [] => Lit ""
  | [s] => Lit s
  | s :: l' => Alt (Lit s) (alt_of l')
  end.

Definition digits (n : nat) : regex := Rep Digit n (Some n).

(* ===================================================================== *)
(** ** Date normaliser *)
(* ===================================================================== *)

Definition nepali_months : list string :=
  ["Baisakh"; "Jestha"; "Asar"; "Shrawan"; "Bhadra"; "Ashoj";
   "Kartik"; "Mangsir"; "Poush"; "Magh"; "Falgun"; "Chaitra"].

Definition pattern_iso : regex :=           (* (\d{4}-\d{2}-\d{2}) *)
  seq_of [digits 4; Chr "-"; digits 2; Chr "-"; digits 2].
Definition pattern_mdy : regex :=           (* (\d{2}/\d{2}/\d{4}) *)
  seq_of [digits 2; Chr "/"; digits 2; Chr "/"; digits 4].
Definition pattern_dmy : regex :=           (* (\d{2}-\d{2}-\d{4}) *)
  seq_of [digits 2; Chr "-"; digits 2; Chr "-"; digits 4].
Definition pattern_nepali : regex :=        (* (\d{1,2}\s+(?:Baisakh|...)\s+\d{4}) *)
  seq_of [Rep Digit 1 (Some 2%nat); Rep Space 1 None; alt_of nepali_months;
          Rep Space 1 None; digits 4].

Definition date_patterns : list regex :=
  [pattern_iso; pattern_mdy; pattern_dmy; pattern_nepali].

Section DateNormalizer.
Context {lib : Library}.

(** The [for pattern in date_patterns] loop: a pattern that does not
    match, or whose match [dateutil] rejects, passes to the next. *)
Fixpoint try_patterns (patterns : list regex) (text : string) : option datetime :=
  match patterns with
  | [] => None
  | pattern :: rest =>
      match re_search pattern text with
      | Some date_str =>
          match date_parser_parse date_str with
          | Some d => Some d
          | None => try_patterns rest text
          end
      | None => try_patterns rest text
      end
  end.

Definition extract_date_from_text (text : string) : option datetime :=
  if truthy text then try_patterns date_patterns text else None.
End DateNormalizer.

(* ===================================================================== *)
(** ** Parsed documents (BeautifulSoup) *)
(* ===================================================================== *)

(** A node of the parse tree: a string, or a tag with its attributes
    (the multi-valued [class] attribute kept apart, as a list) and its
    children.  The document itself is a tag. *)
Inductive Node : Type :=
| Text (s : string)
| Tag (name : string) (attrs : list (string * string))
      (classes : list string) (children : list Node).

(** [node.descendants]: every node below [n], in document order. *)
Fixpoint descendants (n : Node) : list Node :=
  match n with
  | Text _ => []
  | Tag _ _ _ cs => flat_map (fun c => c :: descendants c) cs
  end.

(** The strings below [n], in document order. *)
Fixpoint strings_of (n : Node) : list string :=
  match n with
  | Text s => [s]
  | Tag _ _ _ cs => flat_map strings_of cs
  end.

(** [n.get_text()] *)
Definition get_text (n : Node) : string := join "" (strings_of n).

(** [n.get_text(strip=True)]: every string stripped, empty ones dropped. *)
Definition get_text_strip (n : Node) : string :=
  join "" (filter truthy (map strip (strings_of n))).

(** [n.get(key)] *)
Definition get_attr (key : string) (n : Node) : option string :=
  match n with
  | Text _ => None
  | Tag _ attrs _ _ =>
      option_map snd (find (fun kv => String.eqb (fst kv) key) attrs)
  end.

(** What the scrapers look elements up by. *)
Inductive selector : Type :=
| ByTag (name : string)                 (* find('h2'), select('article') *)
| ByClass (c : string)                  (* select('.post') *)
| ByTagClass (name c : string)          (* find('div', class_='post') *)
| ByTagClassSub (name sub : string).    (* select('div[class*="news"]') *)

Definition matches (sel : selector) (n : Node) : bool :=
  match n with
  | Text _ => false
  | Tag name _ classes _ =>
      match sel with
      | ByTag t => String.eqb name t
      | ByClass c => string_in c classes
      | ByTagClass t c =>
          String.eqb name t
          && (string_in c classes || String.eqb (join " " classes) c)
      | ByTagClassSub t sub =>
          String.eqb name t && contains sub (join " " classes)
      end
  end.

(** [n.find_all(...)] and [n.select(...)] *)
Definition find_all (sel : selector) (n : Node) : list Node :=
  filter (matches sel) (descendants n).

(** [n.find(...)] and [n.select_one(...)]: the first match in document
    order, [None] without one. *)
Definition find_first (sel : selector) (n : Node) : option Node :=
  hd_error (find_all sel n).

(* ===================================================================== *)
(** ** Candidates, rows and statements *)
(* ===================================================================== *)

(** An article dictionary as the scrapers build it. *)
Module Article.
Record t : Type := mk {
  title : string;
  content : string;
  image_url : option string;
  source : string;
  publish_date : datetime;
  url : string
}.
End Article.

(** A row of table [news]; a nullable column is an [option]. *)
Module News.
Record row : Type := mk {
  id : string;
  title : string;
  content : option string;
  image_url : option string;
  source : string;
  publish_date : option datetime;
  category : option string;
  url : string;
  is_active : option bool;
  created_at : option datetime;
  updated_at : option datetime
}.
End News.

(** The statements the service sends. *)
Inductive Stmt : Type :=
| CreateTableNews
| CreateTableNewsCategory
| CreateIndexes
| SelectIdByUrl (url : string)
| UpdateByUrl (article : Article.t) (category : string)
| InsertNews (id : string) (article : Article.t) (category : string)
| DeactivateOlderThan (cutoff : datetime)
| SelectCategoryCounts
| CountActive
| CountPublishedOn (day : Z)
| SelectActive (category : option string) (limit : Z).

(** One open connection.  [psycopg2] opens a transaction with the first
    statement and keeps it until [commit]: the rows the transaction sees,
    whether a statement of it has failed (every later statement is then
    refused and [commit] rolls back), and the time it started, which is
    what [NOW()] returns. *)
Record Tx : Type := mkTx {
  tx_rows : list News.row;
  tx_failed : bool;
  tx_start : datetime
}.

(** The result of the zero-shot call: labels and scores, best first. *)
Record Classification : Type := mkClassification {
  labels : list string;
  scores : list float
}.

Definition classifier_fn : Type :=
  string -> list string -> exn + Classification.

(** The log.  Records of level INFO are not kept. *)
Inductive Level : Type := WARNING | ERROR.

Record LogRecord : Type := mkLog { level : Level; message : string }.

(* ===================================================================== *)
(** ** The world and the monad *)
(* ===================================================================== *)

(** What the process cannot control: successive clock readings, the
    identifiers [uuid4] draws, which database operation fails for a
    reason of its own, the server's clock, the pages behind the URLs
    (fetched and parsed) and the result of loading the model. *)
Record Env : Type := mkEnv {
  clock : nat -> datetime;
  uuid4 : nat -> string;
  db_fault : nat -> option exn;
  db_now : nat -> datetime;
  web : string -> exn + Node;
  model : exn + classifier_fn
}.

(** The state of the process and of the store.  The functions of the
    source that take the connection [conn] as an argument act on the
    field [conn]. *)
Record World : Type := mkWorld {
  env : Env;
  clock_reads : nat;
  uuid_draws : nat;
  db_ops : nat;
  news : list News.row;        (* committed contents of table news *)
  conn : option Tx;            (* the open connection, if any *)
  log : list LogRecord;        (* records of level WARNING and above *)
  history : list Stmt          (* every statement given to a cursor so far *)
}.

Inductive Result (A : Type) : Type :=
| Ok (a : A)
| Raise (e : exn).
Arguments Ok {A} a.
Arguments Raise {A} e.

(** A computation over a state [S] that returns or raises; the state
    reached when it raises is kept. *)
Definition M (S A : Type) : Type := S -> Result A * S.

Definition ret {S A} (a : A) : M S A := fun s => (Ok a, s).

Definition raise {S A} (e : exn) : M S A := fun s => (Raise e, s).

Definition bind {S A B} (m : M S A) (f : A -> M S B) : M S B :=
  fun s =>
    match m s with
    | (Ok a, s') => f a s'
    | (Raise e, s') => (Raise e, s')
    end.

(** [try: m except Exception as e: h e] *)
Definition try_except {S A} (m : M S A) (h : exn -> M S A) : M S A :=
  fun s =>
    match m s with
    | (Ok a, s') => (Ok a, s')
    | (Raise e, s') => h e s'
    end.

Declare Scope py_scope.
Delimit Scope py_scope with py.
Notation "x <- m ;; k" := (bind m (fun x => k))
  (at level 61, m at next level, right associativity) : py_scope.
Notation "m ;; k" := (bind m (fun _ => k))
  (at level 61, right associativity) : py_scope.
Open Scope py_scope.

(** [for x in xs: body x] *)
Fixpoint for_each {S A} (xs : list A) (body : A -> M S unit) : M S unit :=
  match xs with
  | [] => ret tt
  | x :: xs' => body x ;; for_each xs' body
  end.

(** A local variable that the code mutates lives beside the world. *)
Definition lift {L S A} (m : M S A) : M (L * S) A :=
  fun ls =>
    match m (snd ls) with
    | (r, s') => (r, (fst ls, s'))
    end.

Definition get_local {L S} : M (L * S) L := fun ls => (Ok (fst ls), ls).

Definition modify_local {L S} (f : L -> L) : M (L * S) unit :=
  fun ls => (Ok tt, (f (fst ls), snd ls)).

(** Run [m] with a fresh local initialised to [l]. *)
Definition with_local {L S A} (l : L) (m : M (L * S) A) : M S A :=
  fun s =>
    match m (l, s) with
    | (r, (_, s')) => (r, s')
    end.

(* ===================================================================== *)
(** ** Primitive effects *)
(* ===================================================================== *)

Definition set_clock_reads (n : nat) (w : World) : World :=
  mkWorld (env w) n (uuid_draws w) (db_ops w) (news w) (conn w) (log w) (history w).
Definition set_uuid_draws (n : nat) (w : World) : World :=
  mkWorld (env w) (clock_reads w) n (db_ops w) (news w) (conn w) (log w) (history w).
Definition set_db_ops (n : nat) (w : World) : World :=
  mkWorld (env w) (clock_reads w) (uuid_draws w) n (news w) (conn w) (log w) (history w).
Definition set_news (rows : list News.row) (w : World) : World :=
  mkWorld (env w) (clock_reads w) (uuid_draws w) (db_ops w) rows (conn w) (log w) (history w).
Definition set_conn (c : option Tx) (w : World) : World :=
  mkWorld (env w) (clock_reads w) (uuid_draws w) (db_ops w) (news w) c (log w) (history w).
Definition set_log (l : list LogRecord) (w : World) : World :=
  mkWorld (env w) (clock_reads w) (uuid_draws w) (db_ops w) (news w) (conn w) l (history w).
Definition set_history (h : list Stmt) (w : World) : World :=
  mkWorld (env w) (clock_reads w) (uuid_draws w) (db_ops w) (news w) (conn w) (log w) h.

(** [logger.warning(msg)] and [logger.error(msg)].  The pictograph that
    opens some messages of the source is left out of the text. *)
Definition logger_warning (msg : string) : M World unit :=
  fun w => (Ok tt, set_log (log w ++ [mkLog WARNING msg]) w).
Definition logger_error (msg : string) : M World unit :=
  fun w => (Ok tt, set_log (log w ++ [mkLog ERROR msg]) w).

(** [datetime.now()] *)
Definition datetime_now : M World datetime :=
  fun w => (Ok (clock (env w) (clock_reads w)),
            set_clock_reads (S (clock_reads w)) w).

(** [str(uuid.uuid4())] *)
Definition new_uuid : M World string :=
  fun w => (Ok (uuid4 (env w) (uuid_draws w)),
            set_uuid_draws (S (uuid_draws w)) w).

(** [session.get(url, timeout=30)], [raise_for_status()] and the parse of
    the body. *)
Definition fetch_soup (url : string) : M World Node :=
  fun w =>
    match web (env w) url with
    | inl e => (Raise e, w)
    | inr soup => (Ok soup, w)
    end.

(** [psycopg2.connect] with the configured settings: a connection whose
    transaction sees the committed table. *)
Definition psycopg2_connect : M World unit :=
  fun w =>
    let k := db_ops w in
    let w1 := set_db_ops (S k) w in
    match db_fault (env w) k with
    | Some e => (Raise e, w1)
    | None => (Ok tt, set_conn (Some (mkTx (news w) false (db_now (env w) k))) w1)
    end.

Definition closed_error : exn := Exception "connection already closed".
Definition aborted_error : exn :=
  Exception "current transaction is aborted, commands ignored until end of transaction block".
Definition nul_error : exn :=
  Exception "A string literal cannot contain NUL (0x00) characters.".

(** The character NUL occurs in [s]. *)
Definition has_nul (s : string) : bool :=
  existsb (Ascii.eqb Ascii.zero) (list_ascii_of_string s).

(** The strings of a candidate that are given to a statement. *)
Definition article_strings (a : Article.t) : list string :=
  [Article.title a; Article.content a]
  ++ match Article.image_url a with Some i => [i] | None => [] end
  ++ [Article.source a; Article.url a].

(** The string parameters that [cursor.execute] is given with a
    statement.  The text of a fresh uuid holds no NUL and is left out. *)
Definition stmt_strings (stmt : Stmt) : list string :=
  match stmt with
  | SelectIdByUrl url => [url]
  | UpdateByUrl article category => category :: article_strings article
  | InsertNews _ article category => category :: article_strings article
  | SelectActive (Some category) _ => [category]
  | _ => []
  end.

(** [cursor.execute(stmt)] with the fetch that follows it.  On a closed
    connection the cursor cannot be had.  [psycopg2] then adapts the
    parameters, and refuses a string that holds a NUL before anything is
    sent: the transaction is as it was.  A statement that is sent fails
    when the environment says so, when the transaction has already
    failed, or when its own semantics [sem] rejects it; such a failure
    leaves the transaction failed. *)
Definition execute {A} (stmt : Stmt)
           (sem : Tx -> exn + (A * list News.row)) : M World A :=
  fun w =>
    let k := db_ops w in
    let w1 := set_history (history w ++ [stmt]) (set_db_ops (S k) w) in
    match conn w with
    | None => (Raise closed_error, w1)
    | Some t =>
        if existsb has_nul (stmt_strings stmt) then (Raise nul_error, w1)
        else
          let failed := Some (mkTx (tx_rows t) true (tx_start t)) in
          match db_fault (env w) k with
          | Some e => (Raise e, set_conn failed w1)
          | None =>
              if tx_failed t then (Raise aborted_error, w1)
              else match sem t with
                   | inl e => (Raise e, set_conn failed w1)
                   | inr (a, rows) =>
                       (Ok a, set_conn (Some (mkTx rows false (tx_start t))) w1)
                   end
          end
    end.

(** [conn.commit()]: the transaction's rows become the table, unless the
    transaction had failed, in which case it is rolled back. *)
Definition conn_commit : M World unit :=
  fun w =>
    let k := db_ops w in
    let w1 := set_db_ops (S k) w in
    match conn w with
    | None => (Raise closed_error, w1)
    | Some t =>
        match db_fault (env w) k with
        | Some e => (Raise e, w1)
        | None =>
            let rows := if tx_failed t then news w else tx_rows t in
            (Ok tt, set_conn (Some (mkTx rows false (db_now (env w) k)))
                      (set_news rows w1))
        end
    end.

(** [conn.close()]: what was not committed is lost. *)
Definition conn_close : M World unit :=
  fun w => (Ok tt, set_conn None w).

(* ===================================================================== *)
(** ** The statements' meaning on table [news] *)
(* ===================================================================== *)

Definition bind_sum {E A B} (x : E + A) (f : A -> E + B) : E + B :=
  match x with inl e => inl e | inr a => f a end.

Definition str_of_nat (n : nat) : string := NilEmpty.string_of_uint (Nat.to_uint n).

Definition all_spaces (s : string) : bool :=
  forallb (Ascii.eqb " ") (list_ascii_of_string s).

(** Storing [s] in a [VARCHAR(n)] column: a longer value is an error
    unless what exceeds [n] characters is spaces only. *)
Definition varchar (n : nat) (s : string) : exn + string :=
  if (String.length s <=? n)%nat then inr s
  else if all_spaces (substring n (String.length s - n) s)
       then inr (substring 0 n s)
       else inl (Exception ("value too long for type character varying("
                            ++ str_of_nat n ++ ")")).

Definition varchar_opt (n : nat) (s : option string) : exn + option string :=
  match s with
  | None => inr None
  | Some v => bind_sum (varchar n v) (fun v' => inr (Some v'))
  end.

Definition has_url (u : string) (r : News.row) : bool := String.eqb (News.url r) u.
Definition has_id (i : string) (r : News.row) : bool := String.eqb (News.id r) i.

(** [is_active = TRUE] *)
Definition active (r : News.row) : bool :=
  match News.is_active r with Some true => true | _ => false end.

(** [SELECT id FROM news WHERE url = %s] and [fetchone()] *)
Definition select_id_by_url (u : string) (rows : list News.row) : option string :=
  option_map News.id (find (has_url u) rows).

(** [UPDATE news SET title = %s, ..., is_active = TRUE, updated_at = NOW()
    WHERE url = %s]: the new values are checked against their columns,
    then every row with that url takes them. *)
Definition update_by_url (a : Article.t) (category : string) (now : datetime)
           (rows : list News.row) : exn + list News.row :=
  bind_sum (varchar 500 (Article.title a)) (fun t =>
  bind_sum (varchar_opt 1000 (Article.image_url a)) (fun i =>
  bind_sum (varchar 100 (Article.source a)) (fun s =>
  bind_sum (varchar 50 category) (fun c =>
  inr (map (fun r =>
              if has_url (Article.url a) r
              then News.mk (News.id r) t (Some (Article.content a)) i s
                     (Some (Article.publish_date a)) (Some c) (News.url r)
                     (Some true) (News.created_at r) (Some now)
              else r) rows))))).

(** [INSERT INTO news (id, title, ..., url, is_active) VALUES (..., TRUE)];
    [created_at] and [updated_at] take their default [NOW()]. *)
Definition insert_news (i : string) (a : Article.t) (category : string)
           (now : datetime) (rows : list News.row) : exn + list News.row :=
  bind_sum (varchar 500 (Article.title a)) (fun t =>
  bind_sum (varchar_opt 1000 (Article.image_url a)) (fun img =>
  bind_sum (varchar 100 (Article.source a)) (fun s =>
  bind_sum (varchar 50 category) (fun c =>
  bind_sum (varchar 1000 (Article.url a)) (fun u =>
  if existsb (has_id i) rows
  then inl (Exception "duplicate key value violates unique constraint news_pkey")
  else if existsb (has_url u) rows
  then inl (Exception "duplicate key value violates unique constraint news_url_key")
  else inr (rows ++ [News.mk i t (Some (Article.content a)) img s
                       (Some (Article.publish_date a)) (Some c) u
                       (Some true) (Some now) (Some now)])%list))))).

(** [publish_date < %s AND is_active = TRUE] *)
Definition stale (cutoff : datetime) (r : News.row) : bool :=
  match News.publish_date r with
  | Some p => (p <? cutoff) && active r
  | None => false
  end.

Definition deactivate (now : datetime) (r : News.row) : News.row :=
  News.mk (News.id r) (News.title r) (News.content r) (News.image_url r)
    (News.source r) (News.publish_date r) (News.category r) (News.url r)
    (Some false) (News.created_at r) (Some now).

(** [UPDATE news SET is_active = FALSE, updated_at = NOW()
    WHERE publish_date < %s AND is_active = TRUE], with its row count. *)
Definition deactivate_older_than (cutoff now : datetime)
           (rows : list News.row) : nat * list News.row :=
  (List.length (filter (stale cutoff) rows),
   map (fun r => if stale cutoff r then deactivate now r else r) rows).

(** [SELECT COUNT( * ) FROM news WHERE is_active = TRUE] *)
Definition count_active (rows : list News.row) : nat :=
  List.length (filter active rows).

Definition published_on (day : Z) (r : News.row) : bool :=
  match News.publish_date r with
  | Some p => date_of p =? day
  | None => false
  end.

(** [SELECT COUNT( * ) FROM news WHERE DATE(publish_date) = %s] *)
Definition count_published_on (day : Z) (rows : list News.row) : nat :=
  List.length (filter (published_on day) rows).

Definition opt_eqb (x y : option string) : bool :=
  match x, y with
  | Some a, Some b => String.eqb a b
  | None, None => true
  | _, _ => false
  end.

Fixpoint bump (c : option string) (acc : list (option string * nat))
  : list (option string * nat) :=
  match acc with
  | [] => [(c, 1%nat)]
  | (c', n) :: acc' =>
      if opt_eqb c c' then (c', S n) :: acc' else (c', n) :: bump c acc'
  end.

(** Insertion of [x] before the first element it is to precede: a stable
    sort, in the order [before]. *)
Fixpoint insert_sorted {A} (before : A -> A -> bool) (x : A) (l : list A) : list A :=
  match l with
  | [] => [x]
  | y :: l' => if before x y then x :: l else y :: insert_sorted before x l'
  end.

Definition sort_by {A} (before : A -> A -> bool) (l : list A) : list A :=
  fold_right (insert_sorted before) [] l.

(** [SELECT category, COUNT( * ) AS count FROM news WHERE is_active = TRUE
    GROUP BY category ORDER BY count DESC].  Groups with equal counts come
    in the order of their first row; PostgreSQL leaves that order open. *)
Definition category_counts (rows : list News.row) : list (option string * nat) :=
  sort_by (fun x y => (snd y <? snd x)%nat)
    (fold_left (fun acc r => bump (News.category r) acc) (filter active rows) []).

(** [ORDER BY publish_date DESC]: NULL first, then later before earlier. *)
Definition later (r1 r2 : News.row) : bool :=
  match News.publish_date r1, News.publish_date r2 with
  | None, Some _ => true
  | Some p1, Some p2 => p2 <? p1
  | _, _ => false
  end.

(** [SELECT ... FROM news WHERE is_active = TRUE [AND category = %s]
    ORDER BY publish_date DESC LIMIT %s].  The limit is a [bigint]: a
    number that is none is refused, as is a negative one. *)
Definition select_active (category : option string) (limit : Z)
           (rows : list News.row) : exn + list News.row :=
  if (limit <? - 2 ^ 63) || (2 ^ 63 <=? limit)
  then inl (Exception "bigint out of range")
  else if limit <? 0 then inl (Exception "LIMIT must not be negative")
  else
    let wanted r :=
      active r && match category with
                  | Some c => opt_eqb (News.category r) (Some c)
                  | None => true
                  end in
    inr (firstn (Z.to_nat limit) (sort_by later (filter wanted rows))).

Definition of_sum {S A} (x : exn + A) : M S A :=
  match x with inl e => raise e | inr a => ret a end.

(* ===================================================================== *)
(** ** Configuration *)
(* ===================================================================== *)

Record SiteConfig : Type := mkSite {
  site_name : string;
  site_url : string;
  site_type : string
}.

Definition TARGET_URLS : list SiteConfig :=
  [ mkSite "Nepal Agricultural Research Council" "https://narc.gov.np/news" "government";
    mkSite "Krishi Daily" "https://krishidaily.com" "news";
    mkSite "Nepal Agricultural Market" "https://nam.gov.np/news" "market";
    mkSite "Ministry of Agriculture" "https://moald.gov.np/news" "government" ].

(** The retention window of [deactivate_old_articles], in days. *)
Definition retention_days : Z := 7.

(** The literal [0.3] of [categorize_article]: the binary64 value nearest
    to three tenths. *)
Definition threshold : float := 0x1.3333333333333p-2%float.

Definition category_descriptions : list (string * string) :=
  [ ("crop_pests", "Information about crop diseases, pests, and plant health issues");
    ("market_prices", "Agricultural market prices, commodity prices, and market trends");
    ("weather_advisory", "Weather forecasts, climate information, and weather-related agricultural advice");
    ("policy_update", "Government policies, regulations, and agricultural policy changes");
    ("technology_innovation", "New agricultural technologies, innovations, and farming methods");
    ("fertilizer_seeds", "Information about fertilizers, seeds, and agricultural inputs");
    ("irrigation_water", "Irrigation systems, water management, and water-related agricultural topics");
    ("livestock_dairy", "Livestock farming, dairy production, and animal husbandry");
    ("organic_farming", "Organic farming practices, sustainable agriculture, and eco-friendly farming") ].

(* ===================================================================== *)
(** ** Web scraping *)
(* ===================================================================== *)

Section Scraping.
Context {lib : Library}.

(** [urljoin(base, elem[key]) if elem and elem.get(key) else None] *)
Definition joined_attr (base_url : string) (elem : option Node) (key : string)
  : exn + option string :=
  match elem with
  | Some e =>
      match get_attr key e with
      | Some v =>
          if truthy v
          then bind_sum (urljoin base_url v) (fun u => inr (Some u))
          else inr None
      | None => inr None
      end
  | None => inr None
  end.

Definition text_or (default : string) (elem : option Node) : string :=
  match elem with
  | Some e => get_text_strip e
  | None => default
  end.

(** Title of a container on the NARC page:
    [item.find('h2') or item.find('h3') or item.find('a')]. *)
Definition narc_title (item : Node) : string :=
  text_or "No title"
    (or_else (find_first (ByTag "h2") item)
       (or_else (find_first (ByTag "h3") item) (find_first (ByTag "a") item))).

(** The body of the loop over the containers of the NARC page. *)
Definition narc_item (base_url : string) (item : Node)
  : M (list Article.t * World) unit :=
  let title := narc_title item in
  url <- of_sum (joined_attr base_url (find_first (ByTag "a") item) "href") ;;
  match url with
  | None => ret tt
  | Some url =>
      if negb (truthy url) then ret tt
      else
        let content :=
          text_or ""
            (or_else (find_first (ByTag "p") item)
               (find_first (ByTagClass "div" "excerpt") item)) in
        image_url <- of_sum (joined_attr base_url (find_first (ByTag "img") item) "src") ;;
        let extracted :=
          match or_else (find_first (ByTag "time") item)
                  (find_first (ByTagClass "span" "date") item) with
          | Some date_elem => extract_date_from_text (get_text date_elem)
          | None => None
          end in
        publish_date <- match extracted with
                        | Some d => ret d
                        | None => lift datetime_now
                        end ;;
        modify_local (fun articles =>
          articles ++ [Article.mk title content image_url
                         "Nepal Agricultural Research Council" publish_date url])%list
  end.

(** [a or b or c] on result lists *)
Fixpoint first_nonempty {A} (ls : list (list A)) : list A :=
  match ls with
  | [] => []
  | [] :: rest => first_nonempty rest
  | l :: _ => l
  end.

Definition scrape_narc_news (base_url : string) : M World (list Article.t) :=
  with_local []
    (try_except
       (soup <- lift (fetch_soup base_url) ;;
        let news_items :=
          first_nonempty [find_all (ByTagClass "div" "news-item") soup;
                          find_all (ByTag "article") soup;
                          find_all (ByTagClass "div" "post") soup] in
        for_each (firstn 10 news_items) (fun item =>
          try_except (narc_item base_url item)
            (fun e => lift (logger_warning ("Error parsing article: " ++ exn_msg e)))))
       (fun e => lift (logger_error ("Error scraping NARC: " ++ exn_msg e))) ;;
     get_local).

Definition container_selectors : list selector :=
  [ByTag "article"; ByClass "post"; ByClass "news-item"; ByClass "entry";
   ByClass "story"; ByTagClassSub "div" "news"; ByTagClassSub "div" "article";
   ByTagClassSub "div" "post"].
Definition title_selectors : list selector :=
  [ByTag "h1"; ByTag "h2"; ByTag "h3"; ByClass "title"; ByClass "headline"].
Definition content_selectors : list selector :=
  [ByTag "p"; ByClass "excerpt"; ByClass "summary"; ByClass "content"].
Definition date_selectors : list selector :=
  [ByTag "time"; ByClass "date"; ByClass "published"; ByClass "timestamp"].

(** [for selector in selectors: elem = item.select_one(selector);
    if elem: text = elem.get_text(strip=True); break] *)
Fixpoint first_text (selectors : list selector) (item : Node) (default : string)
  : string :=
  match selectors with
  | [] => default
  | sel :: rest =>
      match find_first sel item with
      | Some elem => get_text_strip elem
      | None => first_text rest item default
      end
  end.

(** The loop over [date_selectors]: an element whose text gives no date
    passes to the next selector. *)
Fixpoint first_date (selectors : list selector) (item : Node) : option datetime :=
  match selectors with
  | [] => None
  | sel :: rest =>
      match find_first sel item with
      | Some date_elem =>
          match extract_date_from_text (get_text date_elem) with
          | Some d => Some d
          | None => first_date rest item
          end
      | None => first_date rest item
      end
  end.

(** Title of a container on any other page. *)
Definition generic_title (item : Node) : string :=
  first_text title_selectors item "No title".

Definition generic_item (site_config : SiteConfig) (item : Node)
  : M (list Article.t * World) unit :=
  let title := generic_title item in
  url <- of_sum (joined_attr (site_url site_config)
                   (find_first (ByTag "a") item) "href") ;;
  match url with
  | None => ret tt
  | Some url =>
      if negb (truthy url) then ret tt
      else
        let content := first_text content_selectors item "" in
        image_url <- of_sum (joined_attr (site_url site_config)
                               (find_first (ByTag "img") item) "src") ;;
        now <- lift datetime_now ;;
        let publish_date :=
          match first_date date_selectors item with
          | Some d => d
          | None => now
          end in
        modify_local (fun articles =>
          articles ++ [Article.mk title content image_url
                         (site_name site_config) publish_date url])%list
  end.

Definition scrape_generic_news (site_config : SiteConfig)
  : M World (list Article.t) :=
  with_local []
    (try_except
       (soup <- lift (fetch_soup (site_url site_config)) ;;
        let news_items :=
          first_nonempty (map (fun sel => find_all sel soup) container_selectors) in
        for_each (firstn 10 news_items) (fun item =>
          try_except (generic_item site_config item)
            (fun e => lift (logger_warning
                              ("Error parsing article from " ++ site_name site_config
                               ++ ": " ++ exn_msg e)))))
       (fun e => lift (logger_error
                         ("Error scraping " ++ site_name site_config
                          ++ ": " ++ exn_msg e))) ;;
     get_local).

(** [scrape_all_sites].  The session of [create_session] is behind
    [fetch_soup]; the pause between two sites has no counterpart here. *)
Definition scrape_all_sites : M World (list Article.t) :=
  with_local []
    (for_each TARGET_URLS (fun site_config =>
       articles <- lift
         (if String.eqb (site_name site_config) "Nepal Agricultural Research Council"
          then scrape_narc_news (site_url site_config)
          else scrape_generic_news site_config) ;;
       modify_local (fun all_articles => all_articles ++ articles)%list) ;;
     get_local).
End Scraping.

(* ===================================================================== *)
(** ** Categorisation *)
(* ===================================================================== *)

Record NewsCategorizer : Type := mkCategorizer {
  classifier : option classifier_fn
}.

(** [NewsCategorizer.__init__]: a model that fails to load leaves
    [self.classifier = None]. *)
Definition NewsCategorizer_init : M World NewsCategorizer :=
  fun w =>
    match model (env w) with
    | inr clf => (Ok (mkCategorizer (Some clf)), w)
    | inl e =>
        (logger_error ("Failed to initialize AI categorizer: " ++ exn_msg e) ;;
         ret (mkCategorizer None)) w
    end.

(** The loop that maps the best label back to a category name. *)
Fixpoint map_back (table : list (string * string)) (best_label : string)
         (best_score : float) : string :=
  match table with
  | [] => "uncategorized"
  | (category, description) :: rest =>
      if String.eqb description best_label
      then (if PrimFloat.ltb threshold best_score then category else "uncategorized")
      else map_back rest best_label best_score
  end.

Definition index_error : exn := Exception "list index out of range".

(** The [try] block of [categorize_article]. *)
Definition classify (clf : classifier_fn) (title content : string) : exn + string :=
  let text := slice_to 1000 (title ++ " " ++ content) in
  let candidate_labels := map snd category_descriptions in
  bind_sum (clf text candidate_labels) (fun result =>
  match scores result with
  | [] => inl index_error
  | best_score :: _ =>
      match labels result with
      | [] => inl index_error
      | best_label :: _ => inr (map_back category_descriptions best_label best_score)
      end
  end).

Definition categorize_article (self : NewsCategorizer) (title content : string)
  : M World string :=
  match classifier self with
  | None => ret "uncategorized"
  | Some clf =>
      try_except (of_sum (classify clf title content))
        (fun e => logger_error ("Error categorizing article: " ++ exn_msg e) ;;
                  ret "uncategorized")
  end.

(* ===================================================================== *)
(** ** Database operations *)
(* ===================================================================== *)

Definition no_change (t : Tx) : exn + (unit * list News.row) := inr (tt, tx_rows t).

(** [setup_database]: the tables and indexes are created if they do not
    exist; a failure is logged and raised again. *)
Definition setup_database : M World unit :=
  try_except
    (psycopg2_connect ;;
     execute CreateTableNews no_change ;;
     execute CreateTableNewsCategory no_change ;;
     execute CreateIndexes no_change ;;
     conn_commit ;;
     conn_close)
    (fun e => logger_error ("Database setup failed: " ++ exn_msg e) ;; raise e).

(** The [try] block of [upsert_article]. *)
Definition upsert_article_body (article : Article.t) (category : string)
  : M World bool :=
  existing <- execute (SelectIdByUrl (Article.url article))
                (fun t => inr (select_id_by_url (Article.url article) (tx_rows t),
                               tx_rows t)) ;;
  match existing with
  | Some _ =>
      execute (UpdateByUrl article category)
        (fun t => bind_sum (update_by_url article category (tx_start t) (tx_rows t))
                    (fun rows => inr (tt, rows))) ;;
      ret false
  | None =>
      i <- new_uuid ;;
      execute (InsertNews i article category)
        (fun t => bind_sum (insert_news i article category (tx_start t) (tx_rows t))
                    (fun rows => inr (tt, rows))) ;;
      ret true
  end.

Definition upsert_article (article : Article.t) (category : string) : M World bool :=
  try_except (upsert_article_body article category)
    (fun e => logger_error ("Error upserting article: " ++ exn_msg e) ;; ret false).

(** The [try] block of [deactivate_old_articles]; its value is
    [deactivated_count]. *)
Definition deactivate_old_articles_body : M World nat :=
  now <- datetime_now ;;
  let cutoff_date := now - timedelta_days retention_days in
  execute (DeactivateOlderThan cutoff_date)
    (fun t => inr (deactivate_older_than cutoff_date (tx_start t) (tx_rows t))).

Definition deactivate_old_articles : M World unit :=
  try_except (deactivate_old_articles_body ;; ret tt)
    (fun e => logger_error ("Error deactivating old articles: " ++ exn_msg e)).

Record SummaryStats : Type := mkSummary {
  category_stats : list (option string * nat);
  total_active : nat;
  today_count : nat
}.

Definition query {A} (stmt : Stmt) (f : list News.row -> A) : M World A :=
  execute stmt (fun t => inr (f (tx_rows t), tx_rows t)).

(** The [try] block of [get_summary_stats]. *)
Definition get_summary_stats_body : M World SummaryStats :=
  category_stats <- query SelectCategoryCounts category_counts ;;
  total_active <- query CountActive count_active ;;
  now <- datetime_now ;;
  let today := date_of now in
  today_count <- query (CountPublishedOn today) (count_published_on today) ;;
  ret (mkSummary category_stats total_active today_count).

(** [get_summary_stats]; [None] is the empty dictionary returned after a
    failure. *)
Definition get_summary_stats : M World (option SummaryStats) :=
  try_except (stats <- get_summary_stats_body ;; ret (Some stats))
    (fun e => logger_error ("Error getting summary stats: " ++ exn_msg e) ;; ret None).

(* ===================================================================== *)
(** ** Main pipeline *)
(* ===================================================================== *)

Record Stats : Type := mkStats {
  new_articles : nat;
  updated_articles : nat;
  errors : nat
}.

Definition incr_new (s : Stats) : Stats :=
  mkStats (S (new_articles s)) (updated_articles s) (errors s).
Definition incr_updated (s : Stats) : Stats :=
  mkStats (new_articles s) (S (updated_articles s)) (errors s).
Definition incr_errors (s : Stats) : Stats :=
  mkStats (new_articles s) (updated_articles s) (S (errors s)).

Section Pipeline.
Context {lib : Library}.

(** The body of [for article in articles]. *)
Definition process_article (categorizer : NewsCategorizer) (article : Article.t)
  : M (Stats * World) unit :=
  try_except
    (category <- lift (categorize_article categorizer
                         (Article.title article) (Article.content article)) ;;
     is_new <- lift (upsert_article article category) ;;
     if is_new : bool then modify_local incr_new else modify_local incr_updated)
    (fun e => lift (logger_error ("Error processing article: " ++ exn_msg e)) ;;
              modify_local incr_errors).

(** The outer [try] block of [run_news_pipeline]. *)
Definition run_news_pipeline_body : M (Stats * World) unit :=
  lift setup_database ;;
  categorizer <- lift NewsCategorizer_init ;;
  articles <- lift scrape_all_sites ;;
  match articles with
  | [] => lift (logger_warning "No articles found!")
  | _ :: _ =>
      lift psycopg2_connect ;;
      for_each articles (process_article categorizer) ;;
      lift deactivate_old_articles ;;
      summary_stats <- lift get_summary_stats ;;
      lift conn_commit ;;
      lift conn_close ;;
      end_time <- lift datetime_now ;;
      ret tt
  end.

(** [run_news_pipeline].  The function returns nothing; the value here
    is its local [stats] when it returns. *)
Definition run_news_pipeline : M World Stats :=
  start_time <- datetime_now ;;
  with_local (mkStats 0 0 0)
    (try_except run_news_pipeline_body
       (fun e => lift (logger_error ("Pipeline failed: " ++ exn_msg e)) ;;
                 modify_local incr_errors) ;;
     get_local).
End Pipeline.

(* ===================================================================== *)
(** ** REST API *)
(* ===================================================================== *)

Inductive json : Type :=
| JNull
| JBool (b : bool)
| JNum (n : Z)
| JStr (s : string)
| JArr (items : list json)
| JObj (fields : list (string * json)).

(** [request.args] *)
Record Request : Type := mkRequest {
  arg_category : option string;
  arg_limit : option string
}.

(** What a route returns: the payload given to [jsonify] and the status. *)
Definition Response : Type := (json * Z)%type.

Definition json_opt (s : option string) : json :=
  match s with Some v => JStr v | None => JNull end.

Definition error_response (e : exn) : Response :=
  (JObj [("success", JBool false); ("error", JStr (exn_msg e))], 500).

Section Api.
Context {lib : Library}.

Definition article_json (article : News.row) : json :=
  JObj [("id", JStr (News.id article));
        ("title", JStr (News.title article));
        ("content", json_opt (News.content article));
        ("image_url", json_opt (News.image_url article));
        ("source", JStr (News.source article));
        ("publish_date", json_opt (option_map isoformat (News.publish_date article)));
        ("category", json_opt (News.category article));
        ("url", JStr (News.url article))].

(** The [try] block of [get_news]. *)
Definition get_news_body (request : Request) : M World Response :=
  psycopg2_connect ;;
  let category := arg_category request in
  limit <- of_sum (match arg_limit request with
                   | Some s => py_int s
                   | None => inr 10
                   end) ;;
  let filter_by :=
    match category with
    | Some c => if truthy c then Some c else None
    | None => None
    end in
  articles <- execute (SelectActive filter_by limit)
                (fun t => bind_sum (select_active filter_by limit (tx_rows t))
                            (fun rows => inr (rows, tx_rows t))) ;;
  let result := map article_json articles in
  conn_close ;;
  ret (JObj [("success", JBool true);
             ("count", JNum (Z.of_nat (List.length result)));
             ("articles", JArr result)], 200).

Definition get_news (request : Request) : M World Response :=
  try_except (get_news_body request)
    (fun e => logger_error ("API error: " ++ exn_msg e) ;; ret (error_response e)).

(** The [try] block of [get_categories]. *)
Definition get_categories_body : M World Response :=
  psycopg2_connect ;;
  rows <- query SelectCategoryCounts category_counts ;;
  let categories :=
    map (fun row => JObj [("category", json_opt (fst row));
                          ("count", JNum (Z.of_nat (snd row)))]) rows in
  conn_close ;;
  ret (JObj [("success", JBool true); ("categories", JArr categories)], 200).

Definition get_categories : M World Response :=
  try_except get_categories_body
    (fun e => logger_error ("API error: " ++ exn_msg e) ;; ret (error_response e)).
End Api.

(** The strings that occur as values in a payload. *)
Fixpoint json_strings (j : json) : list string :=
  match j with
  | JStr s => [s]
  | JArr items => flat_map json_strings items
  | JObj fields =>
      flat_map (fun kv => match kv with (_, v) => json_strings v end) fields
  | _ => []
  end.

(** The payload carries [text] inside one of its strings. *)
Definition json_mentions (text : string) (j : json) : bool :=
  existsb (contains text) (json_strings j).

Definition json_field (key : string) (j : json) : option json :=
  match j with
  | JObj fields => option_map snd (find (fun kv => String.eqb (fst kv) key) fields)
  | _ => None
  end.

(* ===================================================================== *)
(** ** Notions used in the statements *)
(* ===================================================================== *)

(** Table [news] as the open connection sees it; the committed table when
    no connection is open. *)
Definition table (w : World) : list News.row :=
  match conn w with
  | Some t => tx_rows t
  | None => news w
  end.


(** The values of a candidate are within the widths of their columns. *)
Definition within_columns (a : Article.t) (category : string) : Prop :=
  (String.length (Article.title a) <= 500)%nat /\
  (forall i, Article.image_url a = Some i -> (String.length i <= 1000)%nat) /\
  (String.length (Article.source a) <= 100)%nat /\
  (String.length category <= 50)%nat /\
  (String.length (Article.url a) <= 1000)%nat.

(** The statements of [upsert_article], and those of [get_summary_stats]. *)
Definition is_upsert_stmt (s : Stmt) : Prop :=
  match s with
  | SelectIdByUrl _ | UpdateByUrl _ _ | InsertNews _ _ _ => True
  | _ => False
  end.

Definition is_summary_stmt (s : Stmt) : Prop :=
  match s with
  | SelectCategoryCounts | CountActive | CountPublishedOn _ => True
  | _ => False
  end.

Definition is_error (r : LogRecord) : bool :=
  match level r with ERROR => true | WARNING => false end.

(** How many records of level ERROR the log holds. *)
Definition error_count (w : World) : nat :=
  List.length (filter is_error (log w)).

(** The world after [stmt] was sent and left the connection as [c]. *)
Definition after_statement (stmt : Stmt) (c : option Tx) (w : World) : World :=
  set_conn c (set_history (history w ++ [stmt]) (set_db_ops (S (db_ops w)) w)).


(* ===================================================================== *)
(** ** An instance of the library, to run the model on examples *)
(* ===================================================================== *)

Definition digit_val (c : ascii) : Z := Z.of_nat (nat_of_ascii c) - 48.

Fixpoint number_from (acc : Z) (s : string) : option Z :=
  match s with
  | EmptyString => Some acc
  | String c s' =>
      if is_digit c then number_from (acc * 10 + digit_val c) s' else None
  end.

(** A run of decimal digits as a number. *)
Definition number (s : string) : option Z :=
  if truthy s then number_from 0 s else None.

Definition char_at (n : nat) (s : string) : string := substring n 1 s.

(** [dateutil.parser.parse] on the three numeric shapes that the patterns
    of the normaliser capture: [YYYY-MM-DD] reads year, month, day; in
    [NN/NN/YYYY] and [NN-NN-YYYY] the first number is the month unless it
    exceeds 12, when it is the day.  A date that does not exist, and any
    other text, is rejected. *)
Definition dateutil_parse (s : string) : option datetime :=
  let build (y m d : Z) :=
    if valid_date y m d then Some (datetime_ymd y m d) else None in
  if negb (String.length s =? 10)%nat then None
  else
    match number (substring 0 4 s), number (substring 5 2 s),
          number (substring 8 2 s) with
    | Some y, Some m, Some d =>
        if String.eqb (char_at 4 s) "-" && String.eqb (char_at 7 s) "-"
        then build y m d else None
    | _, _, _ =>
        match number (substring 0 2 s), number (substring 3 2 s),
              number (substring 6 4 s) with
        | Some a, Some b, Some y =>
            if String.eqb (char_at 2 s) (char_at 5 s)
               && (String.eqb (char_at 2 s) "-" || String.eqb (char_at 2 s) "/")
            then (if 12 <? a then build y b a else build y a b)
            else None
        | _, _, _ => None
        end
    end.

(** [s] up to the first character that satisfies [p], and the rest
    from that character on. *)
Fixpoint break_at (p : ascii -> bool) (s : string) : string * string :=
  match s with
  | EmptyString => ("", "")
  | String c s' =>
      if p c then ("", s)
      else let (a, b) := break_at p s' in (String c a, b)
  end.

(** [s.split(sep)] for a separator of one character *)
Fixpoint split_on (sep : ascii) (s : string) : list string :=
  match s with
  | EmptyString => [""]
  | String c s' =>
      if Ascii.eqb c sep then "" :: split_on sep s'
      else match split_on sep s' with
           | x :: l => String c x :: l
           | [] => [String c ""]
           end
  end.

Definition is_alpha (c : ascii) : bool :=
  let n := nat_of_ascii c in
  ((65 <=? n) && (n <=? 90) || (97 <=? n) && (n <=? 122))%nat.

(** The scheme of a link that has one, and the rest after the colon. *)
Definition url_scheme (url : string) : option (string * string) :=
  let scheme_char c :=
    is_alpha c || is_digit c || Ascii.eqb c "+" || Ascii.eqb c "-" || Ascii.eqb c "." in
  match break_at (fun c => negb (scheme_char c)) url with
  | (String c scheme, String ":" rest) =>
      if is_alpha c then Some (String c scheme, rest) else None
  | _ => None
  end.

(** A link without its scheme, taken apart: network location, path,
    query and fragment, each with the character that opens it. *)
Definition url_parts (rest : string) : string * string * string * string :=
  let ends_netloc c := Ascii.eqb c "/" || Ascii.eqb c "?" || Ascii.eqb c "#" in
  let ends_path c := Ascii.eqb c "?" || Ascii.eqb c "#" in
  let (netloc, after) :=
    if prefix "//" rest
    then let (n, r) := break_at ends_netloc (substring 2 (String.length rest - 2) rest) in
         ("//" ++ n, r)
    else ("", rest) in
  let (path, after_path) := break_at ends_path after in
  let (query, fragment) := break_at (Ascii.eqb "#") after_path in
  (netloc, path, query, fragment).

(** The dot segments of a path resolved, as [urljoin] does it. *)
Definition resolve_segments (segments : list string) : string :=
  let step resolved seg :=
    if String.eqb seg ".." then removelast resolved
    else if String.eqb seg "." then resolved
    else (resolved ++ [seg])%list in
  let resolved := fold_left step segments [] in
  let final := last segments "" in
  let resolved :=
    if String.eqb final "." || String.eqb final ".."
    then (resolved ++ [""])%list else resolved in
  let path := join "/" resolved in
  if truthy path then path else "/".

(** [urllib.parse.urljoin] for a base of scheme http or https: a link
    with a scheme of its own is kept; a link that names a host takes the
    scheme of the base; a link that is a query or a fragment only keeps
    the path of the base; any other link is resolved against the path of
    the base.  Parameters after a semicolon are not told apart from the
    path. *)
Definition simple_urljoin (base url : string) : exn + string :=
  if negb (truthy base) then inr url
  else if negb (truthy url) then inr base
  else
    match url_scheme url, url_scheme base with
    | Some _, _ => inr url
    | None, None => inr url
    | None, Some (scheme, base_rest) =>
        let '(bnetloc, bpath, bquery, _) := url_parts base_rest in
        let '(netloc, path, query, fragment) := url_parts url in
        if truthy netloc then inr (scheme ++ ":" ++ url)
        else if negb (truthy path)
        then inr (scheme ++ ":" ++ bnetloc ++ bpath
                  ++ (if truthy query then query else bquery) ++ fragment)
        else
          let segments :=
            if prefix "/" path then split_on "/" path
            else
              let base_parts := split_on "/" bpath in
              let base_parts :=
                if truthy (last base_parts "") then removelast base_parts
                else base_parts in
              match (base_parts ++ split_on "/" path)%list with
              | first :: (_ :: _) as rest =>
                  first :: (filter truthy (removelast rest) ++ [last rest ""])%list
              | segments => segments
              end in
          inr (scheme ++ ":" ++ bnetloc ++ resolve_segments segments
               ++ query ++ fragment)
    end.

(** A run of decimal digits in which single underscores may stand
    between digits. *)
Fixpoint grouped_number (acc : Z) (after_digit : bool) (s : string) : option Z :=
  match s with
  | EmptyString => if after_digit then Some acc else None
  | String c s' =>
      if is_digit c then grouped_number (acc * 10 + digit_val c) true s'
      else if Ascii.eqb c "_" && after_digit
      then match s' with
           | String d _ => if is_digit d then grouped_number acc false s' else None
           | EmptyString => None
           end
      else None
  end.

(** [int(s)] on a [str]: white space around the number is dropped, a
    sign may precede the digits.  The message shows the argument between
    single quotes, as [repr] does for a string without quotes. *)
Definition simple_int (s : string) : exn + Z :=
  let value :=
    match strip s with
    | String "+" digits => grouped_number 0 false digits
    | String "-" digits => option_map Z.opp (grouped_number 0 false digits)
    | digits => grouped_number 0 false digits
    end in
  match value with
  | Some n => inr n
  | None => inl (Exception ("invalid literal for int() with base 10: '" ++ s ++ "'"))
  end.

Definition pad (width : nat) (n : Z) : string :=
  let s := str_of_nat (Z.to_nat n) in
  String.concat "" (repeat "0" (width - String.length s)) ++ s.

(** The year in which day number [n] (0 for 0001-01-01) falls. *)
Definition year_of_day (n : Z) : Z :=
  let y := n * 400 / 146097 + 1 in
  if days_before_year (y + 1) <=? n then y + 1
  else if n <? days_before_year y then y - 1
  else y.

Fixpoint month_of_day (y : Z) (rest : Z) (k : nat) (m : Z) : Z * Z :=
  match k with
  | O => (m, rest)
  | S k' =>
      if rest <? days_in_month y m then (m, rest)
      else month_of_day y (rest - days_in_month y m) k' (m + 1)
  end.

(** [d.isoformat()] *)
Definition simple_isoformat (d : datetime) : string :=
  let day := date_of d in
  let us := d mod us_per_day in
  let y := year_of_day day in
  let '(m, r) := month_of_day y (day - days_before_year y) 11 1 in
  let secs := us / 1000000 in
  let frac := us mod 1000000 in
  pad 4 y ++ "-" ++ pad 2 m ++ "-" ++ pad 2 (r + 1) ++ "T"
  ++ pad 2 (secs / 3600) ++ ":" ++ pad 2 (secs / 60 mod 60) ++ ":" ++ pad 2 (secs mod 60)
  ++ (if frac =? 0 then "" else "." ++ pad 6 frac).

Definition example_library : Library :=
  {| date_parser_parse := dateutil_parse;
     urljoin := simple_urljoin;
     py_int := simple_int;
     isoformat := simple_isoformat |}.

(** What one pattern contributes on [text]: the date parsed from its
    leftmost match, if it matches and the match parses. *)
Definition attempt {lib : Library} (text : string) (pattern : regex)
  : option datetime :=
  match re_search pattern text with
  | Some date_str => date_parser_parse date_str
  | None => None
  end.

(* ===================================================================== *)
(** ** Pages and worlds used in the examples *)
(* ===================================================================== *)

Definition heading (tag text : string) : Node := Tag tag [] [] [Text text].

(** A container with a link, a paragraph and a date besides [headings]. *)
Definition container (headings : list Node) (link body date : string) : Node :=
  Tag "div" [] ["news-item"]
    (headings ++ [Tag "a" [("href", link)] [] [Text "read more"];
                  Tag "p" [] [] [Text body];
                  Tag "time" [] [] [Text date]])%list.

Definition item_h1_h2 : Node :=
  container [heading "h1" "Rice blast alert"; heading "h2" "Advisory"]
    "/news/1" "Blast reported in Chitwan" "2024-03-15".

Definition item_h2_only : Node :=
  container [heading "h2" "Advisory"] "/news/2" "Seed subsidy" "2024-03-16".

(** A description with which the classifier may answer. *)
Definition crop_pests_description : string :=
  "Information about crop diseases, pests, and plant health issues".

(** A classifier that always answers with the given label and score. *)
Definition constant_classifier (label : string) (score : float) : classifier_fn :=
  fun _ _ => inr (mkClassification [label] [score]).

Definition example_now : datetime := datetime_ymd 2024 3 20.

Definition page_of (items : list Node) : Node :=
  Tag "[document]" [] [] [Tag "body" [] [] items].

(** An environment in which the clock advances by a second per reading,
    the database operations named by [fault] fail, the NARC page is
    [narc_page] and the other sites do not answer. *)
Definition example_env (fault : nat -> option exn) (narc_page : exn + Node) : Env :=
  mkEnv (fun n => example_now + Z.of_nat n * 1000000)
        (fun n => "id-" ++ str_of_nat n)
        fault
        (fun _ => example_now)
        (fun u => if String.eqb u "https://narc.gov.np/news" then narc_page
                  else inl (Exception "404 Client Error"))
        (inr (constant_classifier crop_pests_description 0x1.ccccccccccccdp-1%float)).

Definition no_fault : nat -> option exn := fun _ => None.

(** The first database operation fails: the store is unreachable. *)
Definition unreachable : nat -> option exn :=
  fun k => if Nat.eqb k 0 then Some (Exception "connection refused") else None.

(** A process that has not yet connected, over the committed [rows]. *)
Definition start_world (e : Env) (rows : list News.row) : World :=
  mkWorld e 0 0 0 rows None [] [].

(** A process with an open connection whose transaction sees [rows]. *)
Definition connected_world (e : Env) (rows : list News.row) : World :=
  mkWorld e 0 0 0 rows (Some (mkTx rows false example_now)) [] [].

Definition example_row (i u : string) (published : datetime) (is_active : bool)
  : News.row :=
  News.mk i "Old title" (Some "Old content") None "Krishi Daily"
    (Some published) (Some "market_prices") u (Some is_active)
    (Some published) (Some published).

Definition example_article (title u : string) : Article.t :=
  Article.mk title "Content" None "Krishi Daily" example_now u.

(** A title of 501 characters, one more than column [title] holds. *)
Definition long_title : string := String.concat "" (repeat "x" 501).

(** No database fault, and no site answers. *)
Definition quiet_env : Env := example_env no_fault (inl (Exception "offline")).

Definition first_sighting : Article.t :=
  example_article "First title" "https://krishidaily.com/rice".
Definition second_sighting : Article.t :=
  example_article "Second title" "https://krishidaily.com/rice".

(** The cutoff that [deactivate_old_articles] computes when called in [w],
    and the day that [get_summary_stats] takes for today: both read the
    clock once. *)
Definition cutoff_in (w : World) : datetime :=
  clock (env w) (clock_reads w) - timedelta_days retention_days.

Definition today_in (w : World) : Z := date_of (clock (env w) (clock_reads w)).

(** Two active rows, published eight and six days before the first clock
    reading of the examples. *)
Definition eight_days_old : News.row :=
  example_row "id-8" "https://krishidaily.com/eight"
    (example_now - timedelta_days 8) true.
Definition six_days_old : News.row :=
  example_row "id-6" "https://krishidaily.com/six"
    (example_now - timedelta_days 6) true.

(** A row published on the day of the first clock reading, not active. *)
Definition inactive_today : News.row :=
  example_row "id-t" "https://krishidaily.com/today" example_now false.

(** A candidate whose title does not fit column [title]. *)
Definition long_article : Article.t :=
  example_article long_title "https://krishidaily.com/long".

(** The NARC page with one container, headed by [title]. *)
Definition narc_page_with (title : string) : Node :=
  page_of [container [heading "h2" title] "/news/1" "Body" "2024-03-19"].

(** The pipeline's state when the body of [run_news_pipeline] starts in
    [w]: fresh statistics, and the clock read once for [start_time]. *)
Definition at_start (w : World) : Stats * World :=
  (mkStats 0 0 0, set_clock_reads (S (clock_reads w)) w).

Definition pipeline_failed (e : exn) : LogRecord :=
  mkLog ERROR ("Pipeline failed: " ++ exn_msg e).

(** A process that cannot reach the store. *)
Definition unreachable_world : World :=
  start_world (example_env unreachable (inl (Exception "offline"))) [].

Definition plain_request : Request := mkRequest None None.

(** The payload of a route whose connection was refused. *)
Definition refused_payload : json :=
  JObj [("success", JBool false); ("error", JStr "connection refused")].

(** The connection is open and its transaction has not failed. *)
Definition healthy (w : World) : Prop :=
  match conn w with
  | Some t => tx_failed t = false
  | None => False
  end.

(** From [w] to [w'] the statements [sent] were sent, the committed table
    and the environment stayed as they were, and no error record was
    taken out of the log. *)
Record extends (sent : list Stmt) (w w' : World) : Prop := mkExtends {
  ext_env : env w' = env w;
  ext_news : news w' = news w;
  ext_history : history w' = (history w ++ sent)%list;
  ext_errors : (error_count w <= error_count w')%nat
}.

(** A store that holds one active row, eight days old, before a run in
    which the NARC page offers one candidate, and before a run in which
    no site answers. *)
Definition one_candidate_world : World :=
  start_world (example_env no_fault (inr (narc_page_with "Rice blast alert")))
    [eight_days_old].

Definition no_candidate_world : World := start_world quiet_env [eight_days_old].

Definition setup_statements : list Stmt :=
  [CreateTableNews; CreateTableNewsCategory; CreateIndexes].

(** The category names of the configuration section. *)
Definition CATEGORIES : list string :=
  ["crop_pests"; "market_prices"; "weather_advisory"; "policy_update";
   "technology_innovation"; "fertilizer_seeds"; "irrigation_water";
   "livestock_dairy"; "organic_farming"; "uncategorized"].

(** A classifier that raises. *)
Definition failing_classifier : classifier_fn :=
  fun _ _ => inl (Exception "CUDA out of memory").

(** A row for the url of the two sightings, published long ago and no
    longer active. *)
Definition retired_row : News.row :=
  example_row "id-r" "https://krishidaily.com/rice"
    (example_now - timedelta_days 30) false.

(** From [w] to [w'] the store was not used: no connection was opened or
    closed, no statement sent, nothing committed. *)
Definition store_untouched (w w' : World) : Prop :=
  env w' = env w /\ news w' = news w /\ conn w' = conn w /\
  history w' = history w /\ db_ops w' = db_ops w /\ uuid_draws w' = uuid_draws w.

(** A candidate of the site named [site]: it has a url and names its
    site as source. *)
Definition candidate_of (site : string) (a : Article.t) : Prop :=
  truthy (Article.url a) = true /\ Article.source a = site.

(** A store without rows before a run in which the NARC page offers two
    candidates: the first fits its columns, the title of the second is
    too long for column [title]. *)
Definition fitting_then_long_world : World :=
  start_world
    (example_env no_fault
       (inr (page_of [container [heading "h2" "Rice blast alert"]
                        "/news/1" "Body" "2024-03-19";
                      container [heading "h2" long_title]
                        "/news/2" "Body" "2024-03-19"])))
    [].

(** The category that [get_news] filters by: an empty [category]
    argument counts as none. *)
Definition requested_category (request : Request) : option string :=
  match arg_category request with
  | Some c => if truthy c then Some c else None
  | None => None
  end.

(** The rows that a query for [category] is about: the active ones, of
    that category when one is asked for. *)
Definition answers (category : option string) (r : News.row) : bool :=
  active r && match category with
              | Some c => opt_eqb (News.category r) (Some c)
              | None => true
              end.

(** [r1] comes no later than [r2] in [ORDER BY publish_date DESC]. *)
Definition not_after (r1 r2 : News.row) : Prop := later r2 r1 = false.

(** The number of active rows whose category is [c]. *)
Definition active_in_category (c : option string) (rows : list News.row) : nat :=
  List.length (filter (fun r => active r && opt_eqb (News.category r) c) rows).

Definition sum_counts (groups : list (option string * nat)) : nat :=
  fold_right (fun g total => (snd g + total)%nat) 0%nat groups.

(** A committed table of two active rows and one that is not. *)
Definition three_rows : list News.row := [eight_days_old; inactive_today; six_days_old].

(** A request for one article of any category, and one whose limit is
    not a number. *)
Definition one_of_any : Request := mkRequest (Some "") (Some "1").
Definition limit_ten_in_words : Request := mkRequest None (Some "ten").

(** An environment in which the classification model cannot be loaded. *)
Definition modelless_env : Env :=
  mkEnv (clock quiet_env) (uuid4 quiet_env) no_fault (db_now quiet_env)
        (web quiet_env) (inl (Exception "model not found")).

(** No string of the candidate, nor the category, holds a NUL: the
    driver accepts them as parameters. *)
Definition accepted_by_driver (a : Article.t) (category : string) : Prop :=
  existsb has_nul (category :: article_strings a) = false.


(** A connection whose transaction has failed, over one active row
    published eight days ago: what an upsert that the store refused
    leaves behind. *)
Definition aborted_world : World :=
  snd (upsert_article long_article "crop_pests"
         (connected_world quiet_env [eight_days_old])).

(** Containers whose only heading is an [h3], an element of class
    [title], an element of class [headline]; and one with a link only. *)
Definition item_h3_only : Node :=
  container [heading "h3" "Bulletin"] "/news/3" "Maize prices" "2024-03-17".
Definition item_title_class : Node :=
  container [Tag "span" [] ["title"] [Text "Market watch"]]
    "/news/4" "Tomato glut" "2024-03-18".
Definition item_headline_class : Node :=
  container [Tag "div" [] ["headline"] [Text "Monsoon outlook"]]
    "/news/5" "Rain expected" "2024-03-19".
Definition item_link_only : Node := container [] "/news/6" "Notice" "2024-03-19".

(** The sixth database operation fails: the connection that a run opens
    after the setup, which takes the first five, is refused. *)
Definition second_connect_refused : nat -> option exn :=
  fun k => if Nat.eqb k 5 then Some (Exception "connection refused") else None.

(** A store with one active row, eight days old, before a run in which
    the NARC page offers one candidate and the connection after the
    setup is refused. *)
Definition refused_after_setup_world : World :=
  start_world
    (example_env second_connect_refused (inr (narc_page_with "Rice blast alert")))
    [eight_days_old].

(** The table holds a row with url [u] that is active and published at
    [cutoff] or later. *)
Definition holds_fresh (u : string) (cutoff : datetime) (rows : list News.row) : Prop :=
  exists r p,
    In r rows /\ News.url r = u /\ News.is_active r = Some true /\
    News.publish_date r = Some p /\ cutoff <= p.

(** The strings that a pattern matches, as the syntax of [re] gives
    them: a digit, a white space, a character, a literal; one match
    after another; either alternative; between [lo] and [hi] matches in
    a row. *)
Inductive lang : regex -> string -> Prop :=
| lang_digit (c : ascii) : is_digit c = true -> lang Digit (String c "")
| lang_space (c : ascii) : is_space c = true -> lang Space (String c "")
| lang_chr (a : ascii) : lang (Chr a) (String a "")
| lang_lit (l : string) : lang (Lit l) l
| lang_seq (r1 r2 : regex) (m1 m2 : string) :
    lang r1 m1 -> lang r2 m2 -> lang (Seq r1 r2) (m1 ++ m2)
| lang_alt_l (r1 r2 : regex) (m : string) : lang r1 m -> lang (Alt r1 r2) m
| lang_alt_r (r1 r2 : regex) (m : string) : lang r2 m -> lang (Alt r1 r2) m
| lang_rep (r : regex) (lo : nat) (hi : option nat) (ms : list string) :
    Forall (lang r) ms ->
    (lo <= List.length ms)%nat ->
    (forall h, hi = Some h -> (List.length ms <= h)%nat) ->
    lang (Rep r lo hi) (fold_right append "" ms).

(** The pattern can match the empty string. *)
Fixpoint nullable (r : regex) : bool :=
  match r with
  | Digit | Space | Chr _ => false
  | Lit l => negb (truthy l)
  | Seq r1 r2 => nullable r1 && nullable r2
  | Alt r1 r2 => nullable r1 || nullable r2
  | Rep r1 lo _ => (lo =? 0)%nat || nullable r1
  end.

(** The bounds of every repetition are in order, and what is repeated
    without bound cannot match the empty string. *)
Fixpoint proper (r : regex) : bool :=
  match r with
  | Digit | Space | Chr _ | Lit _ => true
  | Seq r1 r2 | Alt r1 r2 => proper r1 && proper r2
  | Rep r1 lo (Some hi) => proper r1 && (lo <=? hi)%nat
  | Rep r1 lo None => proper r1 && negb (nullable r1)
  end.

(** A run of decimal digits; a run of white space. *)
Definition digit_run (s : string) : Prop :=
  forallb is_digit (list_ascii_of_string s) = true.
Definition space_run (s : string) : Prop :=
  forallb is_space (list_ascii_of_string s) = true.

(** The four shapes of a date, as the comments of the source name them:
    [YYYY-MM-DD], [MM/DD/YYYY], [DD-MM-YYYY], and one or two digits, a
    Nepali month and four digits with white space between them. *)
Definition is_iso_date (m : string) : Prop :=
  exists y mo d,
    m = y ++ "-" ++ mo ++ "-" ++ d /\
    digit_run y /\ String.length y = 4%nat /\
    digit_run mo /\ String.length mo = 2%nat /\
    digit_run d /\ String.length d = 2%nat.

Definition is_mdy_date (m : string) : Prop :=
  exists mo d y,
    m = mo ++ "/" ++ d ++ "/" ++ y /\
    digit_run mo /\ String.length mo = 2%nat /\
    digit_run d /\ String.length d = 2%nat /\
    digit_run y /\ String.length y = 4%nat.

Definition is_dmy_date (m : string) : Prop :=
  exists d mo y,
    m = d ++ "-" ++ mo ++ "-" ++ y /\
    digit_run d /\ String.length d = 2%nat /\
    digit_run mo /\ String.length mo = 2%nat /\
    digit_run y /\ String.length y = 4%nat.

Definition is_nepali_date (m : string) : Prop :=
  exists d gap1 month gap2 y,
    m = d ++ gap1 ++ month ++ gap2 ++ y /\
    digit_run d /\ (1 <= String.length d <= 2)%nat /\
    space_run gap1 /\ (1 <= String.length gap1)%nat /\
    In month ["Baisakh"; "Jestha"; "Asar"; "Shrawan"; "Bhadra"; "Ashoj";
              "Kartik"; "Mangsir"; "Poush"; "Magh"; "Falgun"; "Chaitra"] /\
    space_run gap2 /\ (1 <= String.length gap2)%nat /\
    digit_run y /\ String.length y = 4%nat.

(** At most one match of [r] starts at any position of a text. *)
Definition unambiguous (r : regex) : Prop :=
  forall m1 m2 rest1 rest2,
    lang r m1 -> lang r m2 -> m1 ++ rest1 = m2 ++ rest2 -> m1 = m2.

(** A candidate whose title holds a NUL character, which the driver
    refuses before anything is sent to the store. *)
Definition nul_article : Article.t :=
  example_article (String Ascii.zero "title") "https://krishidaily.com/nul".

(* ===================================================================== *)
(** * Properties *)
(* ===================================================================== *)

(** ** Strings *)

Lemma append_nil_r (s : string) : s ++ "" = s.
Proof. induction s; simpl; [reflexivity | rewrite IHs; reflexivity]. Qed.

Lemma append_assoc (s1 s2 s3 : string) : (s1 ++ s2) ++ s3 = s1 ++ s2 ++ s3.
Proof. induction s1; simpl; [reflexivity | rewrite IHs1; reflexivity]. Qed.

Lemma length_append (s1 s2 : string) :
  String.length (s1 ++ s2) = (String.length s1 + String.length s2)%nat.
Proof. induction s1; simpl; [reflexivity | rewrite IHs1; reflexivity]. Qed.

Lemma substring_all (s : string) : substring 0 (String.length s) s = s.
Proof. induction s; simpl; [reflexivity | rewrite IHs; reflexivity]. Qed.

Lemma substring_prefix (m rest : string) :
  substring 0 (String.length m) (m ++ rest) = m.
Proof.
  induction m; simpl; [destruct rest; reflexivity | rewrite IHm; reflexivity].
Qed.

Lemma substring_suffix (m rest : string) :
  substring (String.length m) (String.length rest) (m ++ rest) = rest.
Proof. induction m; simpl; [apply substring_all | exact IHm]. Qed.

Lemma prefix_append (l rest : string) : prefix l (l ++ rest) = true.
Proof.
  induction l as [|a l IH]; simpl; [destruct rest; reflexivity|].
  destruct (ascii_dec a a); [exact IH | contradiction].
Qed.

Lemma prefix_split (l s : string) :
  prefix l s = true ->
  s = l ++ substring (String.length l) (String.length s - String.length l) s.
Proof.
  revert s. induction l as [|a l IH]; intros s H.
  - simpl. rewrite Nat.sub_0_r, substring_all. reflexivity.
  - destruct s as [|b s]; [discriminate|]. simpl in H.
    destruct (ascii_dec a b) as [->|]; [|discriminate].
    simpl. f_equal. apply IH. exact H.
Qed.

Lemma append_empty (s1 s2 : string) : s1 ++ s2 = "" -> s1 = "" /\ s2 = "".
Proof. destruct s1; simpl; [intros ->; split; reflexivity | discriminate]. Qed.

(** ** The matcher against the patterns' languages *)

Lemma or_else_some {A} (x y : option A) (a : A) :
  or_else x y = Some a -> x = Some a \/ (x = None /\ y = Some a).
Proof. destruct x; simpl; intros H; [left; exact H | right; split; [reflexivity | exact H]]. Qed.

Lemma or_else_not_none {A} (x y : option A) :
  x <> None \/ y <> None -> or_else x y <> None.
Proof. destruct x; simpl; intros [H|H]; try discriminate; try exact H. contradiction. Qed.

Section MatcherFacts.
Context {A : Type}.

Section Steps.
Variable r : regex.
Variable step : string -> @cont A -> option A.
Hypothesis step_sound :
  forall s k a, step s k = Some a ->
                exists m rest, s = m ++ rest /\ lang r m /\ k rest = Some a.

Lemma exactly_sound (n : nat) :
  forall s k a,
    exactly step n s k = Some a ->
    exists ms rest,
      s = fold_right append "" ms ++ rest /\ Forall (lang r) ms /\
      List.length ms = n /\ k rest = Some a.
Proof.
  induction n as [|n IH]; intros s k a H; simpl in H.
  - exists [], s. split; [reflexivity|]. split; [constructor|].
    split; [reflexivity | exact H].
  - apply step_sound in H. destruct H as (m & rest & -> & Hm & H).
    apply IH in H. destruct H as (ms & rest' & -> & Hms & Hlen & H).
    exists (m :: ms), rest'. simpl. rewrite append_assoc.
    split; [reflexivity|]. split; [constructor; assumption|].
    split; [lia | exact H].
Qed.

Lemma at_most_sound (n : nat) :
  forall s k a,
    at_most step n s k = Some a ->
    exists ms rest,
      s = fold_right append "" ms ++ rest /\ Forall (lang r) ms /\
      (List.length ms <= n)%nat /\ k rest = Some a.
Proof.
  induction n as [|n IH]; intros s k a H; simpl in H.
  - exists [], s. split; [reflexivity|]. split; [constructor|].
    split; [simpl; lia | exact H].
  - apply or_else_some in H. destruct H as [H|[_ H]].
    + apply step_sound in H. destruct H as (m & rest & -> & Hm & H).
      apply IH in H. destruct H as (ms & rest' & -> & Hms & Hlen & H).
      exists (m :: ms), rest'. simpl. rewrite append_assoc.
      split; [reflexivity|]. split; [constructor; assumption|].
      split; [lia | exact H].
    + exists [], s. split; [reflexivity|]. split; [constructor|].
      split; [simpl; lia | exact H].
Qed.
End Steps.

Lemma fold_append_app (ms1 ms2 : list string) :
  fold_right append "" (ms1 ++ ms2)
  = fold_right append "" ms1 ++ fold_right append "" ms2.
Proof.
  induction ms1 as [|m ms1 IH]; simpl; [reflexivity|].
  rewrite IH, append_assoc. reflexivity.
Qed.

(** What the matcher accepts at the start of [s] is in the language of
    the pattern. *)
Lemma rmatch_sound (r : regex) :
  proper r = true ->
  forall s (k : @cont A) a,
    rmatch r s k = Some a ->
    exists m rest, s = m ++ rest /\ lang r m /\ k rest = Some a.
Proof.
  induction r as [| | c | l | r1 IH1 r2 IH2 | r1 IH1 r2 IH2 | r1 IH1 lo hi];
    intros Hp s k a H; simpl in H.
  - destruct s as [|c s]; [discriminate|].
    destruct (is_digit c) eqn:Hc; [|discriminate].
    exists (String c ""), s. split; [reflexivity|].
    split; [constructor; exact Hc | exact H].
  - destruct s as [|c s]; [discriminate|].
    destruct (is_space c) eqn:Hc; [|discriminate].
    exists (String c ""), s. split; [reflexivity|].
    split; [constructor; exact Hc | exact H].
  - destruct s as [|c' s]; [discriminate|].
    destruct (Ascii.eqb_spec c c') as [<-|]; [|discriminate].
    exists (String c ""), s. split; [reflexivity|].
    split; [constructor | exact H].
  - destruct (prefix l s) eqn:Hl; [|discriminate].
    exists l. eexists. split; [apply prefix_split; exact Hl|].
    split; [constructor | exact H].
  - simpl in Hp. apply andb_prop in Hp. destruct Hp as [Hp1 Hp2].
    apply (IH1 Hp1) in H. destruct H as (m1 & rest1 & -> & Hm1 & H).
    apply (IH2 Hp2) in H. destruct H as (m2 & rest2 & -> & Hm2 & H).
    exists (m1 ++ m2), rest2. rewrite append_assoc.
    split; [reflexivity|]. split; [constructor; assumption | exact H].
  - simpl in Hp. apply andb_prop in Hp. destruct Hp as [Hp1 Hp2].
    apply or_else_some in H. destruct H as [H|[_ H]].
    + apply (IH1 Hp1) in H. destruct H as (m & rest & -> & Hm & H).
      exists m, rest. split; [reflexivity|].
      split; [apply lang_alt_l; exact Hm | exact H].
    + apply (IH2 Hp2) in H. destruct H as (m & rest & -> & Hm & H).
      exists m, rest. split; [reflexivity|].
      split; [apply lang_alt_r; exact Hm | exact H].
  - assert (Hp1 : proper r1 = true)
      by (simpl in Hp; destruct hi; apply andb_prop in Hp; apply Hp).
    apply (exactly_sound r1 _ (IH1 Hp1)) in H.
    destruct H as (ms1 & rest1 & -> & Hms1 & Hlen1 & H).
    apply (at_most_sound r1 _ (IH1 Hp1)) in H.
    destruct H as (ms2 & rest2 & -> & Hms2 & Hlen2 & H).
    exists (fold_right append "" (ms1 ++ ms2)), rest2.
    split; [rewrite fold_append_app, append_assoc; reflexivity|].
    split; [|exact H].
    constructor.
    + apply Forall_app. split; assumption.
    + rewrite length_app. lia.
    + intros h ->. simpl in Hp. apply andb_prop in Hp. destruct Hp as [_ Hb].
      apply Nat.leb_le in Hb. rewrite length_app. lia.
Qed.
End MatcherFacts.

Lemma fold_append_empty (ms : list string) :
  fold_right append "" ms = "" -> Forall (fun m => m = "") ms.
Proof.
  induction ms as [|m ms IH]; simpl; intros H; constructor.
  - apply append_empty in H. apply H.
  - apply IH. apply append_empty in H. apply H.
Qed.

(** A pattern that matches the empty string is [nullable]. *)
Lemma lang_empty (r : regex) : lang r "" -> nullable r = true.
Proof.
  induction r as [| | c | l | r1 IH1 r2 IH2 | r1 IH1 r2 IH2 | r1 IH1 lo hi];
    intros H; inversion H; subst; simpl.
  - reflexivity.
  - match goal with E : _ ++ _ = "" |- _ => apply append_empty in E; destruct E as [-> ->] end.
    rewrite IH1, IH2 by assumption. reflexivity.
  - rewrite IH1 by assumption. reflexivity.
  - rewrite IH2 by assumption. apply orb_true_r.
  - destruct lo as [|lo]; [reflexivity|]. simpl.
    match goal with E : fold_right append "" ?ms = "" |- _ =>
      apply fold_append_empty in E; destruct ms as [|m ms]; [simpl in *; lia|];
      inversion E; subst end.
    match goal with F : Forall (lang r1) (_ :: _) |- _ => inversion F; subst end.
    apply IH1. assumption.
Qed.

Lemma fold_append_length (r : regex) (ms : list string) :
  nullable r = false -> Forall (lang r) ms ->
  (List.length ms <= String.length (fold_right append "" ms))%nat.
Proof.
  intros Hn. induction 1 as [|m ms Hm _ IH]; simpl; [lia|].
  rewrite length_append.
  destruct m as [|c m]; [apply lang_empty in Hm; congruence|]. simpl. lia.
Qed.

Section MatcherComplete.
Context {A : Type}.

Section Steps.
Variable r : regex.
Variable step : string -> @cont A -> option A.
Hypothesis step_complete :
  forall m, lang r m ->
  forall rest k, k rest <> None -> step (m ++ rest) k <> None.

Lemma exactly_complete (ms : list string) :
  Forall (lang r) ms ->
  forall rest k, k rest <> None ->
  exactly step (List.length ms) (fold_right append "" ms ++ rest) k <> None.
Proof.
  induction 1 as [|m ms Hm _ IH]; intros rest k Hk; simpl; [exact Hk|].
  rewrite append_assoc. apply step_complete; [exact Hm|]. apply IH. exact Hk.
Qed.

Lemma at_most_complete (ms : list string) :
  Forall (lang r) ms ->
  forall n rest k, (List.length ms <= n)%nat -> k rest <> None ->
  at_most step n (fold_right append "" ms ++ rest) k <> None.
Proof.
  induction 1 as [|m ms Hm _ IH]; intros n rest k Hn Hk.
  - simpl. destruct n as [|n]; simpl; [exact Hk|].
    apply or_else_not_none. right. exact Hk.
  - destruct n as [|n]; [simpl in Hn; lia|]. simpl.
    apply or_else_not_none. left. rewrite append_assoc.
    apply step_complete; [exact Hm|]. apply IH; [simpl in Hn; lia | exact Hk].
Qed.
End Steps.

(** The matcher finds a match wherever the language of the pattern has
    one and the rest of the text satisfies what follows. *)
Lemma rmatch_complete (r : regex) :
  proper r = true ->
  forall m, lang r m ->
  forall rest (k : @cont A), k rest <> None -> rmatch r (m ++ rest) k <> None.
Proof.
  induction r as [| | c | l | r1 IH1 r2 IH2 | r1 IH1 r2 IH2 | r1 IH1 lo hi];
    intros Hp m Hm rest k Hk; inversion Hm; subst; simpl.
  - match goal with E : is_digit _ = true |- _ => rewrite E end. exact Hk.
  - match goal with E : is_space _ = true |- _ => rewrite E end. exact Hk.
  - rewrite Ascii.eqb_refl. exact Hk.
  - rewrite prefix_append, length_append, Nat.add_comm, Nat.add_sub, substring_suffix.
    exact Hk.
  - simpl in Hp. apply andb_prop in Hp. destruct Hp as [Hp1 Hp2].
    rewrite append_assoc. apply (IH1 Hp1); [assumption|].
    apply (IH2 Hp2); assumption.
  - simpl in Hp. apply andb_prop in Hp. destruct Hp as [Hp1 Hp2].
    apply or_else_not_none. left. apply (IH1 Hp1); assumption.
  - simpl in Hp. apply andb_prop in Hp. destruct Hp as [Hp1 Hp2].
    apply or_else_not_none. right. apply (IH2 Hp2); assumption.
  - assert (Hp1 : proper r1 = true)
      by (simpl in Hp; destruct hi; apply andb_prop in Hp; apply Hp).
    match goal with
    | F : Forall (lang r1) ?ms, L : (lo <= List.length ?ms)%nat,
      U : forall h, hi = Some h -> _ |- _ =>
        rename ms into matches_; rename F into Hall; rename L into Hlo; rename U into Hhi
    end.
    rewrite <- (firstn_skipn lo matches_), fold_append_app, append_assoc.
    assert (Hfirst : List.length (firstn lo matches_) = lo)
      by (rewrite length_firstn; lia).
    rewrite <- Hfirst at 1.
    assert (Hall1 : Forall (lang r1) (firstn lo matches_)).
    { rewrite Forall_forall in *. intros x Hx. apply Hall.
      rewrite <- (firstn_skipn lo matches_). apply in_or_app. left. exact Hx. }
    assert (Hall2 : Forall (lang r1) (skipn lo matches_)).
    { rewrite Forall_forall in *. intros x Hx. apply Hall.
      rewrite <- (firstn_skipn lo matches_). apply in_or_app. right. exact Hx. }
    apply (exactly_complete r1 _ (IH1 Hp1) _ Hall1).
    apply (at_most_complete r1 _ (IH1 Hp1) _ Hall2); [|exact Hk].
    rewrite length_skipn. destruct hi as [h|].
    + specialize (Hhi h eq_refl). lia.
    + simpl in Hp. apply andb_prop in Hp. destruct Hp as [_ Hnn].
      apply negb_true_iff in Hnn.
      pose proof (fold_append_length r1 _ Hnn Hall2) as Hlen.
      rewrite length_skipn in Hlen. rewrite length_append. lia.
Qed.
End MatcherComplete.

(** ** [re.search] against the patterns' languages *)

Lemma match_here_sound (r : regex) (s m : string) :
  proper r = true -> match_here r s = Some m ->
  exists rest, s = m ++ rest /\ lang r m.
Proof.
  unfold match_here. intros Hp H.
  destruct (rmatch r s (fun rest => Some rest)) as [rest|] eqn:E; [|discriminate].
  apply (rmatch_sound r Hp) in E. destruct E as (m' & rest' & -> & Hm & Hk).
  injection Hk as ->. injection H as <-.
  rewrite length_append, Nat.add_sub, substring_prefix.
  exists rest. split; [reflexivity | exact Hm].
Qed.

Lemma match_here_complete (r : regex) (m rest : string) :
  proper r = true -> lang r m -> match_here r (m ++ rest) <> None.
Proof.
  unfold match_here. intros Hp Hm.
  destruct (rmatch r (m ++ rest) (fun rest => Some rest)) eqn:E; [discriminate|].
  exfalso. revert E. apply (rmatch_complete r Hp m Hm). discriminate.
Qed.

(** [re.search] returns a substring of the text that is in the language
    of the pattern, and no match of the pattern starts before it. *)
Lemma re_search_sound (r : regex) :
  proper r = true ->
  forall text m,
    re_search r text = Some m ->
    exists pre post,
      text = pre ++ m ++ post /\ lang r m /\
      forall pre1 m1 post1,
        text = pre1 ++ m1 ++ post1 -> lang r m1 ->
        (String.length pre <= String.length pre1)%nat.
Proof.
  intros Hp. induction text as [|c text IH]; intros m H; simpl in H.
  - destruct (match_here r "") as [m'|] eqn:E; [|discriminate].
    injection H as ->. apply (match_here_sound r _ _ Hp) in E.
    destruct E as (rest & Hs & Hm). exists "", rest.
    split; [exact Hs|]. split; [exact Hm|]. intros; simpl; lia.
  - destruct (match_here r (String c text)) as [m'|] eqn:E.
    + injection H as ->. apply (match_here_sound r _ _ Hp) in E.
      destruct E as (rest & Hs & Hm). exists "", rest.
      split; [exact Hs|]. split; [exact Hm|]. intros; simpl; lia.
    + apply IH in H. destruct H as (pre & post & -> & Hm & Hleft).
      exists (String c pre), post. split; [reflexivity|]. split; [exact Hm|].
      intros pre1 m1 post1 Hs Hm1. destruct pre1 as [|c1 pre1].
      * exfalso. simpl in Hs. rewrite Hs in E.
        revert E. apply match_here_complete; assumption.
      * simpl in Hs. injection Hs as _ Hs. simpl.
        apply le_n_S. apply (Hleft pre1 m1 post1); assumption.
Qed.

(** [re.search] finds a match in every text that has one. *)
Lemma re_search_complete (r : regex) (pre m post : string) :
  proper r = true -> lang r m -> re_search r (pre ++ m ++ post) <> None.
Proof.
  intros Hp Hm. induction pre as [|c pre IH]; simpl.
  - pose proof (match_here_complete r m post Hp Hm) as Hh.
    destruct (m ++ post) as [|c s] eqn:E; simpl;
      destruct (match_here r _); try discriminate; contradiction.
  - destruct (match_here r (String c (pre ++ m ++ post))); [discriminate | exact IH].
Qed.

(** ** The languages of the four patterns *)

Lemma lang_seq_iff (r1 r2 : regex) (m : string) :
  lang (Seq r1 r2) m <-> exists m1 m2, m = m1 ++ m2 /\ lang r1 m1 /\ lang r2 m2.
Proof.
  split.
  - intros H. inversion H; subst. eexists. eexists.
    split; [reflexivity|]. split; assumption.
  - intros (m1 & m2 & -> & H1 & H2). constructor; assumption.
Qed.

Lemma lang_chr_iff (a : ascii) (m : string) : lang (Chr a) m <-> m = String a "".
Proof.
  split; [intros H; inversion H; reflexivity | intros ->; constructor].
Qed.

Lemma lang_alt_of (l : list string) (m : string) :
  l <> [] -> (lang (alt_of l) m <-> In m l).
Proof.
  induction l as [|s l IH]; intros Hne; [contradiction|].
  destruct l as [|s' l].
  - simpl. split.
    + intros H. inversion H. left. reflexivity.
    + intros [<-|[]]. constructor.
  - change (alt_of (s :: s' :: l)) with (Alt (Lit s) (alt_of (s' :: l))). split.
    + intros H. inversion H; subst.
      * match goal with L : lang (Lit _) _ |- _ => inversion L end. left. reflexivity.
      * right. apply IH; [discriminate | assumption].
    + intros [<-|Hin].
      * apply lang_alt_l. constructor.
      * apply lang_alt_r. apply IH; [discriminate | exact Hin].
Qed.

Section ClassRuns.
Variable cls : regex.
Variable p : ascii -> bool.
Hypothesis lang_cls : forall m, lang cls m <-> exists c, m = String c "" /\ p c = true.

Lemma class_matches (ms : list string) :
  Forall (lang cls) ms ->
  forallb p (list_ascii_of_string (fold_right append "" ms)) = true /\
  String.length (fold_right append "" ms) = List.length ms.
Proof.
  induction 1 as [|m ms Hm _ [IH1 IH2]]; simpl; [split; reflexivity|].
  apply lang_cls in Hm. destruct Hm as (c & -> & Hc). simpl.
  rewrite Hc, IH1, IH2. split; reflexivity.
Qed.

Lemma class_run (lo : nat) (hi : option nat) (m : string) :
  lang (Rep cls lo hi) m <->
  forallb p (list_ascii_of_string m) = true /\
  (lo <= String.length m)%nat /\
  (forall h, hi = Some h -> (String.length m <= h)%nat).
Proof.
  split.
  - intros H. inversion H as [| | | | | | |r lo' hi' ms Hall Hlo Hhi]; subst.
    destruct (class_matches ms Hall) as [Hp Hlen].
    split; [exact Hp|]. rewrite Hlen. split; assumption.
  - intros (Hp & Hlo & Hhi).
    assert (Hm : m = fold_right append ""
                       (map (fun c => String c "") (list_ascii_of_string m)))
      by (clear; induction m; simpl; [reflexivity | f_equal; assumption]).
    assert (Hlen : List.length (map (fun c => String c "") (list_ascii_of_string m))
                   = String.length m)
      by (rewrite length_map; clear; induction m; simpl; [reflexivity | f_equal; assumption]).
    rewrite Hm. constructor.
    + rewrite forallb_forall in Hp. apply Forall_forall. intros x Hx.
      apply in_map_iff in Hx. destruct Hx as (c & <- & Hc).
      apply lang_cls. exists c. split; [reflexivity | apply Hp, Hc].
    + rewrite Hlen. exact Hlo.
    + rewrite Hlen. exact Hhi.
Qed.
End ClassRuns.

Lemma lang_digit_iff (m : string) :
  lang Digit m <-> exists c, m = String c "" /\ is_digit c = true.
Proof.
  split.
  - intros H. inversion H; subst. eexists. split; [reflexivity | assumption].
  - intros (c & -> & Hc). constructor. exact Hc.
Qed.

Lemma lang_space_iff (m : string) :
  lang Space m <-> exists c, m = String c "" /\ is_space c = true.
Proof.
  split.
  - intros H. inversion H; subst. eexists. split; [reflexivity | assumption].
  - intros (c & -> & Hc). constructor. exact Hc.
Qed.

Lemma lang_digits (n : nat) (m : string) :
  lang (digits n) m <-> digit_run m /\ String.length m = n.
Proof.
  unfold digits, digit_run. rewrite (class_run Digit is_digit lang_digit_iff).
  split.
  - intros (Hp & Hlo & Hhi). split; [exact Hp|]. specialize (Hhi n eq_refl). lia.
  - intros (Hp & <-). split; [exact Hp|]. split; [lia|].
    intros h Hh. injection Hh as <-. lia.
Qed.

(** A numeric date: three runs of digits of the given lengths, with the
    same separator between them. *)
Lemma lang_numeric (n1 n2 n3 : nat) (sep : ascii) (m : string) :
  lang (seq_of [digits n1; Chr sep; digits n2; Chr sep; digits n3]) m <->
  exists a b c,
    m = a ++ String sep (b ++ String sep c) /\
    digit_run a /\ String.length a = n1 /\
    digit_run b /\ String.length b = n2 /\
    digit_run c /\ String.length c = n3.
Proof.
  change (seq_of [digits n1; Chr sep; digits n2; Chr sep; digits n3])
    with (Seq (digits n1) (Seq (Chr sep) (Seq (digits n2) (Seq (Chr sep) (digits n3))))).
  split.
  - intros H.
    apply lang_seq_iff in H. destruct H as (a & m2 & -> & Ha & H).
    apply lang_seq_iff in H. destruct H as (s1 & m3 & -> & Hs1 & H).
    apply lang_seq_iff in H. destruct H as (b & m4 & -> & Hb & H).
    apply lang_seq_iff in H. destruct H as (s2 & c & -> & Hs2 & Hc).
    apply lang_chr_iff in Hs1, Hs2. subst s1 s2.
    apply lang_digits in Ha, Hb, Hc.
    exists a, b, c. split; [reflexivity|]. tauto.
  - intros (a & b & c & -> & Ha & Hla & Hb & Hlb & Hc & Hlc).
    apply lang_seq_iff. exists a. eexists. split; [reflexivity|].
    split; [apply lang_digits; split; assumption|].
    apply lang_seq_iff. exists (String sep ""). eexists. split; [reflexivity|].
    split; [constructor|].
    apply lang_seq_iff. exists b. eexists. split; [reflexivity|].
    split; [apply lang_digits; split; assumption|].
    apply lang_seq_iff. exists (String sep ""), c. split; [reflexivity|].
    split; [constructor | apply lang_digits; split; assumption].
Qed.

Lemma lang_pattern_iso (m : string) : lang pattern_iso m <-> is_iso_date m.
Proof. exact (lang_numeric 4 2 2 "-" m). Qed.

Lemma lang_pattern_mdy (m : string) : lang pattern_mdy m <-> is_mdy_date m.
Proof. exact (lang_numeric 2 2 4 "/" m). Qed.

Lemma lang_pattern_dmy (m : string) : lang pattern_dmy m <-> is_dmy_date m.
Proof. exact (lang_numeric 2 2 4 "-" m). Qed.

Lemma lang_pattern_nepali (m : string) : lang pattern_nepali m <-> is_nepali_date m.
Proof.
  change pattern_nepali
    with (Seq (Rep Digit 1 (Some 2%nat))
            (Seq (Rep Space 1 None)
               (Seq (alt_of nepali_months) (Seq (Rep Space 1 None) (digits 4))))).
  unfold is_nepali_date, digit_run, space_run. split.
  - intros H.
    apply lang_seq_iff in H. destruct H as (d & m2 & -> & Hd & H).
    apply lang_seq_iff in H. destruct H as (g1 & m3 & -> & Hg1 & H).
    apply lang_seq_iff in H. destruct H as (mo & m4 & -> & Hmo & H).
    apply lang_seq_iff in H. destruct H as (g2 & y & -> & Hg2 & Hy).
    apply (class_run Digit is_digit lang_digit_iff) in Hd.
    apply (class_run Space is_space lang_space_iff) in Hg1, Hg2.
    apply lang_digits in Hy.
    apply lang_alt_of in Hmo; [|discriminate].
    destruct Hd as (Hd & Hd1 & Hd2). specialize (Hd2 2%nat eq_refl).
    exists d, g1, mo, g2, y. split; [reflexivity|].
    split; [exact Hd|]. split; [lia|].
    split; [apply Hg1|]. split; [apply Hg1|].
    split; [exact Hmo|].
    split; [apply Hg2|]. split; [apply Hg2|]. exact Hy.
  - intros (d & g1 & mo & g2 & y & -> & Hd & Hld & Hg1 & Hl1 & Hmo & Hg2 & Hl2 & Hy).
    apply lang_seq_iff. exists d. eexists. split; [reflexivity|]. split.
    { apply (class_run Digit is_digit lang_digit_iff).
      split; [exact Hd|]. split; [lia|]. intros h Hh. injection Hh as <-. lia. }
    apply lang_seq_iff. exists g1. eexists. split; [reflexivity|]. split.
    { apply (class_run Space is_space lang_space_iff).
      split; [exact Hg1|]. split; [exact Hl1|]. discriminate. }
    apply lang_seq_iff. exists mo. eexists. split; [reflexivity|]. split.
    { apply lang_alt_of; [discriminate | exact Hmo]. }
    apply lang_seq_iff. exists g2, y. split; [reflexivity|]. split.
    { apply (class_run Space is_space lang_space_iff).
      split; [exact Hg2|]. split; [exact Hl2|]. discriminate. }
    apply lang_digits. exact Hy.
Qed.

(** ** One match at a position *)

Lemma append_same_length (a b x y : string) :
  a ++ x = b ++ y -> String.length a = String.length b -> a = b /\ x = y.
Proof.
  revert b. induction a as [|c a IH]; intros [|c' b] H Hl; simpl in *;
    try discriminate.
  - split; [reflexivity | exact H].
  - injection H as -> H. injection Hl as Hl.
    destruct (IH b H Hl) as [-> ->]. split; reflexivity.
Qed.

Lemma fixed_length_unambiguous (r : regex) (n : nat) :
  (forall m, lang r m -> String.length m = n) -> unambiguous r.
Proof.
  intros Hn m1 m2 rest1 rest2 H1 H2 H.
  apply (append_same_length m1 m2 rest1 rest2 H).
  rewrite (Hn m1 H1), (Hn m2 H2). reflexivity.
Qed.

Lemma numeric_length (n1 n2 n3 : nat) (sep : ascii) (m : string) :
  lang (seq_of [digits n1; Chr sep; digits n2; Chr sep; digits n3]) m ->
  String.length m = (n1 + 1 + n2 + 1 + n3)%nat.
Proof.
  intros H. apply lang_numeric in H.
  destruct H as (a & b & c & -> & _ & <- & _ & <- & _ & <-).
  rewrite length_append. simpl. rewrite length_append. simpl. lia.
Qed.

(** A run of characters of one class ends where the first character
    outside the class stands. *)
Lemma run_split (p : ascii -> bool) (a a' x x' : string) :
  forallb p (list_ascii_of_string a) = true ->
  forallb p (list_ascii_of_string a') = true ->
  (exists c x0, x = String c x0 /\ p c = false) ->
  (exists c x0, x' = String c x0 /\ p c = false) ->
  a ++ x = a' ++ x' -> a = a' /\ x = x'.
Proof.
  revert a'. induction a as [|c a IH]; intros [|c' a'] Ha Ha' Hx Hx' H;
    simpl in *.
  - split; [reflexivity | exact H].
  - destruct Hx as (d & x0 & -> & Hd). injection H as -> _.
    apply andb_prop in Ha'. destruct Ha' as [Hc _]. congruence.
  - destruct Hx' as (d & x0 & -> & Hd). injection H as -> _.
    apply andb_prop in Ha. destruct Ha as [Hc _]. congruence.
  - injection H as -> H.
    apply andb_prop in Ha. apply andb_prop in Ha'.
    destruct (IH a' (proj2 Ha) (proj2 Ha') Hx Hx' H) as [-> ->].
    split; reflexivity.
Qed.

Lemma digit_not_space (c : ascii) : is_digit c = true -> is_space c = false.
Proof.
  destruct c as [[] [] [] [] [] [] [] []]; vm_compute; congruence.
Qed.

Lemma space_not_digit (c : ascii) : is_space c = true -> is_digit c = false.
Proof.
  destruct c as [[] [] [] [] [] [] [] []]; vm_compute; congruence.
Qed.

Lemma run_starts (p q : ascii -> bool) (a x : string) :
  (forall c, p c = true -> q c = false) ->
  forallb p (list_ascii_of_string a) = true ->
  (1 <= String.length a)%nat ->
  exists c x0, a ++ x = String c x0 /\ q c = false.
Proof.
  intros Hpq Ha Hl. destruct a as [|c a]; simpl in *; [lia|].
  apply andb_prop in Ha. exists c, (a ++ x).
  split; [reflexivity | apply Hpq, Ha].
Qed.

Lemma month_starts (month x : string) :
  In month nepali_months ->
  exists c x0, month ++ x = String c x0 /\ is_space c = false.
Proof.
  intros H. unfold nepali_months in H.
  repeat (destruct H as [<-|H];
          [eexists; eexists; split; [reflexivity | vm_compute; reflexivity]|]).
  destruct H.
Qed.

Lemma month_split (month month' x x' : string) :
  In month nepali_months -> In month' nepali_months ->
  (exists c x0, x = String c x0 /\ is_space c = true) ->
  (exists c x0, x' = String c x0 /\ is_space c = true) ->
  month ++ x = month' ++ x' -> month = month' /\ x = x'.
Proof.
  intros H H' (c & x0 & -> & Hc) (c' & x0' & -> & Hc') E.
  unfold nepali_months in H, H'.
  repeat (destruct H as [<-|H]; [|]); try destruct H;
  repeat (destruct H' as [<-|H']; [|]); try destruct H';
    simpl in E;
    first [ injection E as -> ->; split; reflexivity
          | discriminate E
          | exfalso; injection E as E1 E2; subst; vm_compute in Hc, Hc'; congruence ].
Qed.

Lemma pattern_nepali_unambiguous : unambiguous pattern_nepali.
Proof.
  intros m1 m2 rest1 rest2 H1 H2 E.
  apply lang_pattern_nepali in H1, H2.
  destruct H1 as (d & g1 & mo & g2 & y & -> & Hd & Hld & Hg1 & Hl1 & Hmo & Hg2 & Hl2 & Hy & Hly).
  destruct H2 as (d' & g1' & mo' & g2' & y' & -> & Hd' & Hld' & Hg1' & Hl1' & Hmo' & Hg2' & Hl2'
                  & Hy' & Hly').
  rewrite !append_assoc in E.
  unfold digit_run, space_run in *.
  apply (run_split is_digit) in E;
    [ | assumption | assumption
      | apply (run_starts is_space is_digit); [exact space_not_digit | assumption | assumption]
      | apply (run_starts is_space is_digit); [exact space_not_digit | assumption | assumption] ].
  destruct E as [<- E].
  apply (run_split is_space) in E;
    [ | assumption | assumption | apply month_starts, Hmo | apply month_starts, Hmo' ].
  destruct E as [<- E].
  apply month_split in E;
    [ | assumption | assumption
      | destruct (run_starts is_space (fun c => negb (is_space c)) g2 (y ++ rest1))
          as (c & x0 & Hc & Hn);
        [intros c Hc; rewrite Hc; reflexivity | assumption | assumption
        | exists c, x0; split; [exact Hc | destruct (is_space c); [reflexivity | discriminate]]]
      | destruct (run_starts is_space (fun c => negb (is_space c)) g2' (y' ++ rest2))
          as (c & x0 & Hc & Hn);
        [intros c Hc; rewrite Hc; reflexivity | assumption | assumption
        | exists c, x0; split; [exact Hc | destruct (is_space c); [reflexivity | discriminate]]] ].
  destruct E as [<- E].
  apply (run_split is_space) in E;
    [ | assumption | assumption
      | apply (run_starts is_digit is_space); [exact digit_not_space | assumption | lia]
      | apply (run_starts is_digit is_space); [exact digit_not_space | assumption | lia] ].
  destruct E as [<- E].
  apply append_same_length in E; [|congruence].
  destruct E as [<- _]. reflexivity.
Qed.

Lemma date_patterns_proper (pattern : regex) :
  In pattern date_patterns -> proper pattern = true.
Proof.
  intros H. unfold date_patterns in H.
  repeat (destruct H as [<-|H]; [reflexivity|]). destruct H.
Qed.

Lemma date_patterns_unambiguous (pattern : regex) :
  In pattern date_patterns -> unambiguous pattern.
Proof.
  intros H. unfold date_patterns in H.
  destruct H as [<-|[<-|[<-|[<-|[]]]]].
  - exact (fixed_length_unambiguous _ _ (numeric_length 4 2 2 "-")).
  - exact (fixed_length_unambiguous _ _ (numeric_length 2 2 4 "/")).
  - exact (fixed_length_unambiguous _ _ (numeric_length 2 2 4 "-")).
  - exact pattern_nepali_unambiguous.
Qed.

(** For a pattern without ambiguity, [re.search] is determined by the
    language of the pattern: it returns the match that starts leftmost. *)
Lemma re_search_leftmost (r : regex) (text m : string) :
  proper r = true -> unambiguous r ->
  (re_search r text = Some m <->
   exists pre post,
     text = pre ++ m ++ post /\ lang r m /\
     forall pre1 m1 post1,
       text = pre1 ++ m1 ++ post1 -> lang r m1 ->
       (String.length pre <= String.length pre1)%nat).
Proof.
  intros Hp Hu. split; [apply re_search_sound, Hp|].
  intros (pre & post & -> & Hm & Hleft).
  destruct (re_search r (pre ++ m ++ post)) as [m'|] eqn:E;
    [|exfalso; revert E; apply re_search_complete; assumption].
  destruct (re_search_sound r Hp _ _ E) as (pre' & post' & Ht & Hm' & Hleft').
  assert (Hl : String.length pre = String.length pre').
  { apply Nat.le_antisymm.
    - apply (Hleft pre' m' post' Ht Hm').
    - apply (Hleft' pre m post eq_refl Hm). }
  destruct (append_same_length _ _ _ _ Ht Hl) as [_ Hrest].
  f_equal. symmetry. exact (Hu m m' post post' Hm Hm' Hrest).
Qed.

Lemma re_search_none (r : regex) (text : string) :
  proper r = true ->
  (re_search r text = None <->
   forall pre m post, text = pre ++ m ++ post -> ~ lang r m).
Proof.
  intros Hp. split.
  - intros E pre m post -> Hm. revert E. apply re_search_complete; assumption.
  - intros H. destruct (re_search r text) as [m|] eqn:E; [|reflexivity].
    destruct (re_search_sound r Hp _ _ E) as (pre & post & Ht & Hm & _).
    destruct (H pre m post Ht Hm).
Qed.

(** ** The date normaliser *)

Section DateNormalizerFacts.
Context {lib : Library}.

Lemma try_patterns_none (ps : list regex) (text : string) :
  try_patterns ps text = None <->
  (forall q, In q ps -> attempt text q = None).
Proof.
  unfold attempt. induction ps as [|p ps IH]; simpl.
  - split; [intros _ q [] | reflexivity].
  - destruct (re_search p text) as [s|] eqn:Hs.
    + destruct (date_parser_parse s) as [d|] eqn:Hd.
      * split; [discriminate|].
        intros H. specialize (H p (or_introl eq_refl)).
        rewrite Hs, Hd in H. discriminate.
      * rewrite IH. split.
        -- intros H q [<-|Hq]; [rewrite Hs; exact Hd | apply H, Hq].
        -- intros H q Hq. apply H. right. exact Hq.
    + rewrite IH. split.
      * intros H q [<-|Hq]; [rewrite Hs; reflexivity | apply H, Hq].
      * intros H q Hq. apply H. right. exact Hq.
Qed.

Lemma try_patterns_first (ps : list regex) (text : string) :
  forall (i : nat) (p : regex) (d : datetime),
    nth_error ps i = Some p ->
    attempt text p = Some d ->
    (forall j q, (j < i)%nat -> nth_error ps j = Some q -> attempt text q = None) ->
    try_patterns ps text = Some d.
Proof.
  induction ps as [|p0 ps IH]; intros i p d Hi Hp Hbefore.
  - destruct i; discriminate.
  - destruct i as [|i]; simpl in Hi.
    + injection Hi as ->. unfold attempt in Hp. simpl.
      destruct (re_search p text) as [s|]; [|discriminate].
      rewrite Hp. reflexivity.
    + assert (H0 : attempt text p0 = None)
        by (apply (Hbefore O); [lia | reflexivity]).
      unfold attempt in H0. simpl.
      assert (Hrest : try_patterns ps text = Some d).
      { apply (IH i p d Hi Hp). intros j q Hj Hq.
        apply (Hbefore (S j)); [lia | exact Hq]. }
      destruct (re_search p0 text) as [s|]; [rewrite H0|]; exact Hrest.
Qed.

Lemma extract_single_match (text date_str : string) (i : nat) (pattern : regex) :
  nth_error date_patterns i = Some pattern ->
  re_search pattern text = Some date_str ->
  (forall j q, j <> i -> nth_error date_patterns j = Some q ->
               re_search q text = None) ->
  extract_date_from_text text = date_parser_parse date_str.
Proof.
  intros Hi Hs Hothers.
  assert (Hne : truthy text = true).
  { destruct text; [|reflexivity]. exfalso.
    unfold date_patterns in Hi.
    do 4 (destruct i as [|i]; [injection Hi as <-; vm_compute in Hs; discriminate|]).
    destruct i; discriminate. }
  unfold extract_date_from_text. rewrite Hne.
  destruct (date_parser_parse date_str) as [d|] eqn:Hd.
  - apply (try_patterns_first _ _ i pattern d Hi).
    + unfold attempt. rewrite Hs. exact Hd.
    + intros j q Hj Hq. unfold attempt.
      rewrite (Hothers j q); [reflexivity | lia | exact Hq].
  - apply try_patterns_none. intros q Hq. unfold attempt.
    apply In_nth_error in Hq. destruct Hq as [j Hj].
    destruct (Nat.eq_dec j i) as [->|Hji].
    + rewrite Hi in Hj. injection Hj as <-. rewrite Hs. exact Hd.
    + rewrite (Hothers j q Hji Hj). reflexivity.
Qed.

(** C8.  [extract_date_from_text] tries four patterns in the order ISO,
    MM/DD/YYYY, DD-MM-YYYY, named month.  The texts each pattern matches
    are: four digits, two digits and two digits joined by [-]; two, two
    and four digits joined by [/]; two, two and four digits joined by
    [-]; one or two digits, white space, one of the twelve month names,
    white space and four digits.  On a text, a pattern gives its leftmost
    match, and none exactly when no part of the text is matched by it.
    The first pattern whose leftmost match parses gives the result, a
    match that does not parse passing to the next pattern; the result is
    [None] exactly when no pattern gives a date; ["2024-03-15"] gives
    what the parser returns for it, as do ["03/15/2024"], ["15-03-2024"]
    and ["15 Baisakh 2081"], each through its own pattern, and
    ["no date here"] gives [None]. *)
Theorem extract_date_from_text_spec :
  date_patterns = [pattern_iso; pattern_mdy; pattern_dmy; pattern_nepali] /\
  (forall m, lang pattern_iso m <-> is_iso_date m) /\
  (forall m, lang pattern_mdy m <-> is_mdy_date m) /\
  (forall m, lang pattern_dmy m <-> is_dmy_date m) /\
  (forall m, lang pattern_nepali m <-> is_nepali_date m) /\
  (forall pattern text,
      In pattern date_patterns ->
      (forall m,
          re_search pattern text = Some m <->
          exists pre post,
            text = pre ++ m ++ post /\ lang pattern m /\
            forall pre1 m1 post1,
              text = pre1 ++ m1 ++ post1 -> lang pattern m1 ->
              (String.length pre <= String.length pre1)%nat) /\
      (re_search pattern text = None <->
       forall pre m post, text = pre ++ m ++ post -> ~ lang pattern m)) /\
  (forall text i pattern d,
      nth_error date_patterns i = Some pattern ->
      attempt text pattern = Some d ->
      (forall j q, (j < i)%nat -> nth_error date_patterns j = Some q ->
                   attempt text q = None) ->
      extract_date_from_text text = Some d) /\
  (forall text,
      extract_date_from_text text = None <->
      (forall q, In q date_patterns -> attempt text q = None)) /\
  (forall d, date_parser_parse "2024-03-15" = Some d ->
             extract_date_from_text "2024-03-15" = Some d) /\
  extract_date_from_text "no date here" = None /\
  extract_date_from_text "2024-03-15" = date_parser_parse "2024-03-15" /\
  extract_date_from_text "03/15/2024" = date_parser_parse "03/15/2024" /\
  extract_date_from_text "15-03-2024" = date_parser_parse "15-03-2024" /\
  extract_date_from_text "15 Baisakh 2081" = date_parser_parse "15 Baisakh 2081".
Proof.
  assert (Hempty : forall q, In q date_patterns -> attempt "" q = None).
  { intros q Hq. unfold attempt.
    repeat (destruct Hq as [<-|Hq]; [reflexivity|]). destruct Hq. }
  assert (Hone : forall text date_str i pattern,
             nth_error date_patterns i = Some pattern ->
             map (fun q => re_search q text) date_patterns
             = map (fun j => if Nat.eqb j i then Some date_str else None)
                 (seq 0 (List.length date_patterns)) ->
             extract_date_from_text text = date_parser_parse date_str).
  { intros text date_str i pattern Hi Hall.
    assert (Hnth : forall j q, nth_error date_patterns j = Some q ->
                     re_search q text = if Nat.eqb j i then Some date_str else None).
    { intros j q Hq.
      assert (Hj : (j < List.length date_patterns)%nat)
        by (apply nth_error_Some; rewrite Hq; discriminate).
      pose proof (map_nth_error (fun q => re_search q text) j date_patterns Hq) as E.
      rewrite Hall in E.
      rewrite (map_nth_error _ j (seq 0 (List.length date_patterns)) (d := j)) in E.
      - injection E as E. symmetry. exact E.
      - rewrite nth_error_nth' with (d := O); [|rewrite length_seq; exact Hj].
        rewrite seq_nth; [reflexivity | exact Hj]. }
    apply (extract_single_match text date_str i pattern Hi).
    - rewrite (Hnth i pattern Hi), Nat.eqb_refl. reflexivity.
    - intros j q Hji Hq. rewrite (Hnth j q Hq).
      apply Nat.eqb_neq in Hji. rewrite Hji. reflexivity. }
  split; [reflexivity|].
  split; [exact lang_pattern_iso|].
  split; [exact lang_pattern_mdy|].
  split; [exact lang_pattern_dmy|].
  split; [exact lang_pattern_nepali|].
  split.
  { intros pattern text Hin. split.
    - intros m. apply re_search_leftmost;
        [apply date_patterns_proper | apply date_patterns_unambiguous]; exact Hin.
    - apply re_search_none, date_patterns_proper, Hin. }
  split; [|split; [|split; [|split]]].
  - intros text i pattern d Hi Hp Hbefore. unfold extract_date_from_text.
    destruct text as [|c text]; simpl truthy; cbv iota.
    + rewrite (Hempty pattern) in Hp; [discriminate|].
      eapply nth_error_In; exact Hi.
    + eapply try_patterns_first; eassumption.
  - intros text. unfold extract_date_from_text.
    destruct text as [|c text]; simpl truthy; cbv iota.
    + split; [intros _; exact Hempty | reflexivity].
    + apply try_patterns_none.
  - intros d Hd. unfold extract_date_from_text. simpl truthy. cbv iota.
    apply (try_patterns_first _ _ O pattern_iso d); [reflexivity | | intros; lia].
    unfold attempt.
    replace (re_search pattern_iso "2024-03-15") with (Some "2024-03-15")
      by (vm_compute; reflexivity).
    exact Hd.
  - unfold extract_date_from_text. simpl truthy. cbv iota.
    apply try_patterns_none. intros q Hq. unfold attempt.
    repeat (destruct Hq as [<-|Hq];
            [replace (re_search _ "no date here") with (@None string)
               by (vm_compute; reflexivity); reflexivity|]).
    destruct Hq.
  - split; [|split; [|split]].
    + apply (Hone _ _ 0%nat pattern_iso); [reflexivity | vm_compute; reflexivity].
    + apply (Hone _ _ 1%nat pattern_mdy); [reflexivity | vm_compute; reflexivity].
    + apply (Hone _ _ 2%nat pattern_dmy); [reflexivity | vm_compute; reflexivity].
    + apply (Hone _ _ 3%nat pattern_nepali); [reflexivity | vm_compute; reflexivity].
Qed.
End DateNormalizerFacts.

(** With [dateutil]'s reading of numeric dates, ["2024-03-15"] is March
    15 2024, and so are ["03/15/2024"] and ["15-03-2024"], each matched by
    its own pattern; a match that does not parse passes to the next
    pattern, and a date with a Nepali month name, which [dateutil] does
    not read, gives [None]. *)
Lemma extract_date_from_text_examples :
  @extract_date_from_text example_library "2024-03-15" = Some (datetime_ymd 2024 3 15) /\
  @extract_date_from_text example_library "2024-13-45, again 03/15/2024"
  = Some (datetime_ymd 2024 3 15) /\
  @extract_date_from_text example_library "03/15/2024" = Some (datetime_ymd 2024 3 15) /\
  @extract_date_from_text example_library "15-03-2024" = Some (datetime_ymd 2024 3 15) /\
  @extract_date_from_text example_library "15 Baisakh 2081" = None /\
  lang pattern_dmy "15-03-2024" /\
  lang pattern_nepali "15 Baisakh 2081" /\
  re_search pattern_nepali "Published 15 Baisakh 2081" = Some "15 Baisakh 2081" /\
  re_search pattern_dmy "2024-03-15" = None.
Proof.
  destruct (@extract_date_from_text_spec example_library)
    as (_ & _ & _ & Hdmy & Hnepali & Hsearch & Hfirst & _ & Hiso & _ & _ & Hmdy' & Hdmy'
        & Hnepali').
  split; [|split; [|split; [|split; [|split; [|split; [|split; [|split]]]]]]].
  - apply Hiso. vm_compute. reflexivity.
  - apply (Hfirst _ 1%nat pattern_mdy); [reflexivity | vm_compute; reflexivity |].
    intros j q Hj Hq. destruct j as [|j]; [|lia].
    injection Hq as <-. vm_compute. reflexivity.
  - rewrite Hmdy'. vm_compute. reflexivity.
  - rewrite Hdmy'. vm_compute. reflexivity.
  - rewrite Hnepali'. vm_compute. reflexivity.
  - apply Hdmy. exists "15", "03", "2024". repeat split.
  - apply Hnepali. exists "15", " ", "Baisakh", " ", "2081".
    split; [reflexivity|]. split; [reflexivity|]. split; [simpl; lia|].
    split; [reflexivity|]. split; [simpl; lia|]. split; [left; reflexivity|].
    split; [reflexivity|]. split; [simpl; lia|]. split; reflexivity.
  - vm_compute. reflexivity.
  - vm_compute. reflexivity.
Defined.

(** ** Titles *)

Lemma find_first_some (sel : selector) (item e : Node) :
  find_first sel item = Some e ->
  In e (descendants item) /\ matches sel e = true.
Proof.
  unfold find_first, find_all. intros H.
  assert (Hin : In e (filter (matches sel) (descendants item))).
  { destruct (filter (matches sel) (descendants item)) as [|x l]; simpl in H;
      [discriminate | injection H as ->; left; reflexivity]. }
  apply filter_In in Hin. exact Hin.
Qed.

Lemma find_first_none (sel : selector) (item : Node) :
  find_first sel item = None <->
  (forall e, In e (descendants item) -> matches sel e = false).
Proof.
  unfold find_first, find_all. split.
  - intros H e He. destruct (matches sel e) eqn:Hm; [|reflexivity].
    assert (Hin : In e (filter (matches sel) (descendants item)))
      by (apply filter_In; split; assumption).
    destruct (filter (matches sel) (descendants item)); [destruct Hin | discriminate].
  - intros H. destruct (filter (matches sel) (descendants item)) as [|x l] eqn:Hf;
      [reflexivity|].
    assert (Hin : In x (filter (matches sel) (descendants item)))
      by (rewrite Hf; left; reflexivity).
    apply filter_In in Hin. destruct Hin as [Hx Hm].
    rewrite (H x Hx) in Hm. discriminate.
Qed.

(** A container that holds an element matching [sel] has a first one. *)
Lemma find_first_exists (sel : selector) (item : Node) :
  (exists e, In e (descendants item) /\ matches sel e = true) ->
  exists e, find_first sel item = Some e.
Proof.
  intros (e & He & Hm). destruct (find_first sel item) as [x|] eqn:Hf.
  - exists x. reflexivity.
  - rewrite find_first_none in Hf. rewrite (Hf e He) in Hm. discriminate.
Qed.

(** C6, as the code has it.  On the generic profile the title is
    resolved by first match over the cascade [h1], [h2], [h3], [.title],
    [.headline]: it is the text of the first element found for the first
    of these that finds one, and ["No title"] when none does; so a
    container with an [h1] gives the text of its first [h1], and one
    with an [h2] and no [h1] the text of its first [h2].  On the NARC
    profile the cascade is [h2], [h3], [a], with the same default: the
    title is the text of the first [h2] whenever the container has one,
    whether or not it has an [h1]. *)
Theorem title_cascade :
  (forall item i sel e,
      nth_error [ByTag "h1"; ByTag "h2"; ByTag "h3"; ByClass "title";
                 ByClass "headline"] i = Some sel ->
      find_first sel item = Some e ->
      (forall j earlier,
          (j < i)%nat ->
          nth_error [ByTag "h1"; ByTag "h2"; ByTag "h3"; ByClass "title";
                     ByClass "headline"] j = Some earlier ->
          find_first earlier item = None) ->
      generic_title item = get_text_strip e) /\
  (forall item,
      (forall sel,
          In sel [ByTag "h1"; ByTag "h2"; ByTag "h3"; ByClass "title";
                  ByClass "headline"] ->
          find_first sel item = None) ->
      generic_title item = "No title") /\
  (forall item i sel e,
      nth_error [ByTag "h2"; ByTag "h3"; ByTag "a"] i = Some sel ->
      find_first sel item = Some e ->
      (forall j earlier,
          (j < i)%nat ->
          nth_error [ByTag "h2"; ByTag "h3"; ByTag "a"] j = Some earlier ->
          find_first earlier item = None) ->
      narc_title item = get_text_strip e) /\
  (forall item,
      (forall sel, In sel [ByTag "h2"; ByTag "h3"; ByTag "a"] ->
                   find_first sel item = None) ->
      narc_title item = "No title") /\
  (forall sel item,
      (forall e, find_first sel item = Some e ->
                 In e (descendants item) /\ matches sel e = true) /\
      (find_first sel item = None <->
       forall e, In e (descendants item) -> matches sel e = false)) /\
  (forall item,
      (exists e, In e (descendants item) /\ matches (ByTag "h1") e = true) ->
      exists h1, find_first (ByTag "h1") item = Some h1 /\
                 generic_title item = get_text_strip h1) /\
  (forall item,
      (forall e, In e (descendants item) -> matches (ByTag "h1") e = false) ->
      (exists e, In e (descendants item) /\ matches (ByTag "h2") e = true) ->
      exists h2, find_first (ByTag "h2") item = Some h2 /\
                 generic_title item = get_text_strip h2) /\
  (forall item,
      (exists e, In e (descendants item) /\ matches (ByTag "h2") e = true) ->
      exists h2, find_first (ByTag "h2") item = Some h2 /\
                 narc_title item = get_text_strip h2).
Proof.
  assert (Hgeneric : forall item i sel e,
      nth_error [ByTag "h1"; ByTag "h2"; ByTag "h3"; ByClass "title";
                 ByClass "headline"] i = Some sel ->
      find_first sel item = Some e ->
      (forall j earlier,
          (j < i)%nat ->
          nth_error [ByTag "h1"; ByTag "h2"; ByTag "h3"; ByClass "title";
                     ByClass "headline"] j = Some earlier ->
          find_first earlier item = None) ->
      generic_title item = get_text_strip e).
  { intros item i sel e Hi He Hearlier.
    unfold generic_title, title_selectors, first_text.
    destruct i as [|[|[|[|[|i]]]]]; simpl in Hi.
    - injection Hi as <-. rewrite He. reflexivity.
    - injection Hi as <-.
      rewrite (Hearlier 0%nat (ByTag "h1")) by (simpl; first [lia | reflexivity]).
      rewrite He. reflexivity.
    - injection Hi as <-.
      rewrite (Hearlier 0%nat (ByTag "h1")) by (simpl; first [lia | reflexivity]).
      rewrite (Hearlier 1%nat (ByTag "h2")) by (simpl; first [lia | reflexivity]).
      rewrite He. reflexivity.
    - injection Hi as <-.
      rewrite (Hearlier 0%nat (ByTag "h1")) by (simpl; first [lia | reflexivity]).
      rewrite (Hearlier 1%nat (ByTag "h2")) by (simpl; first [lia | reflexivity]).
      rewrite (Hearlier 2%nat (ByTag "h3")) by (simpl; first [lia | reflexivity]).
      rewrite He. reflexivity.
    - injection Hi as <-.
      rewrite (Hearlier 0%nat (ByTag "h1")) by (simpl; first [lia | reflexivity]).
      rewrite (Hearlier 1%nat (ByTag "h2")) by (simpl; first [lia | reflexivity]).
      rewrite (Hearlier 2%nat (ByTag "h3")) by (simpl; first [lia | reflexivity]).
      rewrite (Hearlier 3%nat (ByClass "title")) by (simpl; first [lia | reflexivity]).
      rewrite He. reflexivity.
    - destruct i; discriminate Hi. }
  assert (Hnarc : forall item i sel e,
      nth_error [ByTag "h2"; ByTag "h3"; ByTag "a"] i = Some sel ->
      find_first sel item = Some e ->
      (forall j earlier,
          (j < i)%nat ->
          nth_error [ByTag "h2"; ByTag "h3"; ByTag "a"] j = Some earlier ->
          find_first earlier item = None) ->
      narc_title item = get_text_strip e).
  { intros item i sel e Hi He Hearlier. unfold narc_title.
    destruct i as [|[|[|i]]]; simpl in Hi.
    - injection Hi as <-. rewrite He. reflexivity.
    - injection Hi as <-.
      rewrite (Hearlier 0%nat (ByTag "h2")) by (simpl; first [lia | reflexivity]).
      rewrite He. reflexivity.
    - injection Hi as <-.
      rewrite (Hearlier 0%nat (ByTag "h2")) by (simpl; first [lia | reflexivity]).
      rewrite (Hearlier 1%nat (ByTag "h3")) by (simpl; first [lia | reflexivity]).
      rewrite He. reflexivity.
    - destruct i; discriminate Hi. }
  split; [exact Hgeneric|]. split.
  { intros item Hnone. unfold generic_title, title_selectors, first_text.
    rewrite !Hnone by (simpl; tauto). reflexivity. }
  split; [exact Hnarc|]. split.
  { intros item Hnone. unfold narc_title.
    rewrite !Hnone by (simpl; tauto). reflexivity. }
  split.
  { intros sel item. split.
    - intros e He. apply find_first_some. exact He.
    - apply find_first_none. }
  split.
  { intros item H. destruct (find_first_exists _ _ H) as [h1 Hh1].
    exists h1. split; [exact Hh1|].
    apply (Hgeneric item 0%nat (ByTag "h1")); [reflexivity | exact Hh1 | intros; lia]. }
  split.
  { intros item Hno H. destruct (find_first_exists _ _ H) as [h2 Hh2].
    exists h2. split; [exact Hh2|].
    apply find_first_none in Hno.
    apply (Hgeneric item 1%nat (ByTag "h2")); [reflexivity | exact Hh2|].
    intros j earlier Hj Hn. destruct j as [|j]; [|lia].
    injection Hn as <-. exact Hno. }
  intros item H. destruct (find_first_exists _ _ H) as [h2 Hh2].
  exists h2. split; [exact Hh2|].
  apply (Hnarc item 0%nat (ByTag "h2")); [reflexivity | exact Hh2 | intros; lia].
Qed.

(** On a container with an [h1] and an [h2] the generic title is the
    [h1] text and the NARC title the [h2] text; with an [h2] only both
    are the [h2] text; an [h3], an element of class [title] and one of
    class [headline] give the generic title when nothing before them in
    the cascade is there; with a link only the generic title is the
    default and the NARC title the text of the link. *)
Lemma title_cascade_examples :
  generic_title item_h1_h2 = "Rice blast alert" /\
  generic_title item_h2_only = "Advisory" /\
  narc_title item_h1_h2 = "Advisory" /\
  generic_title item_h3_only = "Bulletin" /\
  generic_title item_title_class = "Market watch" /\
  generic_title item_headline_class = "Monsoon outlook" /\
  generic_title item_link_only = "No title" /\
  narc_title item_h3_only = "Bulletin" /\
  narc_title item_link_only = "read more".
Proof.
  destruct title_cascade as (Hgeneric & Hdefault & Hnarc & _ & _ & Hh1 & Hh2 & Hnarc2).
  split; [|split; [|split; [|split; [|split; [|split; [|split; [|split]]]]]]].
  - destruct (Hh1 item_h1_h2) as (e & He & ->).
    + exists (heading "h1" "Rice blast alert"). split; [left|]; reflexivity.
    + vm_compute in He. injection He as <-. reflexivity.
  - destruct (Hh2 item_h2_only) as (e & He & ->).
    + intros e He. vm_compute in He.
      repeat (destruct He as [<-|He]; [reflexivity|]). destruct He.
    + exists (heading "h2" "Advisory"). split; [left|]; reflexivity.
    + vm_compute in He. injection He as <-. reflexivity.
  - destruct (Hnarc2 item_h1_h2) as (e & He & ->).
    + exists (heading "h2" "Advisory"). split; [right; right; left|]; reflexivity.
    + vm_compute in He. injection He as <-. reflexivity.
  - rewrite (Hgeneric item_h3_only 2%nat (ByTag "h3") (heading "h3" "Bulletin"));
      [reflexivity | reflexivity | reflexivity|].
    intros j earlier Hj Hn.
    repeat (destruct j as [|j]; [injection Hn as <-; reflexivity|]). simpl in Hj. lia.
  - rewrite (Hgeneric item_title_class 3%nat (ByClass "title")
               (Tag "span" [] ["title"] [Text "Market watch"]));
      [reflexivity | reflexivity | reflexivity|].
    intros j earlier Hj Hn.
    repeat (destruct j as [|j]; [injection Hn as <-; reflexivity|]). simpl in Hj. lia.
  - rewrite (Hgeneric item_headline_class 4%nat (ByClass "headline")
               (Tag "div" [] ["headline"] [Text "Monsoon outlook"]));
      [reflexivity | reflexivity | reflexivity|].
    intros j earlier Hj Hn.
    repeat (destruct j as [|j]; [injection Hn as <-; reflexivity|]). simpl in Hj. lia.
  - apply Hdefault. intros sel Hsel.
    repeat (destruct Hsel as [<-|Hsel]; [reflexivity|]). destruct Hsel.
  - rewrite (Hnarc item_h3_only 1%nat (ByTag "h3") (heading "h3" "Bulletin"));
      [reflexivity | reflexivity | reflexivity|].
    intros j earlier Hj Hn.
    repeat (destruct j as [|j]; [injection Hn as <-; reflexivity|]). simpl in Hj. lia.
  - rewrite (Hnarc item_link_only 2%nat (ByTag "a")
               (Tag "a" [("href", "/news/6")] [] [Text "read more"]));
      [reflexivity | reflexivity | reflexivity|].
    intros j earlier Hj Hn.
    repeat (destruct j as [|j]; [injection Hn as <-; reflexivity|]). simpl in Hj. lia.
Defined.

(** C6 as stated fails on the NARC profile: its container holds an [h1]
    and an [h2], and the title is the text of the [h2]. *)
Lemma narc_title_is_not_h1 :
  find_first (ByTag "h1") item_h1_h2 = Some (heading "h1" "Rice blast alert") /\
  find_first (ByTag "h2") item_h1_h2 = Some (heading "h2" "Advisory") /\
  get_text_strip (heading "h1" "Rice blast alert") = "Rice blast alert" /\
  narc_title item_h1_h2 = "Advisory".
Proof. repeat split; vm_compute; reflexivity. Qed.

(** ** The categoriser *)

Lemma map_back_known (category best_label : string) (best_score : float) :
  In (category, best_label) category_descriptions ->
  map_back category_descriptions best_label best_score
  = (if PrimFloat.ltb threshold best_score then category else "uncategorized")
  /\ category <> "uncategorized".
Proof.
  intros H. unfold category_descriptions in H.
  repeat (destruct H as [H|H];
          [injection H as <- <-; split; [vm_compute; reflexivity | discriminate]|]).
  destruct H.
Qed.

(** C3, as the code has it.  When the top label is the description of a
    category, [categorize_article] returns that category if the top score
    is strictly above the threshold 0.3 and ["uncategorized"] otherwise;
    so it returns ["uncategorized"] exactly when the score is not above
    the threshold, a score equal to it included. *)
Theorem categorize_article_threshold
        (clf : classifier_fn) (title content : string) (result : Classification)
        (best_label : string) (other_labels : list string)
        (best_score : float) (other_scores : list float)
        (category : string) (w : World) :
  clf (slice_to 1000 (title ++ " " ++ content)) (map snd category_descriptions)
  = inr result ->
  labels result = best_label :: other_labels ->
  scores result = best_score :: other_scores ->
  In (category, best_label) category_descriptions ->
  categorize_article (mkCategorizer (Some clf)) title content w
  = (Ok (if PrimFloat.ltb threshold best_score then category else "uncategorized"), w)
  /\ (fst (categorize_article (mkCategorizer (Some clf)) title content w)
      = Ok "uncategorized" <-> PrimFloat.ltb threshold best_score = false).
Proof.
  intros Hclf Hl Hs Hin.
  destruct (map_back_known category best_label best_score Hin) as [Hmap Hne].
  assert (Hrun : categorize_article (mkCategorizer (Some clf)) title content w
                 = (Ok (if PrimFloat.ltb threshold best_score
                        then category else "uncategorized"), w)).
  { unfold categorize_article, try_except, of_sum, classify, bind_sum.
    cbv beta iota zeta delta [classifier]. rewrite Hclf, Hs, Hl, Hmap. reflexivity. }
  split; [exact Hrun|].
  rewrite Hrun. simpl fst.
  destruct (PrimFloat.ltb threshold best_score); split; intros H;
    try reflexivity; try discriminate.
  injection H as H. contradiction.
Qed.

(** A score of 0.9 for the description of [crop_pests] gives [crop_pests]. *)
Lemma categorize_article_confident :
  categorize_article
    (mkCategorizer (Some (constant_classifier crop_pests_description
                            0x1.ccccccccccccdp-1%float)))
    "Rice blast alert" "Blast reported in Chitwan"
    (start_world (example_env no_fault (inl (Exception "offline"))) [])
  = (Ok "crop_pests", start_world (example_env no_fault (inl (Exception "offline"))) []).
Proof.
  apply (categorize_article_threshold
           (constant_classifier crop_pests_description 0x1.ccccccccccccdp-1%float)
           "Rice blast alert" "Blast reported in Chitwan"
           (mkClassification [crop_pests_description] [0x1.ccccccccccccdp-1%float])
           crop_pests_description [] 0x1.ccccccccccccdp-1%float [] "crop_pests");
    [reflexivity | reflexivity | reflexivity | left; reflexivity].
Defined.

(** C3 as stated fails at the threshold: a top score equal to 0.3 is not
    below 0.3, the top label is the description of [crop_pests], and the
    result is ["uncategorized"]. *)
Lemma categorize_article_at_threshold :
  In ("crop_pests", crop_pests_description) category_descriptions /\
  PrimFloat.ltb threshold threshold = false /\
  PrimFloat.eqb threshold 0.3%float = true /\
  fst (categorize_article
         (mkCategorizer (Some (constant_classifier crop_pests_description threshold)))
         "Rice blast alert" "Blast reported in Chitwan"
         (start_world (example_env no_fault (inl (Exception "offline"))) []))
  = Ok "uncategorized".
Proof. repeat split; [left; reflexivity | vm_compute; reflexivity ..]. Qed.

(** ** Statements on the connection *)

(** A statement that returns was run by its semantics on a transaction
    that had not failed. *)
Lemma execute_ok {A} (stmt : Stmt) (sem : Tx -> exn + (A * list News.row))
      (w w' : World) (a : A) :
  execute stmt sem w = (Ok a, w') ->
  exists t rows,
    conn w = Some t /\ tx_failed t = false /\
    db_fault (env w) (db_ops w) = None /\
    sem t = inr (a, rows) /\
    w' = after_statement stmt (Some (mkTx rows false (tx_start t))) w.
Proof.
  unfold execute, after_statement. intros H.
  destruct (conn w) as [t|]; [|discriminate].
  destruct (existsb has_nul (stmt_strings stmt)); [discriminate|].
  destruct (db_fault (env w) (db_ops w)); [discriminate|].
  destruct (tx_failed t) eqn:Hf; [discriminate|].
  destruct (sem t) as [e|[a' rows]] eqn:Hsem; [discriminate|].
  injection H as <- <-. exists t, rows. repeat split; assumption.
Qed.

(** A statement that returns had no parameter that the driver refuses. *)
Lemma execute_ok_strings {A} (stmt : Stmt) (sem : Tx -> exn + (A * list News.row))
      (w w' : World) (a : A) :
  execute stmt sem w = (Ok a, w') -> existsb has_nul (stmt_strings stmt) = false.
Proof.
  unfold execute. intros H.
  destruct (conn w) as [t|]; [|discriminate].
  destruct (existsb has_nul (stmt_strings stmt)); [discriminate | reflexivity].
Qed.

(** A statement that raises leaves no usable transaction, unless it was
    refused by the driver for one of its parameters. *)
Lemma execute_raise {A} (stmt : Stmt) (sem : Tx -> exn + (A * list News.row))
      (w w' : World) (e : exn) :
  execute stmt sem w = (Raise e, w') ->
  exists c,
    w' = after_statement stmt c w /\
    (existsb has_nul (stmt_strings stmt) = true /\ c = conn w /\ e = nul_error \/
     match c with Some t => tx_failed t = true | None => True end).
Proof.
  unfold execute, after_statement. intros H.
  destruct (conn w) as [t|] eqn:Hc.
  - destruct (existsb has_nul (stmt_strings stmt)).
    + injection H as <- <-. exists (Some t). split; [|left; repeat split].
      unfold set_conn, set_history, set_db_ops. simpl. rewrite Hc. reflexivity.
    + destruct (db_fault (env w) (db_ops w)).
      * injection H as _ <-. eexists. split; [reflexivity | right; reflexivity].
      * destruct (tx_failed t) eqn:Hf.
        -- injection H as _ <-. exists (Some t). split; [|right; exact Hf].
           unfold set_conn, set_history, set_db_ops. simpl. rewrite Hc. reflexivity.
        -- destruct (sem t) as [e'|[a rows]]; [|discriminate].
           injection H as _ <-. eexists. split; [reflexivity | right; reflexivity].
  - injection H as _ <-. exists None. split; [|right; exact I].
    unfold set_conn, set_history, set_db_ops. simpl. rewrite Hc. reflexivity.
Qed.

(** ** Upsert *)

Lemma varchar_fits (n : nat) (s : string) :
  (String.length s <= n)%nat -> varchar n s = inr s.
Proof.
  intros H. unfold varchar.
  destruct (Nat.leb_spec (String.length s) n); [reflexivity | lia].
Qed.

Lemma varchar_opt_fits (n : nat) (s : option string) :
  (forall v, s = Some v -> (String.length v <= n)%nat) -> varchar_opt n s = inr s.
Proof.
  intros H. destruct s as [v|]; [|reflexivity].
  simpl. rewrite varchar_fits by (apply H; reflexivity). reflexivity.
Qed.



Lemma has_url_in (u : string) (rows : list News.row) :
  existsb (has_url u) rows = true <-> In u (map News.url rows).
Proof.
  rewrite existsb_exists, in_map_iff. unfold has_url.
  split; intros (r & H1 & H2).
  - apply String.eqb_eq in H2. exists r. split; assumption.
  - exists r. split; [assumption | apply String.eqb_eq; assumption].
Qed.


Lemma select_id_by_url_some (u : string) (rows : list News.row) :
  select_id_by_url u rows <> None <-> In u (map News.url rows).
Proof.
  rewrite <- has_url_in. unfold select_id_by_url.
  destruct (find (has_url u) rows) as [r|] eqn:Hf; simpl.
  - apply find_some in Hf. split; [|discriminate].
    intros _. apply existsb_exists. exists r. exact Hf.
  - split; [congruence|]. intros H. apply existsb_exists in H.
    destruct H as (r & Hr & Hu). rewrite (find_none _ _ Hf r Hr) in Hu. discriminate.
Qed.

(** What a call of [upsert_article] that met no error did. *)
Lemma upsert_article_body_ok (a : Article.t) (category : string)
      (w w' : World) (b : bool) :
  upsert_article_body a category w = (Ok b, w') ->
  exists t rows',
    conn w = Some t /\ tx_failed t = false /\
    conn w' = Some (mkTx rows' false (tx_start t)) /\
    ((b = false /\ In (Article.url a) (map News.url (tx_rows t)) /\
      update_by_url a category (tx_start t) (tx_rows t) = inr rows') \/
     (b = true /\ ~ In (Article.url a) (map News.url (tx_rows t)) /\
      exists i, insert_news i a category (tx_start t) (tx_rows t) = inr rows')).
Proof.
  unfold upsert_article_body, bind. intros H.
  destruct (execute (SelectIdByUrl (Article.url a)) _ w) as [[existing|e] w1] eqn:E1;
    [|discriminate].
  apply execute_ok in E1. destruct E1 as (t & rows & Hc & Hf & _ & Hsem & ->).
  injection Hsem as <- <-.
  assert (Hsel := select_id_by_url_some (Article.url a) (tx_rows t)).
  destruct (select_id_by_url (Article.url a) (tx_rows t)) as [found|].
  - destruct (execute (UpdateByUrl a category) _ _) as [[[]|e] w2] eqn:E2;
      [|discriminate].
    apply execute_ok in E2. destruct E2 as (t2 & rows2 & Hc2 & _ & _ & Hsem2 & ->).
    simpl in Hc2. injection Hc2 as <-. simpl in Hsem2.
    unfold ret in H. injection H as <- <-.
    exists t, rows2. repeat split; try assumption.
    left. repeat split.
    + apply Hsel. discriminate.
    + unfold bind_sum in Hsem2.
      destruct (update_by_url a category (tx_start t) (tx_rows t)); [discriminate|].
      injection Hsem2 as <-. reflexivity.
  - unfold new_uuid in H.
    destruct (execute (InsertNews _ a category) _ _) as [[[]|e] w2] eqn:E2;
      [|discriminate].
    apply execute_ok in E2. destruct E2 as (t2 & rows2 & Hc2 & _ & _ & Hsem2 & ->).
    simpl in Hc2. injection Hc2 as <-. simpl in Hsem2.
    unfold ret in H. injection H as <- <-.
    exists t, rows2. repeat split; try assumption.
    right. repeat split.
    + intros Hin. apply Hsel in Hin. congruence.
    + unfold bind_sum in Hsem2. eexists.
      destruct (insert_news _ a category (tx_start t) (tx_rows t)) eqn:Hins;
        [discriminate|].
      injection Hsem2 as <-. exact Hins.
Qed.








(** ** Stale deactivation *)

Lemma stale_iff (cutoff : datetime) (r : News.row) :
  stale cutoff r = true <->
  exists p, News.publish_date r = Some p /\ p < cutoff /\ News.is_active r = Some true.
Proof.
  unfold stale, active. split.
  - destruct (News.publish_date r) as [p|]; [|discriminate].
    intros H. apply andb_true_iff in H. destruct H as [Hp Ha].
    exists p. repeat split; [apply Z.ltb_lt, Hp|].
    destruct (News.is_active r) as [[|]|]; try discriminate. reflexivity.
  - intros (p & -> & Hp & ->). apply andb_true_iff. split; [apply Z.ltb_lt, Hp | reflexivity].
Qed.

Lemma deactivate_not_stale (cutoff now : datetime) (r : News.row) :
  stale cutoff (deactivate now r) = false.
Proof.
  unfold stale, deactivate, active. simpl.
  destruct (News.publish_date r); [apply andb_false_r | reflexivity].
Qed.

Lemma filter_nothing {A} (p : A -> bool) (l : list A) :
  (forall x, In x l -> p x = false) -> filter p l = [].
Proof.
  induction l as [|x l IH]; intros H; [reflexivity|]. simpl.
  rewrite (H x (or_introl eq_refl)). apply IH.
  intros y Hy. apply H. right. exact Hy.
Qed.

(** C4, as the code has it.  [deactivate_old_articles] always returns.
    On a connection whose transaction has not failed, with no fault of
    the store, it logs nothing.  When it logs no error it has turned off
    exactly the rows that were active and published before the cutoff,
    now minus seven days, and left every other row as it was: a row
    published eight days ago and active is one of them, a row published
    six days ago is not; afterwards no such row is left, and a call that
    finds none changes nothing.  When its statement fails it logs that
    one error and leaves every row as it was. *)
Theorem deactivate_old_articles_spec (w : World) :
  exists w',
    deactivate_old_articles w = (Ok tt, w') /\
    (healthy w -> db_fault (env w) (db_ops w) = None ->
     error_count w' = error_count w) /\
    (error_count w' = error_count w ->
     (exists stamp,
         table w' = map (fun r => if stale (cutoff_in w) r then deactivate stamp r else r)
                        (table w)) /\
     (forall r', In r' (table w') -> stale (cutoff_in w) r' = false) /\
     ((forall r, In r (table w) -> stale (cutoff_in w) r = false) ->
      table w' = table w)) /\
    (error_count w' <> error_count w ->
     table w' = table w /\
     exists e, log w' = (log w ++ [mkLog ERROR ("Error deactivating old articles: "
                                                ++ exn_msg e)])%list) /\
    (forall r, stale (cutoff_in w) r = true <->
               exists p, News.publish_date r = Some p /\
                         p < clock (env w) (clock_reads w) - timedelta_days 7 /\
                         News.is_active r = Some true) /\
    (forall r stamp, News.is_active (deactivate stamp r) = Some false /\
                     News.id (deactivate stamp r) = News.id r /\
                     News.url (deactivate stamp r) = News.url r /\
                     News.publish_date (deactivate stamp r) = News.publish_date r) /\
    (forall r, News.publish_date r
               = Some (clock (env w) (clock_reads w) - timedelta_days 8) ->
               News.is_active r = Some true -> stale (cutoff_in w) r = true) /\
    (forall r, News.publish_date r
               = Some (clock (env w) (clock_reads w) - timedelta_days 6) ->
               stale (cutoff_in w) r = false).
Proof.
  assert (Hfacts :
    (forall r, stale (cutoff_in w) r = true <->
               exists p, News.publish_date r = Some p /\
                         p < clock (env w) (clock_reads w) - timedelta_days 7 /\
                         News.is_active r = Some true) /\
    (forall r stamp, News.is_active (deactivate stamp r) = Some false /\
                     News.id (deactivate stamp r) = News.id r /\
                     News.url (deactivate stamp r) = News.url r /\
                     News.publish_date (deactivate stamp r) = News.publish_date r) /\
    (forall r, News.publish_date r
               = Some (clock (env w) (clock_reads w) - timedelta_days 8) ->
               News.is_active r = Some true -> stale (cutoff_in w) r = true) /\
    (forall r, News.publish_date r
               = Some (clock (env w) (clock_reads w) - timedelta_days 6) ->
               stale (cutoff_in w) r = false)).
  { split; [intros r; apply stale_iff|].
    split; [intros r stamp; repeat split|].
    split.
    - intros r Hp Ha. apply stale_iff. eexists. split; [exact Hp|].
      split; [|exact Ha].
      unfold cutoff_in, retention_days, timedelta_days, us_per_day. lia.
    - intros r Hp. unfold stale, cutoff_in, retention_days. rewrite Hp.
      apply andb_false_iff. left. apply Z.ltb_ge.
      unfold timedelta_days, us_per_day. lia. }
  unfold deactivate_old_articles, try_except, bind at 1.
  unfold deactivate_old_articles_body, bind, datetime_now.
  fold (cutoff_in w).
  destruct (execute (DeactivateOlderThan (cutoff_in w)) _ _) as [[n|e] w1] eqn:E.
  - apply execute_ok in E. destruct E as (t & rows & Hc & _ & _ & Hsem & ->).
    simpl in Hc. unfold deactivate_older_than in Hsem. injection Hsem as _ <-.
    assert (Htable : table w = tx_rows t) by (unfold table; rewrite Hc; reflexivity).
    set (w' := after_statement (DeactivateOlderThan (cutoff_in w)) _ _).
    assert (Htable' : table w'
                      = map (fun r => if stale (cutoff_in w) r
                                      then deactivate (tx_start t) r else r) (tx_rows t))
      by reflexivity.
    exists w'. split; [reflexivity|].
    split; [intros _ _; reflexivity|].
    split; [|split; [intros H; contradiction H; reflexivity | exact Hfacts]].
    intros _. rewrite Htable', Htable.
    split; [exists (tx_start t); reflexivity|]. split.
    + intros r' Hr'. apply in_map_iff in Hr'. destruct Hr' as (r & <- & _).
      destruct (stale (cutoff_in w) r) eqn:Hs; [apply deactivate_not_stale | exact Hs].
    + intros Hnone. rewrite <- (map_id (tx_rows t)) at 2. apply map_ext_in.
      intros r Hr. rewrite (Hnone r Hr). reflexivity.
  - unfold logger_error. eexists. split; [reflexivity|].
    assert (Hlog : table w1 = table w /\ log w1 = log w /\
                   (healthy w -> db_fault (env w) (db_ops w) = None -> False)).
    { unfold execute in E. simpl in E. unfold table, healthy.
      destruct (conn w) as [t|] eqn:Hc.
      - destruct (db_fault (env w) (db_ops w)).
        + injection E as _ <-. simpl. repeat split. intros _ H. discriminate H.
        + destruct (tx_failed t) eqn:Hf.
          * injection E as _ <-. simpl. rewrite Hc. repeat split.
            intros H. discriminate H.
          * discriminate E.
      - injection E as _ <-. simpl. rewrite Hc. repeat split. intros []. }
    destruct Hlog as (Ht & Hl & Hbad).
    assert (Hec : error_count
                    (set_log (log w1 ++ [mkLog ERROR ("Error deactivating old articles: "
                                                      ++ exn_msg e)]) w1)
                  = S (error_count w)).
    { unfold error_count. cbn [log set_log]. rewrite filter_app, length_app, Hl.
      simpl. lia. }
    split; [intros Hh Hf; destruct (Hbad Hh Hf)|].
    split; [intros Heq; rewrite Hec in Heq; lia|].
    split; [|exact Hfacts].
    intros _. split; [exact Ht|]. exists e. simpl. rewrite Hl. reflexivity.
Qed.

(** Of two active rows, eight and six days old, the call turns off the
    first and leaves the second; a second call changes nothing. *)
Lemma deactivate_old_articles_example :
  exists w1 w2,
    deactivate_old_articles
      (connected_world quiet_env [eight_days_old; six_days_old]) = (Ok tt, w1) /\
    table w1 = [deactivate example_now eight_days_old; six_days_old] /\
    deactivate_old_articles w1 = (Ok tt, w2) /\
    table w2 = table w1.
Proof.
  assert (Ht1 : table (snd (deactivate_old_articles
                       (connected_world quiet_env [eight_days_old; six_days_old])))
                = [deactivate example_now eight_days_old; six_days_old])
    by (vm_compute; reflexivity).
  assert (He2 : error_count
                  (snd (deactivate_old_articles
                          (snd (deactivate_old_articles
                                  (connected_world quiet_env
                                     [eight_days_old; six_days_old])))))
                = error_count
                    (snd (deactivate_old_articles
                            (connected_world quiet_env [eight_days_old; six_days_old]))))
    by (vm_compute; reflexivity).
  assert (Hs2 : forallb
                  (fun r => negb (stale
                     (cutoff_in (snd (deactivate_old_articles
                                        (connected_world quiet_env
                                           [eight_days_old; six_days_old])))) r))
                  [deactivate example_now eight_days_old; six_days_old] = true)
    by (vm_compute; reflexivity).
  destruct (deactivate_old_articles_spec
              (connected_world quiet_env [eight_days_old; six_days_old]))
    as (w1 & H1 & _).
  rewrite H1 in Ht1, He2, Hs2. cbn [fst snd] in Ht1, He2, Hs2.
  destruct (deactivate_old_articles_spec w1) as (w2 & H2 & _ & Hok & _).
  rewrite H2 in He2. cbn [fst snd] in He2.
  destruct (Hok He2) as (_ & _ & Hidem).
  exists w1, w2. split; [exact H1|]. split; [exact Ht1|]. split; [exact H2|].
  apply Hidem. rewrite Ht1. intros r Hr.
  rewrite forallb_forall in Hs2. specialize (Hs2 r Hr).
  apply negb_true_iff in Hs2. exact Hs2.
Defined.

(** C4 as stated fails on a connection whose transaction has failed: the
    function returns, the store refuses its statement, and the row
    published eight days ago, active and older than the cutoff, is as it
    was. *)
Lemma deactivate_old_articles_on_failed_transaction :
  table aborted_world = [eight_days_old] /\
  News.is_active eight_days_old = Some true /\
  stale (cutoff_in aborted_world) eight_days_old = true /\
  fst (deactivate_old_articles aborted_world) = Ok tt /\
  table (snd (deactivate_old_articles aborted_world)) = [eight_days_old].
Proof. repeat split; vm_compute; reflexivity. Qed.

(** ** Summary statistics *)

(** A query that returns read the rows and left them as they were. *)
Lemma query_ok {A} (stmt : Stmt) (f : list News.row -> A) (w w' : World) (a : A) :
  query stmt f w = (Ok a, w') ->
  a = f (table w) /\
  table w' = table w /\ env w' = env w /\ clock_reads w' = clock_reads w.
Proof.
  unfold query. intros H. apply execute_ok in H.
  destruct H as (t & rows & Hc & _ & _ & Hsem & ->).
  injection Hsem as <- <-. unfold table. rewrite Hc. repeat split.
Qed.

Lemma published_on_iff (day : Z) (r : News.row) :
  published_on day r = true <->
  exists p, News.publish_date r = Some p /\ date_of p = day.
Proof.
  unfold published_on. split.
  - destruct (News.publish_date r) as [p|]; [|discriminate].
    intros H. exists p. split; [reflexivity | apply Z.eqb_eq, H].
  - intros (p & -> & Hp). apply Z.eqb_eq, Hp.
Qed.

(** C9, as the code has it.  When [get_summary_stats] meets no error, its
    today count is the number of rows whose publish date falls on the
    current day, whatever their active flag; it is the number of active
    such rows when every row published on that day is active. *)
Theorem today_count_ignores_active_flag (w w' : World) (s : SummaryStats) :
  get_summary_stats_body w = (Ok s, w') ->
  today_count s = List.length (filter (published_on (today_in w)) (table w)) /\
  (forall r, published_on (today_in w) r = true <->
             exists p, News.publish_date r = Some p /\
                       date_of p = date_of (clock (env w) (clock_reads w))) /\
  total_active s = List.length (filter active (table w)) /\
  ((forall r, In r (table w) -> published_on (today_in w) r = true -> active r = true) ->
   today_count s
   = List.length (filter (fun r => published_on (today_in w) r && active r) (table w))).
Proof.
  unfold get_summary_stats_body, bind. intros H.
  destruct (query SelectCategoryCounts category_counts w) as [[cs|e] w1] eqn:E1;
    [|discriminate].
  destruct (query CountActive count_active w1) as [[n|e] w2] eqn:E2; [|discriminate].
  unfold datetime_now in H.
  destruct (query (CountPublishedOn _) _ _) as [[m|e] w3] eqn:E3; [|discriminate].
  unfold ret in H. injection H as <- <-. simpl.
  apply query_ok in E1. destruct E1 as (_ & Ht1 & He1 & Hr1).
  apply query_ok in E2. destruct E2 as (-> & Ht2 & He2 & Hr2).
  apply query_ok in E3. destruct E3 as (-> & _).
  assert (Htoday : date_of (clock (env w2) (clock_reads w2)) = today_in w)
    by (unfold today_in; rewrite He2, He1, Hr2, Hr1; reflexivity).
  assert (Htable : table (set_clock_reads (S (clock_reads w2)) w2) = table w)
    by (unfold table in *; simpl; rewrite <- Ht1, <- Ht2; reflexivity).
  rewrite Htoday, Htable, Ht1.
  split; [reflexivity|]. split; [intros r; apply published_on_iff|].
  split; [reflexivity|].
  intros Hall. unfold count_published_on. f_equal.
  apply filter_ext_in. intros r Hr.
  destruct (published_on (today_in w) r) eqn:Hp; [|reflexivity].
  rewrite (Hall r Hr Hp). reflexivity.
Qed.

(** On a table whose rows published today are active the today count is
    the number of active rows published today. *)
Lemma today_count_example :
  exists s w',
    get_summary_stats_body (connected_world quiet_env [six_days_old]) = (Ok s, w') /\
    today_count s = 0%nat /\ total_active s = 1%nat.
Proof.
  assert (Hs : exists s, fst (get_summary_stats_body
                                (connected_world quiet_env [six_days_old])) = Ok s)
    by (eexists; vm_compute; reflexivity).
  destruct (get_summary_stats_body (connected_world quiet_env [six_days_old]))
    as [r w'] eqn:H.
  destruct Hs as [s Hs]. simpl in Hs. subst r.
  destruct (today_count_ignores_active_flag _ _ _ H) as (Hc & _ & Ha & _).
  exists s, w'. split; [reflexivity|]. split.
  - rewrite Hc. vm_compute. reflexivity.
  - rewrite Ha. vm_compute. reflexivity.
Defined.

(** C9 as stated fails: the table holds one row, published today and not
    active; no active row was published today, and the today count is 1. *)
Lemma today_count_counts_inactive_row :
  table (connected_world quiet_env [inactive_today]) = [inactive_today] /\
  published_on (today_in (connected_world quiet_env [inactive_today])) inactive_today
  = true /\
  News.is_active inactive_today = Some false /\
  List.length (filter (fun r => published_on
                                  (today_in (connected_world quiet_env [inactive_today])) r
                                && active r)
                 (table (connected_world quiet_env [inactive_today]))) = 0%nat /\
  fst (get_summary_stats (connected_world quiet_env [inactive_today]))
  = Ok (Some (mkSummary [] 0 1)).
Proof. repeat split; vm_compute; reflexivity. Qed.

(** ** Failures inside the loop over the candidates *)

(** C2, as the code has it.  When the persistence operation of a
    candidate raises, [upsert_article] logs the error and returns
    [False], so the loop body counts the candidate as updated: the error
    counter and the counter of new articles keep their values.  The body
    returns, so the loop passes to the remaining candidates. *)
Theorem failed_upsert_counted_as_updated
        (categorizer : NewsCategorizer) (article : Article.t) (rest : list Article.t)
        (stats : Stats) (w w1 w2 : World) (category : string) (e : exn) :
  categorize_article categorizer (Article.title article) (Article.content article) w
  = (Ok category, w1) ->
  upsert_article_body article category w1 = (Raise e, w2) ->
  exists stats' w',
    process_article categorizer article (stats, w) = (Ok tt, (stats', w')) /\
    errors stats' = errors stats /\
    new_articles stats' = new_articles stats /\
    updated_articles stats' = S (updated_articles stats) /\
    log w' = (log w2 ++ [mkLog ERROR ("Error upserting article: " ++ exn_msg e)])%list /\
    for_each (article :: rest) (process_article categorizer) (stats, w)
    = for_each rest (process_article categorizer) (stats', w').
Proof.
  intros Hcat Hup.
  assert (Hrun : process_article categorizer article (stats, w)
                 = (Ok tt, (incr_updated stats,
                            set_log (log w2 ++ [mkLog ERROR ("Error upserting article: "
                                                             ++ exn_msg e)]) w2))).
  { unfold process_article, try_except, bind, lift. simpl fst. simpl snd.
    rewrite Hcat. cbv beta iota zeta. simpl fst. simpl snd.
    unfold upsert_article, try_except. rewrite Hup.
    unfold bind, logger_error, ret. reflexivity. }
  eexists. eexists. split; [exact Hrun|].
  repeat split. simpl for_each. unfold bind at 1. rewrite Hrun. reflexivity.
Qed.

(** A title of 501 characters: the [INSERT] is rejected, and the
    candidate is counted as updated. *)
Lemma failed_upsert_example :
  exists stats' w',
    fst (upsert_article_body long_article "uncategorized" (connected_world quiet_env []))
    = Raise (Exception "value too long for type character varying(500)") /\
    process_article (mkCategorizer None) long_article
      (mkStats 0 0 0, connected_world quiet_env [])
    = (Ok tt, (stats', w')) /\
    errors stats' = 0%nat /\ new_articles stats' = 0%nat /\
    updated_articles stats' = 1%nat /\
    table w' = [].
Proof.
  assert (Hf : fst (upsert_article_body long_article "uncategorized"
                      (connected_world quiet_env []))
               = Raise (Exception "value too long for type character varying(500)"))
    by (vm_compute; reflexivity).
  assert (Ht : table (snd (snd (process_article (mkCategorizer None) long_article
                                  (mkStats 0 0 0, connected_world quiet_env [])))) = [])
    by (vm_compute; reflexivity).
  destruct (upsert_article_body long_article "uncategorized"
              (connected_world quiet_env [])) as [r w2] eqn:Hup.
  simpl fst in Hf. subst r.
  destruct (failed_upsert_counted_as_updated
              (mkCategorizer None) long_article [] (mkStats 0 0 0)
              (connected_world quiet_env []) (connected_world quiet_env []) w2
              "uncategorized" _ eq_refl Hup)
    as (stats' & w' & Hrun & He & Hn & Hu & _).
  rewrite Hrun in Ht. simpl snd in Ht.
  exists stats', w'. repeat split; assumption.
Defined.

(** The same through a whole run: the NARC page offers one candidate with
    a title of 501 characters; the run reports one updated article and no
    error, and stores nothing. *)
Lemma failed_upsert_in_a_run :
  fst (@run_news_pipeline example_library
         (start_world (example_env no_fault (inr (narc_page_with long_title))) []))
  = Ok (mkStats 0 1 0) /\
  news (snd (@run_news_pipeline example_library
               (start_world (example_env no_fault (inr (narc_page_with long_title))) [])))
  = [].
Proof. split; vm_compute; reflexivity. Qed.

(** ** Failures of the read routes *)

Lemma prefix_refl (s : string) : prefix s s = true.
Proof.
  induction s as [|c s IH]; [reflexivity|]. simpl.
  destruct (ascii_dec c c) as [_|Hne]; [exact IH | contradiction].
Qed.

Lemma contains_refl (s : string) : contains s s = true.
Proof.
  destruct s as [|c s]; [reflexivity|].
  unfold contains. rewrite prefix_refl. reflexivity.
Qed.

Lemma error_response_mentions (e : exn) :
  json_mentions (exn_msg e) (fst (error_response e)) = true.
Proof.
  unfold json_mentions, error_response. simpl.
  rewrite contains_refl. reflexivity.
Qed.

Section ApiFacts.
Context {lib : Library}.

(** C7, as the code has it.  When the body of [GET /api/news] or of
    [GET /api/categories] raises, the route logs the error and returns
    status 500 with the payload [{success: false, error: str(e)}]: the
    payload carries the text of the exception as it is. *)
Theorem api_failure_returns_error_text (request : Request) (w : World) :
  (forall e w1,
      get_news_body request w = (Raise e, w1) ->
      get_news request w
      = (Ok (error_response e),
         set_log (log w1 ++ [mkLog ERROR ("API error: " ++ exn_msg e)]) w1)) /\
  (forall e w1,
      get_categories_body w = (Raise e, w1) ->
      get_categories w
      = (Ok (error_response e),
         set_log (log w1 ++ [mkLog ERROR ("API error: " ++ exn_msg e)]) w1)) /\
  (forall e,
      error_response e
      = (JObj [("success", JBool false); ("error", JStr (exn_msg e))], 500) /\
      json_field "error" (fst (error_response e)) = Some (JStr (exn_msg e)) /\
      json_mentions (exn_msg e) (fst (error_response e)) = true).
Proof.
  split; [|split].
  - intros e w1 H. unfold get_news, try_except. rewrite H. reflexivity.
  - intros e w1 H. unfold get_categories, try_except. rewrite H. reflexivity.
  - intros e. split; [reflexivity|]. split; [reflexivity|].
    apply error_response_mentions.
Qed.
End ApiFacts.

(** With the store unreachable both routes answer 500 and give the text
    of the connection error. *)
Lemma api_failure_example :
  fst (@get_news example_library plain_request unreachable_world)
  = Ok (refused_payload, 500) /\
  fst (get_categories unreachable_world) = Ok (refused_payload, 500).
Proof.
  destruct (@api_failure_returns_error_text example_library plain_request
              unreachable_world) as (Hnews & Hcat & _).
  assert (Hn : fst (@get_news_body example_library plain_request unreachable_world)
               = Raise (Exception "connection refused")) by (vm_compute; reflexivity).
  assert (Hc : fst (get_categories_body unreachable_world)
               = Raise (Exception "connection refused")) by (vm_compute; reflexivity).
  destruct (@get_news_body example_library plain_request _) as [r1 w1] eqn:H1.
  destruct (get_categories_body _) as [r2 w2] eqn:H2.
  simpl fst in Hn, Hc. subst r1 r2.
  rewrite (Hnews _ _ eq_refl), (Hcat _ _ eq_refl). split; reflexivity.
Defined.

(** C7 as stated fails: the store is unreachable, the connection error
    reads "connection refused", and the payload of either route holds
    that text. *)
Lemma api_error_payload_holds_exception_text :
  fst (@get_news_body example_library plain_request unreachable_world)
  = Raise (Exception "connection refused") /\
  fst (@get_news example_library plain_request unreachable_world)
  = Ok (refused_payload, 500) /\
  fst (get_categories_body unreachable_world)
  = Raise (Exception "connection refused") /\
  fst (get_categories unreachable_world) = Ok (refused_payload, 500) /\
  json_mentions "connection refused" refused_payload = true.
Proof. repeat split; vm_compute; reflexivity. Qed.

(** ** The pipeline as a whole *)

Section PipelineFacts.
Context {lib : Library}.

(** A run is its body under the outer handler. *)
Lemma run_news_pipeline_unfold (w : World) :
  run_news_pipeline w
  = match run_news_pipeline_body (at_start w) with
    | (Ok _, (stats, w')) => (Ok stats, w')
    | (Raise e, (stats, w')) =>
        (Ok (incr_errors stats), set_log (log w' ++ [pipeline_failed e]) w')
    end.
Proof.
  unfold run_news_pipeline, bind, datetime_now, with_local, try_except, get_local,
    at_start.
  destruct (run_news_pipeline_body _) as [[[]|e] [stats w']]; reflexivity.
Qed.

(** With the store unreachable the body raises before anything else is
    done. *)
Lemma setup_failure_raises (w : World) (stats : Stats) (e : exn) :
  db_fault (env w) (db_ops w) = Some e ->
  run_news_pipeline_body (stats, w)
  = (Raise e,
     (stats, set_log (log w ++ [mkLog ERROR ("Database setup failed: " ++ exn_msg e)])
               (set_db_ops (S (db_ops w)) w))).
Proof.
  intros Hf.
  unfold run_news_pipeline_body, lift, setup_database, try_except,
    psycopg2_connect, logger_error, raise.
  unfold bind. cbv beta iota zeta delta [fst snd]. rewrite Hf. reflexivity.
Qed.

(** C10.  [run_news_pipeline] returns in every world: an exception that
    its body raises is caught, logged as ["Pipeline failed: ..."] and
    counted as an error.  In particular, when the store is unreachable at
    the start the run returns with one error counted, the setup failure
    and the pipeline failure logged, no statement sent and the table as
    it was. *)
Theorem run_news_pipeline_never_raises (w : World) :
  exists stats w',
    run_news_pipeline w = (Ok stats, w') /\
    (forall e stats1 w1,
        run_news_pipeline_body (at_start w) = (Raise e, (stats1, w1)) ->
        stats = incr_errors stats1 /\
        log w' = (log w1 ++ [pipeline_failed e])%list) /\
    (forall e,
        db_fault (env w) (db_ops w) = Some e ->
        stats = mkStats 0 0 1 /\
        log w' = (log w ++ [mkLog ERROR ("Database setup failed: " ++ exn_msg e);
                            pipeline_failed e])%list /\
        history w' = history w /\ news w' = news w).
Proof.
  rewrite run_news_pipeline_unfold.
  destruct (run_news_pipeline_body (at_start w)) as [[[]|e] [stats1 w1]] eqn:E.
  - exists stats1, w1. split; [reflexivity|]. split.
    + intros e stats2 w2 H. discriminate.
    + intros e Hf. unfold at_start in E.
      rewrite (setup_failure_raises _ _ e) in E by exact Hf. discriminate.
  - eexists. eexists. split; [reflexivity|]. split.
    + intros e' stats2 w2 H. injection H as <- <- <-. split; reflexivity.
    + intros e' Hf. unfold at_start in E.
      rewrite (setup_failure_raises _ _ e') in E by exact Hf.
      injection E as <- <- <-. simpl. rewrite <- app_assoc. repeat split.
Qed.
End PipelineFacts.

(** With the store unreachable the run returns, with one error counted
    and both failures logged. *)
Lemma run_news_pipeline_unreachable_example :
  exists w',
    @run_news_pipeline example_library unreachable_world = (Ok (mkStats 0 0 1), w') /\
    log w' = [mkLog ERROR "Database setup failed: connection refused";
              mkLog ERROR "Pipeline failed: connection refused"] /\
    history w' = [] /\ news w' = [].
Proof.
  destruct (@run_news_pipeline_never_raises example_library unreachable_world)
    as (stats & w' & Hrun & _ & Hsetup).
  destruct (Hsetup (Exception "connection refused") eq_refl) as (-> & Hlog & Hh & Hn).
  exists w'. repeat split; assumption.
Defined.

(** ** The order of the statements of a run *)

Lemma extends_refl (w : World) : extends [] w w.
Proof. constructor; try reflexivity. symmetry. apply app_nil_r. Qed.

Lemma extends_trans (s1 s2 : list Stmt) (w1 w2 w3 : World) :
  extends s1 w1 w2 -> extends s2 w2 w3 -> extends (s1 ++ s2) w1 w3.
Proof.
  intros [He1 Hn1 Hh1 Hc1] [He2 Hn2 Hh2 Hc2]. constructor.
  - congruence.
  - congruence.
  - rewrite Hh2, Hh1, app_assoc. reflexivity.
  - lia.
Qed.

Lemma error_count_logged (msg : string) (w : World) :
  error_count (set_log (log w ++ [mkLog ERROR msg]) w) = S (error_count w).
Proof.
  unfold error_count. simpl. rewrite filter_app, length_app. simpl. lia.
Qed.

Lemma error_count_warned (msg : string) (w : World) :
  error_count (set_log (log w ++ [mkLog WARNING msg]) w) = error_count w.
Proof.
  unfold error_count. simpl. rewrite filter_app, length_app. simpl. lia.
Qed.

(** Whatever a statement does, it is recorded, and it returns only on a
    transaction that has not failed. *)
Lemma execute_after {A} (stmt : Stmt) (sem : Tx -> exn + (A * list News.row))
      (w w' : World) (r : Result A) :
  execute stmt sem w = (r, w') ->
  exists c,
    w' = after_statement stmt c w /\
    match r with
    | Ok _ => exists t, c = Some t /\ tx_failed t = false
    | Raise _ => True
    end.
Proof.
  intros H. destruct r as [a|e].
  - apply execute_ok in H. destruct H as (t & rows & _ & _ & _ & _ & ->).
    eexists. split; [reflexivity|]. eexists. split; reflexivity.
  - apply execute_raise in H. destruct H as (c & -> & _).
    exists c. split; [reflexivity | exact I].
Qed.

Lemma categorize_article_frame (cz : NewsCategorizer) (title content : string)
      (w w' : World) (r : Result string) :
  categorize_article cz title content w = (r, w') ->
  (exists category, r = Ok category) /\
  extends [] w w' /\ clock_reads w' = clock_reads w /\ conn w' = conn w.
Proof.
  unfold categorize_article. destruct (classifier cz) as [clf|].
  - unfold try_except, of_sum. destruct (classify clf title content) as [e|c].
    + unfold raise, bind, logger_error, ret. intros H. injection H as <- <-.
      split; [eexists; reflexivity|]. split; [|split; reflexivity].
      constructor; try reflexivity.
      * simpl. symmetry. apply app_nil_r.
      * rewrite error_count_logged. lia.
    + unfold ret. intros H. injection H as <- <-.
      split; [eexists; reflexivity|]. split; [apply extends_refl | split; reflexivity].
  - unfold ret. intros H. injection H as <- <-.
    split; [eexists; reflexivity|]. split; [apply extends_refl | split; reflexivity].
Qed.

(** The statements of one call of [upsert_article], whatever its outcome. *)
Lemma upsert_article_body_frame (a : Article.t) (category : string)
      (w w' : World) (r : Result bool) :
  upsert_article_body a category w = (r, w') ->
  (exists sent,
      history w' = (history w ++ sent)%list /\ Forall is_upsert_stmt sent) /\
  env w' = env w /\ news w' = news w /\ log w' = log w /\
  clock_reads w' = clock_reads w /\
  match r with Ok _ => healthy w' | Raise _ => True end.
Proof.
  unfold upsert_article_body, bind. intros H.
  destruct (execute (SelectIdByUrl (Article.url a)) _ w) as [[existing|e] w1] eqn:E1.
  - apply execute_after in E1. destruct E1 as (c1 & -> & _).
    destruct existing as [found|].
    + destruct (execute (UpdateByUrl a category) _ _) as [[[]|e] w2] eqn:E2;
        apply execute_after in E2; destruct E2 as (c2 & -> & H2);
        unfold ret in H; injection H as <- <-.
      * split; [eexists [_; _]; split; [simpl; rewrite <- app_assoc; reflexivity|
                                        repeat constructor]|].
        repeat split. destruct H2 as (t & -> & Hf). exact Hf.
      * split; [eexists [_; _]; split; [simpl; rewrite <- app_assoc; reflexivity|
                                        repeat constructor]|].
        repeat split.
    + unfold new_uuid in H.
      destruct (execute (InsertNews _ a category) _ _) as [[[]|e] w2] eqn:E2;
        apply execute_after in E2; destruct E2 as (c2 & -> & H2);
        unfold ret in H; injection H as <- <-.
      * split; [eexists [_; _]; split; [simpl; rewrite <- app_assoc; reflexivity|
                                        repeat constructor]|].
        repeat split. destruct H2 as (t & -> & Hf). exact Hf.
      * split; [eexists [_; _]; split; [simpl; rewrite <- app_assoc; reflexivity|
                                        repeat constructor]|].
        repeat split.
  - apply execute_after in E1. destruct E1 as (c1 & -> & _).
    injection H as <- <-.
    split; [eexists [_]; split; [reflexivity | repeat constructor]|].
    repeat split.
Qed.

Lemma upsert_article_frame (a : Article.t) (category : string)
      (w w' : World) (r : Result bool) :
  upsert_article a category w = (r, w') ->
  (exists b, r = Ok b) /\
  (exists sent, extends sent w w' /\ Forall is_upsert_stmt sent) /\
  clock_reads w' = clock_reads w /\
  (error_count w' = error_count w -> healthy w').
Proof.
  unfold upsert_article, try_except. intros H.
  destruct (upsert_article_body a category w) as [[b|e] w1] eqn:E;
    apply upsert_article_body_frame in E;
    destruct E as ((sent & Hh & Hs) & He & Hn & Hl & Hc & Hok).
  - injection H as <- <-. split; [eexists; reflexivity|].
    split; [exists sent; split; [|exact Hs]|split; [exact Hc | intros _; exact Hok]].
    constructor; try assumption. unfold error_count. rewrite Hl. lia.
  - unfold bind, logger_error, ret in H. injection H as <- <-.
    assert (Hcount : error_count w1 = error_count w)
      by (unfold error_count; rewrite Hl; reflexivity).
    split; [eexists; reflexivity|].
    split; [exists sent; split; [|exact Hs]|split; [exact Hc|]].
    + constructor; try assumption. rewrite error_count_logged. lia.
    + rewrite error_count_logged. lia.
Qed.

Lemma bind_lift_ok {L S A B} (m : M S A) (f : A -> M (L * S) B)
      (l : L) (s s' : S) (a : A) :
  m s = (Ok a, s') -> bind (lift m) f (l, s) = f a (l, s').
Proof. intros H. unfold bind, lift. simpl. rewrite H. reflexivity. Qed.

Lemma bind_lift_raise {L S A B} (m : M S A) (f : A -> M (L * S) B)
      (l : L) (s s' : S) (e : exn) :
  m s = (Raise e, s') -> bind (lift m) f (l, s) = (Raise e, (l, s')).
Proof. intros H. unfold bind, lift. simpl. rewrite H. reflexivity. Qed.

(** The body of the loop returns, and sends only statements of
    [upsert_article]. *)
Lemma process_article_frame (cz : NewsCategorizer) (a : Article.t)
      (stats : Stats) (w : World) :
  exists stats' w',
    process_article cz a (stats, w) = (Ok tt, (stats', w')) /\
    (exists sent, extends sent w w' /\ Forall is_upsert_stmt sent) /\
    clock_reads w' = clock_reads w /\
    (error_count w' = error_count w -> healthy w').
Proof.
  destruct (categorize_article cz (Article.title a) (Article.content a) w)
    as [rc w1] eqn:Ec.
  destruct (categorize_article_frame _ _ _ _ _ _ Ec) as ((category & ->) & Hx1 & Hk1 & _).
  destruct (upsert_article a category w1) as [ru w2] eqn:Eu.
  destruct (upsert_article_frame _ _ _ _ _ Eu) as ((b & ->) & (sent & Hx2 & Hs) & Hk2 & Hq).
  assert (Hrun : exists stats', process_article cz a (stats, w) = (Ok tt, (stats', w2))).
  { unfold process_article, try_except.
    rewrite (bind_lift_ok _ _ _ _ _ _ Ec), (bind_lift_ok _ _ _ _ _ _ Eu).
    destruct b; eexists; reflexivity. }
  destruct Hrun as [stats' Hrun]. exists stats', w2.
  split; [exact Hrun|]. split; [|split].
  - exists sent. split; [|exact Hs].
    change sent with ([] ++ sent)%list. eapply extends_trans; eassumption.
  - congruence.
  - intros Heq. apply Hq.
    pose proof (ext_errors _ _ _ Hx1). pose proof (ext_errors _ _ _ Hx2). lia.
Qed.

Lemma for_each_process_frame (cz : NewsCategorizer) (articles : list Article.t) :
  forall (stats : Stats) (w : World),
  exists stats' w',
    for_each articles (process_article cz) (stats, w) = (Ok tt, (stats', w')) /\
    (exists sent, extends sent w w' /\ Forall is_upsert_stmt sent) /\
    clock_reads w' = clock_reads w /\
    (error_count w' = error_count w -> healthy w -> healthy w').
Proof.
  induction articles as [|a rest IH]; intros stats w.
  - exists stats, w. split; [reflexivity|].
    split; [exists []; split; [apply extends_refl | constructor]|].
    split; [reflexivity | intros _ H; exact H].
  - destruct (process_article_frame cz a stats w)
      as (stats1 & w1 & Hrun & (s1 & Hx1 & Hs1) & Hk1 & Hq1).
    destruct (IH stats1 w1) as (stats2 & w2 & Hrest & (s2 & Hx2 & Hs2) & Hk2 & Hq2).
    exists stats2, w2. split; [|split; [|split]].
    + simpl. unfold bind at 1. rewrite Hrun. exact Hrest.
    + exists (s1 ++ s2)%list. split; [eapply extends_trans; eassumption|].
      apply Forall_app. split; assumption.
    + congruence.
    + intros Heq _.
      pose proof (ext_errors _ _ _ Hx1). pose proof (ext_errors _ _ _ Hx2).
      apply Hq2; [lia|]. apply Hq1. lia.
Qed.

(** [deactivate_old_articles] returns and sends its one statement; when
    it logs no error, no row of the transaction is left active with a
    publish date before the cutoff. *)
Lemma deactivate_old_articles_frame (w : World) :
  exists w',
    deactivate_old_articles w = (Ok tt, w') /\
    extends [DeactivateOlderThan (cutoff_in w)] w w' /\
    (error_count w' = error_count w ->
     healthy w' /\ forall r, In r (table w') -> stale (cutoff_in w) r = false).
Proof.
  unfold deactivate_old_articles, try_except, bind at 1.
  unfold deactivate_old_articles_body, bind, datetime_now.
  fold (cutoff_in w).
  destruct (execute (DeactivateOlderThan (cutoff_in w)) _ _) as [[n|e] w1] eqn:E.
  - apply execute_ok in E. destruct E as (t & rows & _ & _ & _ & Hsem & ->).
    unfold deactivate_older_than in Hsem. injection Hsem as _ <-.
    eexists. split; [reflexivity|]. split; [constructor; try reflexivity; lia|].
    intros _. split; [reflexivity|].
    intros r' Hr'. unfold table in Hr'. simpl in Hr'.
    apply in_map_iff in Hr'. destruct Hr' as (r & <- & _).
    destruct (stale (cutoff_in w) r) eqn:Hs; [apply deactivate_not_stale | exact Hs].
  - apply execute_after in E. destruct E as (c & -> & _).
    unfold logger_error. eexists. split; [reflexivity|]. split.
    + constructor; try reflexivity. rewrite error_count_logged.
      unfold error_count. simpl. lia.
    + rewrite error_count_logged. unfold error_count at 1 2. simpl. lia.
Qed.

Ltac sent_frame :=
  split;
  [ constructor; try reflexivity;
    try (rewrite error_count_logged; unfold error_count; simpl; lia);
    simpl; rewrite <- ?app_assoc; reflexivity
  | repeat constructor ].

(** [get_summary_stats] returns and sends only its three queries; when it
    logs no error the transaction is as it was. *)
Lemma get_summary_stats_frame (w : World) :
  exists r w',
    get_summary_stats w = (Ok r, w') /\
    (exists sent, extends sent w w' /\ Forall is_summary_stmt sent) /\
    (error_count w' = error_count w -> healthy w' /\ table w' = table w).
Proof.
  unfold get_summary_stats, try_except, bind at 1.
  unfold get_summary_stats_body, bind, query.
  destruct (execute SelectCategoryCounts _ w) as [[cs|e] w1] eqn:E1.
  - apply execute_ok in E1. destruct E1 as (t1 & rows1 & Hc1 & _ & _ & Hsem1 & ->).
    injection Hsem1 as _ <-.
    destruct (execute CountActive _ _) as [[n|e] w2] eqn:E2.
    + apply execute_ok in E2. destruct E2 as (t2 & rows2 & Hc2 & _ & _ & Hsem2 & ->).
      simpl in Hc2. injection Hc2 as <-. simpl in Hsem2. injection Hsem2 as _ <-.
      unfold datetime_now.
      destruct (execute (CountPublishedOn _) _ _) as [[m|e] w3] eqn:E3.
      * apply execute_ok in E3. destruct E3 as (t3 & rows3 & Hc3 & _ & _ & Hsem3 & ->).
        simpl in Hc3. injection Hc3 as <-. simpl in Hsem3. injection Hsem3 as _ <-.
        unfold ret. eexists. eexists. split; [reflexivity|]. split.
        -- eexists [_; _; _]. sent_frame.
        -- intros _. split; [reflexivity|]. unfold table. simpl. rewrite Hc1. reflexivity.
      * apply execute_after in E3. destruct E3 as (c3 & -> & _).
        unfold logger_error, ret. eexists. eexists. split; [reflexivity|]. split.
        -- eexists [_; _; _]. sent_frame.
        -- rewrite error_count_logged. unfold error_count at 1 2. simpl. lia.
    + apply execute_after in E2. destruct E2 as (c2 & -> & _).
      unfold logger_error, ret. eexists. eexists. split; [reflexivity|]. split.
      * eexists [_; _]. sent_frame.
      * rewrite error_count_logged. unfold error_count at 1 2. simpl. lia.
  - apply execute_after in E1. destruct E1 as (c1 & -> & _).
    unfold logger_error, ret. eexists. eexists. split; [reflexivity|]. split.
    + eexists [_]. sent_frame.
    + rewrite error_count_logged. unfold error_count at 1 2. simpl. lia.
Qed.

(** [conn.commit()] sends no statement and logs nothing; when it returns
    on a transaction that has not failed, the table is what the
    transaction saw. *)
Lemma conn_commit_frame (w w' : World) (r : Result unit) :
  conn_commit w = (r, w') ->
  env w' = env w /\ history w' = history w /\ log w' = log w /\
  clock_reads w' = clock_reads w /\
  match r with
  | Ok _ => healthy w -> news w' = table w
  | Raise _ => True
  end.
Proof.
  unfold conn_commit, healthy, table. intros H.
  destruct (conn w) as [t|].
  - destruct (db_fault (env w) (db_ops w)).
    + injection H as <- <-. repeat split.
    + injection H as <- <-. repeat split. simpl. intros ->. reflexivity.
  - injection H as <- <-. repeat split.
Qed.

Lemma psycopg2_connect_ok (w w' : World) :
  psycopg2_connect w = (Ok tt, w') ->
  healthy w' /\ env w' = env w /\ clock_reads w' = clock_reads w /\
  history w' = history w /\ log w' = log w.
Proof.
  unfold psycopg2_connect, healthy. intros H.
  destruct (db_fault (env w) (db_ops w)); [discriminate|].
  injection H as <-. repeat split.
Qed.

Section RunFacts.
Context {lib : Library}.

(** What the body of a run does once the store was set up, the
    categoriser built and the sites scraped. *)
Lemma run_news_pipeline_body_after_scrape
      (stats : Stats) (w0 w1 w2 w3 : World) (cz : NewsCategorizer)
      (articles : list Article.t) :
  setup_database w0 = (Ok tt, w1) ->
  NewsCategorizer_init w1 = (Ok cz, w2) ->
  scrape_all_sites w2 = (Ok articles, w3) ->
  run_news_pipeline_body (stats, w0)
  = match articles with
    | [] => lift (logger_warning "No articles found!") (stats, w3)
    | _ :: _ =>
        (lift psycopg2_connect ;;
         for_each articles (process_article cz) ;;
         lift deactivate_old_articles ;;
         summary_stats <- lift get_summary_stats ;;
         lift conn_commit ;;
         lift conn_close ;;
         end_time <- lift datetime_now ;;
         ret tt) (stats, w3)
    end.
Proof.
  intros H1 H2 H3. unfold run_news_pipeline_body.
  rewrite (bind_lift_ok _ _ _ _ _ _ H1), (bind_lift_ok _ _ _ _ _ _ H2),
    (bind_lift_ok _ _ _ _ _ _ H3).
  destruct articles; reflexivity.
Qed.

(** C5, as the code has it.  In a run whose setup succeeded and whose
    scrape gave at least one candidate, the run connects to the store
    once more.  When that connection is made, the statements given to
    it after the scrape are those of the upserts, then the stale
    deactivation, once, then the summary queries; and if the run logged
    no error from the connection on, no row of the table is left active
    with a publish date before the cutoff of that deactivation, seven
    days before its clock reading.  When that connection fails, the run
    ends as failed, with one error counted and logged: no statement is
    given after the scrape, so no deactivation, and the table is as it
    was. *)
Theorem stale_deactivation_once_after_upserts
        (w w1 w2 w3 : World) (cz : NewsCategorizer) (articles : list Article.t) :
  setup_database (snd (at_start w)) = (Ok tt, w1) ->
  NewsCategorizer_init w1 = (Ok cz, w2) ->
  scrape_all_sites w2 = (Ok articles, w3) ->
  articles <> [] ->
  exists stats w',
    run_news_pipeline w = (Ok stats, w') /\
    match psycopg2_connect w3 with
    | (Ok _, w4) =>
        exists upserts summaries,
          history w'
          = (history w3 ++ upserts ++ [DeactivateOlderThan (cutoff_in w4)]
               ++ summaries)%list /\
          Forall is_upsert_stmt upserts /\
          Forall is_summary_stmt summaries /\
          cutoff_in w4 = clock (env w4) (clock_reads w4) - timedelta_days 7 /\
          (error_count w' = error_count w4 ->
           forall r, In r (news w') -> stale (cutoff_in w4) r = false)
    | (Raise e, w4) =>
        stats = mkStats 0 0 1 /\
        history w' = history w3 /\
        news w' = news w3 /\
        log w' = (log w3 ++ [pipeline_failed e])%list
    end.
Proof.
  intros H1 H2 H3 Hne.
  destruct (run_news_pipeline w) as [res w'] eqn:E.
  rewrite run_news_pipeline_unfold in E.
  unfold at_start in E. simpl snd in H1.
  rewrite (run_news_pipeline_body_after_scrape _ _ _ _ _ _ _ H1 H2 H3) in E.
  destruct articles as [|a rest]; [contradiction|].
  destruct (psycopg2_connect w3) as [[[]|e4] w4] eqn:Hc.
  - destruct (psycopg2_connect_ok _ _ Hc) as (Hh4 & He4 & Hk4 & Hhist4 & Hl4).
    rewrite (bind_lift_ok _ _ _ _ _ _ Hc) in E.
    destruct (for_each_process_frame cz (a :: rest) (mkStats 0 0 0) w4)
      as (st5 & w5 & Hloop & (ups & Hx5 & Hu5) & Hk5 & Hq5).
    unfold bind at 1 in E. rewrite Hloop in E.
    destruct (deactivate_old_articles_frame w5) as (w6 & Hd & Hx6 & Hq6).
    rewrite (bind_lift_ok _ _ _ _ _ _ Hd) in E.
    destruct (get_summary_stats_frame w6) as (s & w7 & Hs & (sums & Hx7 & Hsum) & Hq7).
    rewrite (bind_lift_ok _ _ _ _ _ _ Hs) in E.
    assert (Hcut : cutoff_in w5 = cutoff_in w4)
      by (unfold cutoff_in; rewrite (ext_env _ _ _ Hx5), Hk5; reflexivity).
    rewrite Hcut in *.
    pose proof (ext_errors _ _ _ Hx5) as Hle5.
    pose proof (ext_errors _ _ _ Hx6) as Hle6.
    pose proof (ext_errors _ _ _ Hx7) as Hle7.
    assert (Hhist7 : history w7
                     = (history w3 ++ ups ++ [DeactivateOlderThan (cutoff_in w4)]
                          ++ sums)%list).
    { rewrite (ext_history _ _ _ Hx7), (ext_history _ _ _ Hx6),
        (ext_history _ _ _ Hx5), Hhist4, <- !app_assoc. reflexivity. }
    destruct (conn_commit w7) as [[[]|e] w8] eqn:Ec;
      destruct (conn_commit_frame _ _ _ Ec) as (_ & Hhist8 & Hl8 & _ & Hnews8).
    + rewrite (bind_lift_ok _ _ _ _ _ _ Ec) in E.
      rewrite (bind_lift_ok _ _ _ _ _ _ (eq_refl : conn_close w8 = (Ok tt, _))) in E.
      rewrite (bind_lift_ok _ _ _ _ _ _ (eq_refl : datetime_now _ = (Ok _, _))) in E.
      unfold ret in E. injection E as <- <-.
      exists st5. eexists. split; [reflexivity|]. exists ups, sums.
      split; [simpl; rewrite Hhist8; exact Hhist7|].
      split; [exact Hu5|]. split; [exact Hsum|]. split; [reflexivity|].
      unfold error_count at 1. simpl. fold (error_count w8).
      assert (H8 : error_count w8 = error_count w7)
        by (unfold error_count; rewrite Hl8; reflexivity).
      rewrite H8. intros Heq r Hr. simpl in Hr.
      assert (Hh5 : healthy w5) by (apply Hq5; [lia | exact Hh4]).
      destruct Hq6 as [Hh6 Hfresh]; [lia|].
      destruct Hq7 as [Hh7 Ht7]; [lia|].
      rewrite (Hnews8 Hh7), Ht7 in Hr. apply Hfresh, Hr.
    + rewrite (bind_lift_raise _ _ _ _ _ _ Ec) in E.
      injection E as <- <-.
      exists (incr_errors st5). eexists. split; [reflexivity|]. exists ups, sums.
      split; [simpl; rewrite Hhist8; exact Hhist7|].
      split; [exact Hu5|]. split; [exact Hsum|]. split; [reflexivity|].
      unfold pipeline_failed. rewrite error_count_logged.
      assert (H8 : error_count w8 = error_count w7)
        by (unfold error_count; rewrite Hl8; reflexivity).
      rewrite H8. intros Heq. exfalso. lia.
  - rewrite (bind_lift_raise _ _ _ _ _ _ Hc) in E. injection E as <- <-.
    unfold psycopg2_connect in Hc.
    destruct (db_fault (env w3) (db_ops w3)); [|discriminate].
    injection Hc as _ <-.
    eexists. eexists. split; [reflexivity|]. repeat split.
Qed.
End RunFacts.

(** A run with one candidate over a store with a stale active row: after
    the setup the statements are upserts, one deactivation and summary
    queries, and the stale row is no longer active. *)
Lemma stale_deactivation_example :
  exists stats w' cutoff upserts summaries,
    @run_news_pipeline example_library one_candidate_world = (Ok stats, w') /\
    history w'
    = (setup_statements ++ upserts ++ [DeactivateOlderThan cutoff] ++ summaries)%list /\
    Forall is_upsert_stmt upserts /\
    Forall is_summary_stmt summaries /\
    (forall r, In r (news w') -> stale cutoff r = false).
Proof.
  assert (F1 : fst (setup_database (snd (at_start one_candidate_world))) = Ok tt)
    by (vm_compute; reflexivity).
  assert (F2 : exists cz,
             fst (NewsCategorizer_init
                    (snd (setup_database (snd (at_start one_candidate_world)))))
             = Ok cz) by (eexists; vm_compute; reflexivity).
  assert (F3 : exists a,
             fst (@scrape_all_sites example_library
                    (snd (NewsCategorizer_init
                            (snd (setup_database (snd (at_start one_candidate_world)))))))
             = Ok [a]) by (eexists; vm_compute; reflexivity).
  assert (F4 : fst (psycopg2_connect
                      (snd (@scrape_all_sites example_library
                              (snd (NewsCategorizer_init
                                      (snd (setup_database
                                              (snd (at_start one_candidate_world)))))))))
               = Ok tt) by (vm_compute; reflexivity).
  assert (F5 : error_count (snd (@run_news_pipeline example_library one_candidate_world))
               = error_count
                   (snd (psycopg2_connect
                      (snd (@scrape_all_sites example_library
                              (snd (NewsCategorizer_init
                                      (snd (setup_database
                                              (snd (at_start one_candidate_world)))))))))))
    by (vm_compute; reflexivity).
  assert (F6 : history
                 (snd (@scrape_all_sites example_library
                         (snd (NewsCategorizer_init
                                 (snd (setup_database
                                         (snd (at_start one_candidate_world))))))))
               = setup_statements) by (vm_compute; reflexivity).
  destruct (setup_database (snd (at_start one_candidate_world))) as [r1 w1] eqn:H1.
  cbn [fst snd] in F1, F2, F3, F4, F5, F6. subst r1.
  destruct F2 as [cz F2].
  destruct (NewsCategorizer_init w1) as [r2 w2] eqn:H2.
  cbn [fst snd] in F2, F3, F4, F5, F6. subst r2.
  destruct F3 as [a F3].
  destruct (@scrape_all_sites example_library w2) as [r3 w3] eqn:H3.
  cbn [fst snd] in F3, F4, F5, F6. subst r3.
  destruct (psycopg2_connect w3) as [r4 w4] eqn:H4.
  cbn [fst snd] in F4, F5. subst r4.
  destruct (@stale_deactivation_once_after_upserts example_library
              one_candidate_world w1 w2 w3 cz [a] H1 H2 H3 ltac:(discriminate))
    as (stats & w' & Hrun & Hconnected).
  rewrite H4 in Hconnected.
  destruct Hconnected as (ups & sums & Hh & Hu & Hs & _ & Hfresh).
  rewrite Hrun in F5. cbn [fst snd] in F5.
  exists stats, w', (cutoff_in w4), ups, sums.
  split; [exact Hrun|]. rewrite <- F6.
  split; [exact Hh|]. split; [exact Hu|]. split; [exact Hs|]. apply Hfresh, F5.
Defined.

(** The connection after the setup refused, in a run with one candidate:
    the run counts one error, the only statements are those of the
    setup, and the row published eight days before is active still. *)
Lemma refused_connection_in_a_run :
  fst (setup_database (snd (at_start refused_after_setup_world))) = Ok tt /\
  fst (@run_news_pipeline example_library refused_after_setup_world)
  = Ok (mkStats 0 0 1) /\
  history (snd (@run_news_pipeline example_library refused_after_setup_world))
  = setup_statements /\
  news (snd (@run_news_pipeline example_library refused_after_setup_world))
  = [eight_days_old].
Proof. repeat split; vm_compute; reflexivity. Qed.

(** C5 as stated fails: the store is reachable and the setup succeeds, no
    site answers, and the run returns after the setup statements alone;
    the row published eight days before, active in the store, is active
    still, and no deactivation was sent. *)
Lemma stale_row_survives_run_without_candidates :
  fst (setup_database (snd (at_start no_candidate_world))) = Ok tt /\
  fst (@run_news_pipeline example_library no_candidate_world) = Ok (mkStats 0 0 0) /\
  history (snd (@run_news_pipeline example_library no_candidate_world))
  = setup_statements /\
  news (snd (@run_news_pipeline example_library no_candidate_world))
  = [eight_days_old] /\
  News.is_active eight_days_old = Some true /\
  stale (cutoff_in (snd (@run_news_pipeline example_library no_candidate_world)))
    eight_days_old = true.
Proof. repeat split; vm_compute; reflexivity. Qed.

(** * Further properties *)

(** ** The categoriser: the set of results *)

Lemma map_back_result (table : list (string * string)) (best_label : string)
      (best_score : float) :
  map_back table best_label best_score = "uncategorized" \/
  In (map_back table best_label best_score) (map fst table).
Proof.
  induction table as [|[category description] rest IH]; simpl; [left; reflexivity|].
  destruct (String.eqb description best_label).
  - destruct (PrimFloat.ltb threshold best_score);
      [right; left; reflexivity | left; reflexivity].
  - destruct IH as [IH|IH]; [left | right; right]; exact IH.
Qed.

Lemma map_back_unknown (table : list (string * string)) (best_label : string)
      (best_score : float) :
  ~ In best_label (map snd table) ->
  map_back table best_label best_score = "uncategorized".
Proof.
  induction table as [|[category description] rest IH]; simpl; intros H; [reflexivity|].
  destruct (String.eqb_spec description best_label) as [Heq|_].
  - exfalso. apply H. left. exact Heq.
  - apply IH. intros Hin. apply H. right. exact Hin.
Qed.

(** Whatever the classifier does, [categorize_article] returns, its
    result is one of the ten names of [CATEGORIES], and the world is as
    it was but for one error record when the classification failed. *)
Theorem categorize_article_in_categories
        (cz : NewsCategorizer) (title content : string) (w : World) :
  exists category,
    fst (categorize_article cz title content w) = Ok category /\
    In category CATEGORIES /\
    (snd (categorize_article cz title content w) = w \/
     exists e,
       category = "uncategorized" /\
       snd (categorize_article cz title content w)
       = set_log (log w ++ [mkLog ERROR ("Error categorizing article: " ++ exn_msg e)]) w).
Proof.
  unfold categorize_article. destruct (classifier cz) as [clf|].
  - unfold try_except, of_sum.
    destruct (classify clf title content) as [e|category] eqn:Hc.
    + exists "uncategorized". split; [reflexivity|].
      split; [unfold CATEGORIES; simpl; tauto|].
      right. exists e. split; reflexivity.
    + exists category. split; [reflexivity|]. split; [|left; reflexivity].
      unfold classify, bind_sum in Hc.
      destruct (clf _ _) as [e|result]; [discriminate|].
      destruct (scores result) as [|best_score ss]; [discriminate|].
      destruct (labels result) as [|best_label ls]; [discriminate|].
      pose proof (map_back_result category_descriptions best_label best_score)
        as Hres.
      remember (map_back category_descriptions best_label best_score) as m eqn:Hm.
      injection Hc as <-. clear Hm.
      destruct Hres as [->|Hin].
      * unfold CATEGORIES. simpl. tauto.
      * unfold category_descriptions in Hin. simpl in Hin. unfold CATEGORIES. simpl.
        tauto.
  - exists "uncategorized". split; [reflexivity|].
    split; [unfold CATEGORIES; simpl; tauto | left; reflexivity].
Qed.

(** A top label that is not one of the nine descriptions gives
    ["uncategorized"], whatever its score, and nothing is logged. *)
Theorem categorize_article_unknown_label
        (clf : classifier_fn) (title content : string) (result : Classification)
        (best_label : string) (other_labels : list string)
        (best_score : float) (other_scores : list float) (w : World) :
  clf (slice_to 1000 (title ++ " " ++ content)) (map snd category_descriptions)
  = inr result ->
  labels result = best_label :: other_labels ->
  scores result = best_score :: other_scores ->
  ~ In best_label (map snd category_descriptions) ->
  categorize_article (mkCategorizer (Some clf)) title content w
  = (Ok "uncategorized", w).
Proof.
  intros Hclf Hl Hs Hnot.
  unfold categorize_article, try_except, of_sum, classify, bind_sum.
  cbv beta iota zeta delta [classifier].
  rewrite Hclf, Hs, Hl, (map_back_unknown _ _ _ Hnot). reflexivity.
Qed.

(** The label "agriculture" with a score of 0.9 gives ["uncategorized"]. *)
Lemma categorize_article_unknown_label_example :
  categorize_article
    (mkCategorizer (Some (constant_classifier "agriculture" 0x1.ccccccccccccdp-1%float)))
    "Rice blast alert" "Blast reported in Chitwan" (start_world quiet_env [])
  = (Ok "uncategorized", start_world quiet_env []).
Proof.
  apply (categorize_article_unknown_label
           (constant_classifier "agriculture" 0x1.ccccccccccccdp-1%float)
           "Rice blast alert" "Blast reported in Chitwan"
           (mkClassification ["agriculture"] [0x1.ccccccccccccdp-1%float])
           "agriculture" [] 0x1.ccccccccccccdp-1%float []);
    [reflexivity | reflexivity | reflexivity |].
  unfold category_descriptions. simpl.
  intros H. repeat (destruct H as [H|H]; [discriminate H|]). exact H.
Defined.

(** ** Upsert: insertion, frame and failure *)

Lemma accepted_url (a : Article.t) (category : string) :
  accepted_by_driver a category ->
  existsb has_nul (stmt_strings (SelectIdByUrl (Article.url a))) = false.
Proof.
  unfold accepted_by_driver. intros H. simpl. rewrite orb_false_r.
  apply not_true_is_false. intros Hu.
  assert (Hex : existsb has_nul (category :: article_strings a) = true).
  { apply existsb_exists. exists (Article.url a). split; [|exact Hu].
    right. unfold article_strings. apply in_or_app. right.
    apply in_or_app. right. right. left. reflexivity. }
  congruence.
Qed.

(** A statement that raises leaves the rows of the transaction as they
    were; and the transaction unusable, if it was so before or if the
    driver had accepted the parameters. *)
Lemma execute_raise_table {A} (stmt : Stmt) (sem : Tx -> exn + (A * list News.row))
      (w w' : World) (e : exn) :
  execute stmt sem w = (Raise e, w') ->
  table w' = table w /\
  (existsb has_nul (stmt_strings stmt) = false \/ ~ healthy w -> ~ healthy w') /\
  log w' = log w.
Proof.
  unfold execute, table, healthy. intros H.
  destruct (conn w) as [t|] eqn:Hc.
  - destruct (existsb has_nul (stmt_strings stmt)).
    + injection H as _ <-. simpl. rewrite Hc. repeat split.
      intros [Hn|Hu]; [discriminate | exact Hu].
    + destruct (db_fault (env w) (db_ops w)).
      * injection H as _ <-. simpl. repeat split. discriminate.
      * destruct (tx_failed t) eqn:Hf.
        -- injection H as _ <-. simpl. rewrite Hc, Hf. repeat split. discriminate.
        -- destruct (sem t) as [e'|[a rows]]; [|discriminate].
           injection H as _ <-. simpl. repeat split. discriminate.
  - injection H as _ <-. simpl. rewrite Hc. repeat split. intros _ [].
Qed.

(** A candidate with a new url, on a usable connection that no fault
    hits, its values free of NUL and within their columns and its
    identifier fresh: the call returns [True] and the table gains, at its
    end, one active row with the values of the candidate, stamped with
    the time of the transaction; nothing is logged. *)
Theorem upsert_article_inserts_new_url
        (a : Article.t) (category : string) (w : World) (t : Tx) :
  conn w = Some t ->
  tx_failed t = false ->
  db_fault (env w) (db_ops w) = None ->
  db_fault (env w) (S (db_ops w)) = None ->
  accepted_by_driver a category ->
  within_columns a category ->
  ~ In (Article.url a) (map News.url (tx_rows t)) ->
  ~ In (uuid4 (env w) (uuid_draws w)) (map News.id (tx_rows t)) ->
  fst (upsert_article a category w) = Ok true /\
  table (snd (upsert_article a category w))
  = (tx_rows t ++
     [News.mk (uuid4 (env w) (uuid_draws w)) (Article.title a)
        (Some (Article.content a)) (Article.image_url a) (Article.source a)
        (Some (Article.publish_date a)) (Some category) (Article.url a)
        (Some true) (Some (tx_start t)) (Some (tx_start t))])%list /\
  log (snd (upsert_article a category w)) = log w.
Proof.
  intros Hc Hf Hd1 Hd2 Hacc (Ht & Hi & Hs & Hcat & Hu) Hnew Hfresh.
  pose proof (accepted_url _ _ Hacc) as Hacc1.
  assert (Hacc2 : existsb has_nul
                    (stmt_strings (InsertNews (uuid4 (env w) (uuid_draws w)) a category))
                  = false) by exact Hacc.
  assert (Hsel : select_id_by_url (Article.url a) (tx_rows t) = None).
  { destruct (select_id_by_url (Article.url a) (tx_rows t)) eqn:E; [|reflexivity].
    exfalso. apply Hnew. apply select_id_by_url_some. rewrite E. discriminate. }
  assert (Hid : existsb (has_id (uuid4 (env w) (uuid_draws w))) (tx_rows t) = false).
  { apply not_true_is_false. intros E.
    apply Hfresh. apply existsb_exists in E. destruct E as (r & Hr & Hh).
    apply in_map_iff. exists r. split; [apply String.eqb_eq, Hh | exact Hr]. }
  assert (Hurl : existsb (has_url (Article.url a)) (tx_rows t) = false).
  { apply not_true_is_false. intros E. apply Hnew. apply has_url_in. exact E. }
  assert (Hins : insert_news (uuid4 (env w) (uuid_draws w)) a category (tx_start t)
                   (tx_rows t)
                 = inr (tx_rows t ++
                        [News.mk (uuid4 (env w) (uuid_draws w)) (Article.title a)
                           (Some (Article.content a)) (Article.image_url a)
                           (Article.source a) (Some (Article.publish_date a))
                           (Some category) (Article.url a) (Some true)
                           (Some (tx_start t)) (Some (tx_start t))])%list).
  { unfold insert_news.
    rewrite (varchar_fits _ _ Ht), (varchar_opt_fits _ _ Hi), (varchar_fits _ _ Hs),
      (varchar_fits _ _ Hcat), (varchar_fits _ _ Hu).
    simpl bind_sum. rewrite Hid, Hurl. reflexivity. }
  unfold upsert_article, try_except, upsert_article_body, new_uuid.
  unfold bind, execute.
  rewrite Hc, Hacc1, Hd1, Hf. cbv beta iota zeta. rewrite Hsel.
  cbn [conn set_conn set_history set_db_ops set_uuid_draws env db_ops tx_failed
       tx_rows tx_start uuid_draws].
  rewrite Hacc2, Hd2, Hins. simpl. repeat split.
Qed.

(** A first sighting on an empty table. *)
Lemma upsert_article_inserts_new_url_example :
  fst (upsert_article first_sighting "market_prices" (connected_world quiet_env []))
  = Ok true /\
  List.length (table (snd (upsert_article first_sighting "market_prices"
                             (connected_world quiet_env [])))) = 1%nat.
Proof.
  assert (Hfit : within_columns first_sighting "market_prices").
  { unfold within_columns. simpl. repeat split; try lia. intros i Hi. discriminate. }
  destruct (upsert_article_inserts_new_url first_sighting "market_prices"
              (connected_world quiet_env []) (mkTx [] false example_now)
              eq_refl eq_refl eq_refl eq_refl eq_refl Hfit (fun H => H) (fun H => H))
    as (Hret & Htable & _).
  split; [exact Hret|]. rewrite Htable. reflexivity.
Defined.

Lemma update_by_url_shape (a : Article.t) (category : string) (now : datetime)
      (rows rows' : list News.row) :
  update_by_url a category now rows = inr rows' ->
  exists t i s c,
    rows' = map (fun r =>
                   if has_url (Article.url a) r
                   then News.mk (News.id r) t (Some (Article.content a)) i s
                          (Some (Article.publish_date a)) (Some c) (News.url r)
                          (Some true) (News.created_at r) (Some now)
                   else r) rows.
Proof.
  unfold update_by_url, bind_sum. intros H.
  destruct (varchar 500 (Article.title a)) as [|t]; [discriminate|].
  destruct (varchar_opt 1000 (Article.image_url a)) as [|i]; [discriminate|].
  destruct (varchar 100 (Article.source a)) as [|s]; [discriminate|].
  destruct (varchar 50 category) as [|c]; [discriminate|].
  injection H as <-. exists t, i, s, c. reflexivity.
Qed.

Lemma table_set_log (l : list LogRecord) (w : World) :
  table (set_log l w) = table w.
Proof. reflexivity. Qed.

(** A call whose persistence operation raises leaves the rows as they
    were; and the transaction unusable, if it was so before or if the
    driver had accepted the candidate's values. *)
Lemma upsert_article_body_raise (a : Article.t) (category : string)
      (w w' : World) (e : exn) :
  upsert_article_body a category w = (Raise e, w') ->
  table w' = table w /\
  (accepted_by_driver a category \/ ~ healthy w -> ~ healthy w') /\
  log w' = log w.
Proof.
  unfold upsert_article_body, bind. intros H.
  destruct (execute (SelectIdByUrl (Article.url a)) _ w) as [[existing|e1] w1] eqn:E1.
  - apply execute_ok in E1. destruct E1 as (t & rows & Hc & Hf & _ & Hsem & ->).
    injection Hsem as _ <-.
    assert (Ht : table w = tx_rows t) by (unfold table; rewrite Hc; reflexivity).
    assert (Hh : healthy w) by (unfold healthy; rewrite Hc; exact Hf).
    rewrite Ht.
    destruct existing as [found|].
    + destruct (execute (UpdateByUrl a category) _ _) as [[[]|e2] w2] eqn:E2;
        [discriminate|].
      injection H as _ <-. apply execute_raise_table in E2.
      destruct E2 as (Ht2 & Hu2 & Hl2). split; [exact Ht2|]. split; [|exact Hl2].
      intros [Hacc|Hu]; [apply Hu2; left; exact Hacc | contradiction].
    + unfold new_uuid in H.
      destruct (execute (InsertNews _ a category) _ _) as [[[]|e2] w2] eqn:E2;
        [discriminate|].
      injection H as _ <-. apply execute_raise_table in E2.
      destruct E2 as (Ht2 & Hu2 & Hl2). split; [exact Ht2|]. split; [|exact Hl2].
      intros [Hacc|Hu]; [apply Hu2; left; exact Hacc | contradiction].
  - injection H as _ <-. apply execute_raise_table in E1.
    destruct E1 as (Ht1 & Hu1 & Hl1). split; [exact Ht1|]. split; [|exact Hl1].
    intros [Hacc|Hu]; apply Hu1; [left; exact (accepted_url _ _ Hacc) | right; exact Hu].
Qed.



(** ** Upsert: what an update keeps, and what a failure leaves behind *)

(** An update changes no row's [id], [url] or [created_at]; the rows with
    the candidate's url become active and take the start of the
    transaction as [updated_at]; every other row is as it was. *)
Theorem upsert_article_update_keeps_identity
        (a : Article.t) (category : string) (w w' : World) :
  upsert_article_body a category w = (Ok false, w') ->
  exists t,
    conn w = Some t /\
    Forall2 (fun r r' =>
               News.id r' = News.id r /\
               News.url r' = News.url r /\
               News.created_at r' = News.created_at r /\
               if has_url (Article.url a) r
               then News.is_active r' = Some true /\
                    News.updated_at r' = Some (tx_start t)
               else r' = r)
            (table w) (table w').
Proof.
  intros H.
  destruct (upsert_article_body_ok _ _ _ _ _ H)
    as (t & rows' & Hc & _ & Hc' & [(_ & _ & Hupd)|(Hb & _)]); [|discriminate].
  exists t. split; [exact Hc|].
  assert (Ht : table w = tx_rows t) by (unfold table; rewrite Hc; reflexivity).
  assert (Ht' : table w' = rows') by (unfold table; rewrite Hc'; reflexivity).
  rewrite Ht, Ht'.
  destruct (update_by_url_shape _ _ _ _ _ Hupd) as (x & y & z & c & ->).
  clear. generalize (tx_start t). intros now.
  induction (tx_rows t) as [|r rows IH]; simpl; constructor.
  - destruct (has_url (Article.url a) r); simpl; repeat split.
  - exact IH.
Qed.

(** The second sighting of a url whose row was retired: the row keeps
    its id and is active again. *)
Lemma upsert_article_update_keeps_identity_example :
  exists w' t,
    upsert_article_body second_sighting "crop_pests"
      (connected_world quiet_env [retired_row]) = (Ok false, w') /\
    conn (connected_world quiet_env [retired_row]) = Some t /\
    Forall2 (fun r r' =>
               News.id r' = News.id r /\
               News.url r' = News.url r /\
               News.created_at r' = News.created_at r /\
               if has_url (Article.url second_sighting) r
               then News.is_active r' = Some true /\
                    News.updated_at r' = Some (tx_start t)
               else r' = r)
            (table (connected_world quiet_env [retired_row])) (table w').
Proof.
  assert (F : fst (upsert_article_body second_sighting "crop_pests"
                     (connected_world quiet_env [retired_row])) = Ok false)
    by (vm_compute; reflexivity).
  destruct (upsert_article_body second_sighting "crop_pests"
              (connected_world quiet_env [retired_row])) as [r w1] eqn:E.
  cbn [fst] in F. subst r.
  destruct (upsert_article_update_keeps_identity _ _ _ _ E) as (t & Hc & Hall).
  exists w1, t. split; [reflexivity|]. split; [exact Hc | exact Hall].
Defined.

(** On a connection that is closed or whose transaction has failed, a
    statement raises and changes nothing. *)
Lemma execute_unhealthy {A} (stmt : Stmt) (sem : Tx -> exn + (A * list News.row))
      (w : World) :
  ~ healthy w ->
  exists e w',
    execute stmt sem w = (Raise e, w') /\
    table w' = table w /\ news w' = news w /\ log w' = log w /\ ~ healthy w'.
Proof.
  intros Hu. destruct (execute stmt sem w) as [[a|e] w'] eqn:E.
  - exfalso. apply execute_ok in E. destruct E as (t & rows & Hc & Hf & _).
    apply Hu. unfold healthy. rewrite Hc. exact Hf.
  - exists e, w'. split; [reflexivity|].
    destruct (execute_after _ _ _ _ _ E) as (c & Hw & _).
    destruct (execute_raise_table _ _ _ _ _ E) as (Ht & Hh & Hl).
    split; [exact Ht|]. split; [subst w'; reflexivity|].
    split; [exact Hl|]. apply Hh. right. exact Hu.
Qed.

Lemma upsert_article_body_unhealthy (a : Article.t) (category : string) (w : World) :
  ~ healthy w ->
  exists e w', upsert_article_body a category w = (Raise e, w').
Proof.
  intros Hu. unfold upsert_article_body, bind.
  destruct (execute_unhealthy (SelectIdByUrl (Article.url a))
              (fun t => inr (select_id_by_url (Article.url a) (tx_rows t), tx_rows t))
              w Hu) as (e & w' & -> & _).
  exists e, w'. reflexivity.
Qed.

Lemma upsert_article_of_raise (a : Article.t) (category : string)
      (w w1 : World) (e : exn) :
  upsert_article_body a category w = (Raise e, w1) ->
  upsert_article a category w
  = (Ok false, set_log (log w1 ++ [mkLog ERROR ("Error upserting article: "
                                               ++ exn_msg e)]) w1).
Proof.
  intros H. unfold upsert_article, try_except. rewrite H. reflexivity.
Qed.

(** When the persistence operation of a call raises, the call answers
    [False], logs one error and leaves the rows as they were.  If the
    driver accepted the values of the candidate (they hold no NUL), so
    that it is the store that refused, every later call on that
    connection fails in the same way, whatever its candidate: nothing
    more is stored through it. *)
Theorem upsert_article_failure_is_sticky
        (a : Article.t) (category : string) (w w1 : World) (e : exn)
        (a' : Article.t) (category' : string) :
  upsert_article_body a category w = (Raise e, w1) ->
  fst (upsert_article a category w) = Ok false /\
  table (snd (upsert_article a category w)) = table w /\
  error_count (snd (upsert_article a category w)) = S (error_count w) /\
  (accepted_by_driver a category ->
   fst (upsert_article a' category' (snd (upsert_article a category w))) = Ok false /\
   table (snd (upsert_article a' category' (snd (upsert_article a category w))))
   = table w /\
   error_count (snd (upsert_article a' category' (snd (upsert_article a category w))))
   = S (S (error_count w))).
Proof.
  intros H. rewrite (upsert_article_of_raise _ _ _ _ _ H). cbn [fst snd].
  destruct (upsert_article_body_raise _ _ _ _ _ H) as (Ht & Hu & Hl).
  assert (Hec : error_count
                  (set_log (log w1 ++ [mkLog ERROR ("Error upserting article: "
                                                    ++ exn_msg e)]) w1)
                = S (error_count w)).
  { rewrite error_count_logged. unfold error_count. rewrite Hl. reflexivity. }
  split; [reflexivity|]. split; [rewrite table_set_log; exact Ht|].
  split; [exact Hec|].
  intros Hacc. specialize (Hu (or_introl Hacc)).
  assert (Hu2 : ~ healthy (set_log (log w1 ++ [mkLog ERROR ("Error upserting article: "
                                                            ++ exn_msg e)]) w1))
    by exact Hu.
  destruct (upsert_article_body_unhealthy a' category' _ Hu2) as (e2 & w2 & H2).
  rewrite (upsert_article_of_raise _ _ _ _ _ H2). cbn [fst snd].
  destruct (upsert_article_body_raise _ _ _ _ _ H2) as (Ht2 & _ & Hl2).
  split; [reflexivity|].
  split; [rewrite table_set_log, Ht2, table_set_log; exact Ht|].
  rewrite error_count_logged. f_equal.
  unfold error_count at 1. rewrite Hl2. exact Hec.
Qed.

(** A candidate whose title is too long for its column fails, and the
    candidate that follows it, which fits, is not stored either. *)
Lemma upsert_article_failure_is_sticky_example :
  fst (upsert_article first_sighting "market_prices"
         (snd (upsert_article long_article "crop_pests"
                 (connected_world quiet_env [])))) = Ok false /\
  table (snd (upsert_article first_sighting "market_prices"
                (snd (upsert_article long_article "crop_pests"
                        (connected_world quiet_env []))))) = [].
Proof.
  assert (F : exists e, fst (upsert_article_body long_article "crop_pests"
                               (connected_world quiet_env [])) = Raise e)
    by (eexists; vm_compute; reflexivity).
  destruct F as [e F].
  destruct (upsert_article_body long_article "crop_pests"
              (connected_world quiet_env [])) as [r w1] eqn:E.
  cbn [fst] in F. subst r.
  assert (Hacc : accepted_by_driver long_article "crop_pests")
    by (vm_compute; reflexivity).
  destruct (upsert_article_failure_is_sticky long_article "crop_pests" _ _ _
              first_sighting "market_prices" E)
    as (_ & _ & _ & Hsticky).
  destruct (Hsticky Hacc) as (Hr & Ht & _).
  split; [exact Hr | exact Ht].
Defined.

(** A refusal by the driver is not sticky: a candidate with a NUL in its
    title is answered with [False] and an error in the log, and the
    candidate that follows it on the same connection is stored. *)
Lemma driver_refusal_is_not_sticky :
  ~ accepted_by_driver nul_article "crop_pests" /\
  fst (upsert_article nul_article "crop_pests" (connected_world quiet_env []))
  = Ok false /\
  error_count (snd (upsert_article nul_article "crop_pests"
                      (connected_world quiet_env []))) = 1%nat /\
  fst (upsert_article first_sighting "market_prices"
         (snd (upsert_article nul_article "crop_pests"
                 (connected_world quiet_env [])))) = Ok true /\
  map News.url
    (table (snd (upsert_article first_sighting "market_prices"
                   (snd (upsert_article nul_article "crop_pests"
                           (connected_world quiet_env []))))))
  = ["https://krishidaily.com/rice"].
Proof.
  split; [intros H; vm_compute in H; discriminate|].
  repeat split; vm_compute; reflexivity.
Qed.

(** ** Deactivation: what it keeps *)

Lemma execute_news {A} (stmt : Stmt) (sem : Tx -> exn + (A * list News.row))
      (w w' : World) (r : Result A) :
  execute stmt sem w = (r, w') -> news w' = news w.
Proof.
  intros H. apply execute_after in H. destruct H as (c & -> & _). reflexivity.
Qed.

(** [deactivate_old_articles] always returns.  It deletes and adds no
    row and keeps every row's id, url, title, category and publish date;
    it activates nothing: a row that is active afterwards is a row it did
    not touch.  When it logs an error, the rows are as they were. *)
Theorem deactivate_old_articles_keeps_rows (w : World) :
  fst (deactivate_old_articles w) = Ok tt /\
  Forall2 (fun r r' =>
             News.id r' = News.id r /\
             News.url r' = News.url r /\
             News.title r' = News.title r /\
             News.category r' = News.category r /\
             News.publish_date r' = News.publish_date r /\
             (active r' = true -> r' = r))
          (table w) (table (snd (deactivate_old_articles w))) /\
  news (snd (deactivate_old_articles w)) = news w /\
  (error_count (snd (deactivate_old_articles w)) <> error_count w ->
   table (snd (deactivate_old_articles w)) = table w /\
   error_count (snd (deactivate_old_articles w)) = S (error_count w)).
Proof.
  assert (Hsame : forall rows : list News.row,
             Forall2 (fun r r' =>
                        News.id r' = News.id r /\
                        News.url r' = News.url r /\
                        News.title r' = News.title r /\
                        News.category r' = News.category r /\
                        News.publish_date r' = News.publish_date r /\
                        (active r' = true -> r' = r)) rows rows).
  { induction rows; constructor; [repeat split | assumption]. }
  unfold deactivate_old_articles, try_except, bind at 1.
  unfold deactivate_old_articles_body, bind, datetime_now.
  fold (cutoff_in w).
  destruct (execute (DeactivateOlderThan (cutoff_in w)) _ _) as [[n|e] w1] eqn:E.
  - apply execute_ok in E. destruct E as (t & rows & Hc & _ & _ & Hsem & ->).
    unfold deactivate_older_than in Hsem. injection Hsem as _ <-.
    simpl in Hc. cbn [fst snd ret].
    split; [reflexivity|]. split; [|split; [reflexivity|]].
    + unfold table at 1 2. simpl. rewrite Hc. clear.
      induction (tx_rows t) as [|r rows IH]; simpl; constructor; [|exact IH].
      destruct (stale (cutoff_in w) r); [|repeat split].
      repeat split. unfold active, deactivate. simpl. discriminate.
    + unfold error_count. simpl. intros H. contradiction H. reflexivity.
  - pose proof (execute_news _ _ _ _ _ E) as Hn.
    apply execute_raise_table in E. destruct E as (Ht & _ & Hl).
    unfold logger_error. cbn [fst snd].
    assert (Ht' : table w1 = table w) by exact Ht.
    split; [reflexivity|]. split; [|split].
    + rewrite table_set_log, Ht'. apply Hsame.
    + exact Hn.
    + intros _. split; [rewrite table_set_log; exact Ht'|].
      rewrite error_count_logged. unfold error_count. rewrite Hl. reflexivity.
Qed.

(** ** The loop over the candidates: what the statistics count *)

Lemma insert_news_shape (i : string) (a : Article.t) (category : string)
      (now : datetime) (rows rows' : list News.row) :
  insert_news i a category now rows = inr rows' ->
  exists r, rows' = (rows ++ [r])%list.
Proof.
  unfold insert_news, bind_sum. intros H.
  destruct (varchar 500 (Article.title a)); [discriminate|].
  destruct (varchar_opt 1000 (Article.image_url a)); [discriminate|].
  destruct (varchar 100 (Article.source a)); [discriminate|].
  destruct (varchar 50 category); [discriminate|].
  destruct (varchar 1000 (Article.url a)); [discriminate|].
  destruct (existsb (has_id i) rows); [discriminate|].
  destruct (existsb _ rows); [discriminate|].
  injection H as <-. eexists. reflexivity.
Qed.

(** One call of [upsert_article]: it answers [True] exactly when it added
    a row, and on a failed transaction it answers [False] and changes no
    row. *)
Lemma upsert_article_rows (a : Article.t) (category : string) (w : World) :
  exists b w',
    upsert_article a category w = (Ok b, w') /\
    List.length (table w') = (List.length (table w) + if b then 1 else 0)%nat /\
    news w' = news w /\
    (~ healthy w -> b = false /\ table w' = table w /\ ~ healthy w').
Proof.
  destruct (upsert_article_body a category w) as [[b|e] w1] eqn:E.
  - exists b, w1. split; [unfold upsert_article, try_except; rewrite E; reflexivity|].
    assert (Hn : news w1 = news w).
    { assert (Hu : upsert_article a category w = (Ok b, w1))
        by (unfold upsert_article, try_except; rewrite E; reflexivity).
      destruct (upsert_article_frame _ _ _ _ _ Hu) as (_ & (sent & Hx & _) & _).
      exact (ext_news _ _ _ Hx). }
    destruct (upsert_article_body_ok _ _ _ _ _ E)
      as (t & rows' & Hc & Hf & Hc' & Hcase).
    assert (Ht : table w = tx_rows t) by (unfold table; rewrite Hc; reflexivity).
    assert (Ht' : table w1 = rows') by (unfold table; rewrite Hc'; reflexivity).
    rewrite Ht, Ht'. split; [|split; [exact Hn|]].
    + destruct Hcase as [(-> & _ & Hupd)|(-> & _ & i & Hins)].
      * destruct (update_by_url_shape _ _ _ _ _ Hupd) as (x & y & z & c & ->).
        rewrite length_map. lia.
      * destruct (insert_news_shape _ _ _ _ _ _ Hins) as (r & ->).
        rewrite length_app. reflexivity.
    + intros Hu. contradiction Hu. unfold healthy. rewrite Hc. exact Hf.
  - rewrite (upsert_article_of_raise _ _ _ _ _ E).
    destruct (upsert_article_body_raise _ _ _ _ _ E) as (Ht & Hu & _).
    exists false. eexists. split; [reflexivity|].
    rewrite table_set_log, Ht. split; [lia|]. split.
    + assert (Hup : upsert_article a category w
                    = (Ok false, set_log (log w1 ++ [mkLog ERROR ("Error upserting article: "
                                                                 ++ exn_msg e)]) w1))
        by exact (upsert_article_of_raise _ _ _ _ _ E).
      destruct (upsert_article_frame _ _ _ _ _ Hup) as (_ & (sent & Hx & _) & _).
      exact (ext_news _ _ _ Hx).
    + intros Hw. split; [reflexivity|]. split; [reflexivity|].
      exact (Hu (or_intror Hw)).
Qed.

(** One turn of the loop. *)
Lemma process_article_rows (cz : NewsCategorizer) (a : Article.t)
      (stats : Stats) (w : World) :
  exists b w',
    process_article cz a (stats, w)
    = (Ok tt, (if b : bool then incr_new stats else incr_updated stats, w')) /\
    List.length (table w') = (List.length (table w) + if b then 1 else 0)%nat /\
    news w' = news w /\
    (~ healthy w -> b = false /\ table w' = table w /\ ~ healthy w').
Proof.
  unfold process_article, try_except.
  destruct (categorize_article cz (Article.title a) (Article.content a) w)
    as [rc w1] eqn:Ec.
  destruct (categorize_article_frame _ _ _ _ _ _ Ec) as ((category & ->) & Hx & _ & Hconn).
  rewrite (bind_lift_ok _ _ _ _ _ _ Ec).
  destruct (upsert_article_rows a category w1) as (b & w2 & Hu & Hlen & Hn & Hbad).
  rewrite (bind_lift_ok _ _ _ _ _ _ Hu).
  assert (Ht : table w1 = table w)
    by (unfold table; rewrite Hconn, (ext_news _ _ _ Hx); reflexivity).
  assert (Hh : healthy w1 <-> healthy w) by (unfold healthy; rewrite Hconn; tauto).
  exists b, w2. split; [destruct b; reflexivity|].
  rewrite <- Ht. split; [exact Hlen|]. split.
  - rewrite Hn. exact (ext_news _ _ _ Hx).
  - intros Hw. apply Hbad. tauto.
Qed.

(** The loop over any list of candidates, from any statistics. *)
Lemma for_each_process_rows (cz : NewsCategorizer) (articles : list Article.t) :
  forall (stats : Stats) (w : World),
  exists stats' w',
    for_each articles (process_article cz) (stats, w) = (Ok tt, (stats', w')) /\
    errors stats' = errors stats /\
    (new_articles stats' + updated_articles stats'
     = new_articles stats + updated_articles stats + List.length articles)%nat /\
    (List.length (table w') + new_articles stats
     = List.length (table w) + new_articles stats')%nat /\
    news w' = news w.
Proof.
  induction articles as [|a rest IH]; intros stats w.
  - exists stats, w. simpl. repeat split; lia.
  - destruct (process_article_rows cz a stats w) as (b & w1 & Hp & Hlen & Hn & _).
    destruct (IH (if b then incr_new stats else incr_updated stats) w1)
      as (stats' & w' & Hrest & He & Hcount & Hrows & Hn').
    exists stats', w'. split; [simpl; unfold bind at 1; rewrite Hp; exact Hrest|].
    destruct b; simpl in *; repeat split; try lia; congruence.
Qed.

(** The loop over the candidates, as a run starts it with its three
    statistics at zero, never raises and never counts an error: every
    candidate is counted once, as new or as updated; the count of new
    articles is exactly the number of rows that the loop added to the
    table; and nothing is committed by the loop. *)
Theorem for_each_process_accounting
        (cz : NewsCategorizer) (articles : list Article.t) (w : World) :
  exists stats w',
    for_each articles (process_article cz) (mkStats 0 0 0, w) = (Ok tt, (stats, w')) /\
    errors stats = 0%nat /\
    (new_articles stats + updated_articles stats = List.length articles)%nat /\
    List.length (table w') = (List.length (table w) + new_articles stats)%nat /\
    news w' = news w.
Proof.
  destruct (for_each_process_rows cz articles (mkStats 0 0 0) w)
    as (stats & w' & Hrun & Herr & Hcount & Hrows & Hnews).
  simpl in Herr, Hcount, Hrows.
  exists stats, w'. split; [exact Hrun|]. split; [exact Herr|].
  split; [lia|]. split; [lia | exact Hnews].
Qed.

(** Once the transaction has failed, the loop stores nothing more: every
    candidate that is left is counted as updated, none as new, and the
    rows stay as they are. *)
Theorem for_each_on_failed_transaction
        (cz : NewsCategorizer) (articles : list Article.t) :
  forall (stats : Stats) (w : World),
  ~ healthy w ->
  exists w',
    for_each articles (process_article cz) (stats, w)
    = (Ok tt, (mkStats (new_articles stats)
                 (updated_articles stats + List.length articles) (errors stats), w')) /\
    table w' = table w /\ news w' = news w /\ ~ healthy w'.
Proof.
  induction articles as [|a rest IH]; intros stats w Hu.
  - exists w. simpl. rewrite Nat.add_0_r. destruct stats. repeat split. exact Hu.
  - destruct (process_article_rows cz a stats w) as (b & w1 & Hp & _ & Hn & Hbad).
    destruct (Hbad Hu) as (-> & Ht & Hu1).
    destruct (IH (incr_updated stats) w1 Hu1) as (w' & Hrest & Ht' & Hn' & Hu').
    exists w'. split.
    + simpl for_each. unfold bind at 1. rewrite Hp, Hrest. simpl.
      repeat f_equal. lia.
    + repeat split; try congruence.
Qed.

(** Two candidates that fit their columns, on a connection whose
    transaction has failed: both are counted as updated and no row is
    stored. *)
Lemma for_each_on_failed_transaction_example :
  exists w',
    for_each [first_sighting; example_article "Wheat" "https://krishidaily.com/wheat"]
      (process_article
         (mkCategorizer (Some (constant_classifier crop_pests_description
                                 0x1.ccccccccccccdp-1%float))))
      (mkStats 0 0 0,
       snd (upsert_article long_article "crop_pests" (connected_world quiet_env [])))
    = (Ok tt, (mkStats 0 2 0, w')) /\
    table w' = [].
Proof.
  assert (Hu : ~ healthy (snd (upsert_article long_article "crop_pests"
                                 (connected_world quiet_env []))))
    by (vm_compute; discriminate).
  destruct (for_each_on_failed_transaction
              (mkCategorizer (Some (constant_classifier crop_pests_description
                                      0x1.ccccccccccccdp-1%float)))
              [first_sighting; example_article "Wheat" "https://krishidaily.com/wheat"]
              (mkStats 0 0 0) _ Hu) as (w' & Hrun & Ht & _).
  exists w'. split; [exact Hrun | exact Ht].
Defined.

(** ** The scrapers *)

Lemma store_untouched_refl (w : World) : store_untouched w w.
Proof. repeat split. Qed.

Lemma store_untouched_trans (w1 w2 w3 : World) :
  store_untouched w1 w2 -> store_untouched w2 w3 -> store_untouched w1 w3.
Proof.
  unfold store_untouched.
  intros (A1 & A2 & A3 & A4 & A5 & A6) (B1 & B2 & B3 & B4 & B5 & B6).
  repeat split; congruence.
Qed.

(** A loop over containers whose every turn returns and appends at most
    one candidate appends at most as many candidates as there are
    containers. *)
Lemma for_each_items (P : Article.t -> Prop)
      (body : Node -> M (list Article.t * World) unit) :
  (forall item articles w,
      exists articles' w',
        body item (articles, w) = (Ok tt, (articles', w')) /\
        (articles' = articles \/
         exists a, articles' = (articles ++ [a])%list /\ P a) /\
        store_untouched w w') ->
  forall items articles w,
  exists added w',
    for_each items body (articles, w) = (Ok tt, ((articles ++ added)%list, w')) /\
    (List.length added <= List.length items)%nat /\
    Forall P added /\ store_untouched w w'.
Proof.
  intros Hbody. induction items as [|item rest IH]; intros articles w.
  - exists [], w. simpl. rewrite app_nil_r.
    split; [reflexivity|]. split; [lia|].
    split; [constructor | apply store_untouched_refl].
  - destruct (Hbody item articles w) as (arts1 & w1 & Hrun & Hcase & Hs1).
    destruct (IH arts1 w1) as (added & w' & Hrest & Hlen & Hall & Hs2).
    destruct Hcase as [->|(a & -> & Ha)].
    + exists added, w'. split; [simpl; unfold bind at 1; rewrite Hrun; exact Hrest|].
      split; [simpl; lia|]. split; [exact Hall|].
      eapply store_untouched_trans; eassumption.
    + exists (a :: added), w'. split.
      * simpl. unfold bind at 1. rewrite Hrun, Hrest, <- app_assoc. reflexivity.
      * split; [simpl; lia|]. split; [constructor; assumption|].
        eapply store_untouched_trans; eassumption.
Qed.

Section ScraperFacts.
Context {lib : Library}.

(** One container of the NARC page gives at most one candidate; a
    failure inside is logged as a warning and gives none. *)
Lemma narc_item_step (base_url : string) (item : Node)
      (articles : list Article.t) (w : World) :
  exists articles' w',
    try_except (narc_item base_url item)
      (fun e => lift (logger_warning ("Error parsing article: " ++ exn_msg e)))
      (articles, w) = (Ok tt, (articles', w')) /\
    (articles' = articles \/
     exists a, articles' = (articles ++ [a])%list /\
               candidate_of "Nepal Agricultural Research Council" a) /\
    store_untouched w w'.
Proof.
  unfold try_except, narc_item, bind at 1.
  destruct (joined_attr base_url (find_first (ByTag "a") item) "href")
    as [e|[url|]]; cbn [of_sum raise ret].
  - eexists. eexists. split; [reflexivity|].
    split; [left; reflexivity | repeat split].
  - destruct (truthy url) eqn:Hurl; cbn [negb].
    + unfold bind at 1.
      destruct (joined_attr base_url (find_first (ByTag "img") item) "src")
        as [e|image_url]; cbn [of_sum raise ret].
      * eexists. eexists. split; [reflexivity|].
        split; [left; reflexivity | repeat split].
      * destruct (match or_else (find_first (ByTag "time") item)
                          (find_first (ByTagClass "span" "date") item) with
                  | Some date_elem => extract_date_from_text (get_text date_elem)
                  | None => None
                  end) as [d|];
          (eexists; eexists; split; [reflexivity|];
           split; [right; eexists; split; [reflexivity | split; [exact Hurl | reflexivity]]
                  | repeat split]).
    + eexists. eexists. split; [reflexivity|].
      split; [left; reflexivity | repeat split].
  - eexists. eexists. split; [reflexivity|].
    split; [left; reflexivity | repeat split].
Qed.

Lemma generic_item_step (site_config : SiteConfig) (item : Node)
      (articles : list Article.t) (w : World) :
  exists articles' w',
    try_except (generic_item site_config item)
      (fun e => lift (logger_warning
                        ("Error parsing article from " ++ site_name site_config
                         ++ ": " ++ exn_msg e)))
      (articles, w) = (Ok tt, (articles', w')) /\
    (articles' = articles \/
     exists a, articles' = (articles ++ [a])%list /\
               candidate_of (site_name site_config) a) /\
    store_untouched w w'.
Proof.
  unfold try_except, generic_item, bind at 1.
  destruct (joined_attr (site_url site_config) (find_first (ByTag "a") item) "href")
    as [e|[url|]]; cbn [of_sum raise ret].
  - eexists. eexists. split; [reflexivity|].
    split; [left; reflexivity | repeat split].
  - destruct (truthy url) eqn:Hurl; cbn [negb].
    + unfold bind at 1.
      destruct (joined_attr (site_url site_config) (find_first (ByTag "img") item) "src")
        as [e|image_url]; cbn [of_sum raise ret].
      * eexists. eexists. split; [reflexivity|].
        split; [left; reflexivity | repeat split].
      * eexists. eexists. split; [reflexivity|].
        split; [right; eexists; split; [reflexivity | split; [exact Hurl | reflexivity]]
               | repeat split].
    + eexists. eexists. split; [reflexivity|].
      split; [left; reflexivity | repeat split].
  - eexists. eexists. split; [reflexivity|].
    split; [left; reflexivity | repeat split].
Qed.

Lemma scrape_narc_news_run (base_url : string) (w : World) :
  exists articles w',
    scrape_narc_news base_url w = (Ok articles, w') /\
    (List.length articles <= 10)%nat /\
    Forall (candidate_of "Nepal Agricultural Research Council") articles /\
    store_untouched w w'.
Proof.
  unfold scrape_narc_news, with_local, bind at 1, try_except at 1, bind at 1,
    lift at 1, fetch_soup.
  cbn [fst snd].
  destruct (web (env w) base_url) as [e|soup].
  - eexists. eexists. split; [reflexivity|].
    split; [simpl; lia|]. split; [constructor | repeat split].
  - set (news_items := first_nonempty _).
    destruct (for_each_items (candidate_of "Nepal Agricultural Research Council")
                (fun item =>
                   try_except (narc_item base_url item)
                     (fun e => lift (logger_warning ("Error parsing article: "
                                                     ++ exn_msg e))))
                (narc_item_step base_url) (firstn 10 news_items) [] w)
      as (added & w' & Hrun & Hlen & Hall & Hs).
    rewrite Hrun. exists added, w'. split; [reflexivity|].
    split; [rewrite length_firstn in Hlen; lia|]. split; assumption.
Qed.

Lemma scrape_generic_news_run (site_config : SiteConfig) (w : World) :
  exists articles w',
    scrape_generic_news site_config w = (Ok articles, w') /\
    (List.length articles <= 10)%nat /\
    Forall (candidate_of (site_name site_config)) articles /\
    store_untouched w w'.
Proof.
  unfold scrape_generic_news, with_local, bind at 1, try_except at 1, bind at 1,
    lift at 1, fetch_soup.
  cbn [fst snd].
  destruct (web (env w) (site_url site_config)) as [e|soup].
  - eexists. eexists. split; [reflexivity|].
    split; [simpl; lia|]. split; [constructor | repeat split].
  - set (news_items := first_nonempty _).
    destruct (for_each_items (candidate_of (site_name site_config))
                (fun item =>
                   try_except (generic_item site_config item)
                     (fun e => lift (logger_warning
                                       ("Error parsing article from "
                                        ++ site_name site_config ++ ": " ++ exn_msg e))))
                (generic_item_step site_config) (firstn 10 news_items) [] w)
      as (added & w' & Hrun & Hlen & Hall & Hs).
    rewrite Hrun. exists added, w'. split; [reflexivity|].
    split; [rewrite length_firstn in Hlen; lia|]. split; assumption.
Qed.


(** The loop of [scrape_all_sites] over any list of sites. *)
Lemma for_each_sites (sites : list SiteConfig) :
  forall (all_articles : list Article.t) (w : World),
  exists added w',
    for_each sites (fun site_config =>
       articles <- lift
         (if String.eqb (site_name site_config) "Nepal Agricultural Research Council"
          then scrape_narc_news (site_url site_config)
          else scrape_generic_news site_config) ;;
       modify_local (fun all_articles => all_articles ++ articles)%list)
      (all_articles, w)
    = (Ok tt, ((all_articles ++ added)%list, w')) /\
    (List.length added <= 10 * List.length sites)%nat /\
    Forall (fun a => truthy (Article.url a) = true /\
                     In (Article.source a) (map site_name sites)) added /\
    store_untouched w w'.
Proof.
  induction sites as [|site rest IH]; intros all_articles w.
  - exists [], w. simpl. rewrite app_nil_r.
    split; [reflexivity|]. split; [lia|].
    split; [constructor | apply store_untouched_refl].
  - assert (Hsite : exists articles w1,
               (if String.eqb (site_name site) "Nepal Agricultural Research Council"
                then scrape_narc_news (site_url site)
                else scrape_generic_news site) w = (Ok articles, w1) /\
               (List.length articles <= 10)%nat /\
               Forall (candidate_of (site_name site)) articles /\
               store_untouched w w1).
    { destruct (String.eqb_spec (site_name site) "Nepal Agricultural Research Council")
        as [->|_]; [apply scrape_narc_news_run | apply scrape_generic_news_run]. }
    destruct Hsite as (articles & w1 & Hrun & Hlen & Hall & Hs1).
    destruct (IH (all_articles ++ articles)%list w1) as (added & w' & Hrest & Hlen' & Hall' & Hs2).
    exists (articles ++ added)%list, w'. split.
    + simpl for_each. unfold bind at 1. rewrite (bind_lift_ok _ _ _ _ _ _ Hrun).
      unfold modify_local at 1. cbn [fst snd]. rewrite Hrest, app_assoc. reflexivity.
    + split; [rewrite length_app; simpl List.length; lia|]. split.
      * apply Forall_app. split.
        -- eapply Forall_impl; [|exact Hall]. intros a [Hu Hsrc].
           split; [exact Hu | left; symmetry; exact Hsrc].
        -- eapply Forall_impl; [|exact Hall']. intros a [Hu Hsrc].
           split; [exact Hu | right; exact Hsrc].
      * eapply store_untouched_trans; eassumption.
Qed.

(** Scraping leaves the store alone. *)
Lemma scrape_all_sites_untouched (w w' : World) (r : Result (list Article.t)) :
  scrape_all_sites w = (r, w') -> store_untouched w w'.
Proof.
  destruct (for_each_sites TARGET_URLS [] w) as (added & w1 & Hrun & _ & _ & Hs).
  unfold scrape_all_sites, with_local, bind at 1. rewrite Hrun.
  intros H. injection H as _ <-. exact Hs.
Qed.

(** [scrape_all_sites] always returns: at most forty candidates, every
    one with a url that is not empty and one of the four configured sites
    as source; and it does not use the store. *)
Theorem scrape_all_sites_candidates (w : World) :
  exists articles w',
    scrape_all_sites w = (Ok articles, w') /\
    (List.length articles <= 40)%nat /\
    Forall (fun a => truthy (Article.url a) = true /\
                     In (Article.source a) (map site_name TARGET_URLS)) articles /\
    store_untouched w w'.
Proof.
  destruct (for_each_sites TARGET_URLS [] w) as (added & w' & Hrun & Hlen & Hall & Hs).
  exists added, w'. split.
  - unfold scrape_all_sites, with_local, bind at 1. rewrite Hrun. reflexivity.
  - split; [exact Hlen|]. split; assumption.
Qed.
End ScraperFacts.

(** ** Setting up the store *)

(** [setup_database] changes no row of table [news].  When it returns
    it has sent its three statements and closed its connection, and has
    logged nothing; when it raises, it has logged the failure once, as
    an error with the text of the exception that it raises. *)
Theorem setup_database_outcome (w : World) :
  news (snd (setup_database w)) = news w /\
  match fst (setup_database w) with
  | Ok _ =>
      conn (snd (setup_database w)) = None /\
      history (snd (setup_database w)) = (history w ++ setup_statements)%list /\
      log (snd (setup_database w)) = log w
  | Raise e =>
      log (snd (setup_database w))
      = (log w ++ [mkLog ERROR ("Database setup failed: " ++ exn_msg e)])%list
  end.
Proof.
  unfold setup_database, try_except, bind, psycopg2_connect, execute, conn_commit,
    conn_close, no_change, logger_error, raise.
  destruct (db_fault (env w) (db_ops w)); cbn; [split; reflexivity|].
  destruct (db_fault (env w) (S (db_ops w))); cbn; [split; reflexivity|].
  destruct (db_fault (env w) (S (S (db_ops w)))); cbn; [split; reflexivity|].
  destruct (db_fault (env w) (S (S (S (db_ops w))))); cbn; [split; reflexivity|].
  destruct (db_fault (env w) (S (S (S (S (db_ops w)))))); cbn; [split; reflexivity|].
  split; [reflexivity|]. split; [reflexivity|]. split; [|reflexivity].
  unfold setup_statements. rewrite <- !app_assoc. reflexivity.
Qed.

Lemma setup_database_ok (w w1 : World) :
  setup_database w = (Ok tt, w1) ->
  news w1 = news w /\ conn w1 = None /\
  history w1 = (history w ++ setup_statements)%list /\ log w1 = log w /\
  env w1 = env w.
Proof.
  unfold setup_database, try_except, bind, psycopg2_connect, execute, conn_commit,
    conn_close, no_change, logger_error, raise.
  destruct (db_fault (env w) (db_ops w)); cbn; [discriminate|].
  destruct (db_fault (env w) (S (db_ops w))); cbn; [discriminate|].
  destruct (db_fault (env w) (S (S (db_ops w)))); cbn; [discriminate|].
  destruct (db_fault (env w) (S (S (S (db_ops w))))); cbn; [discriminate|].
  destruct (db_fault (env w) (S (S (S (S (db_ops w)))))); cbn; [discriminate|].
  intros H. injection H as <-. cbn.
  unfold setup_statements. rewrite <- !app_assoc. repeat split.
Qed.

Lemma NewsCategorizer_init_untouched (w w' : World) (r : Result NewsCategorizer) :
  NewsCategorizer_init w = (r, w') -> store_untouched w w'.
Proof.
  unfold NewsCategorizer_init.
  destruct (model (env w)); intros H; injection H as _ <-; repeat split.
Qed.

(** ** Runs that store nothing *)

Section RunOutcomes.
Context {lib : Library}.

(** A run whose scrape gives no candidate stops there: it returns with
    all three statistics at zero after logging a warning; the only
    statements it has sent are those of the setup, no connection is left
    open and the table is as it was. *)
Theorem run_without_candidates
        (w w1 w2 w3 : World) (cz : NewsCategorizer) :
  setup_database (snd (at_start w)) = (Ok tt, w1) ->
  NewsCategorizer_init w1 = (Ok cz, w2) ->
  scrape_all_sites w2 = (Ok [], w3) ->
  run_news_pipeline w
  = (Ok (mkStats 0 0 0),
     set_log (log w3 ++ [mkLog WARNING "No articles found!"]) w3) /\
  news w3 = news w /\
  history w3 = (history w ++ setup_statements)%list /\
  conn w3 = None.
Proof.
  intros H1 H2 H3. split.
  - rewrite run_news_pipeline_unfold. unfold at_start in *. simpl snd in H1.
    rewrite (run_news_pipeline_body_after_scrape _ _ _ _ _ _ _ H1 H2 H3).
    reflexivity.
  - destruct (setup_database_ok _ _ H1) as (Hn1 & Hc1 & Hh1 & _).
    destruct (NewsCategorizer_init_untouched _ _ _ H2) as (_ & Hn2 & Hc2 & Hh2 & _).
    destruct (scrape_all_sites_untouched _ _ _ H3) as (_ & Hn3 & Hc3 & Hh3 & _).
    simpl in Hn1, Hh1.
    split; [congruence|]. split; congruence.
Qed.

Lemma news_unchanged_when_unhealthy_deactivate (w : World) :
  ~ healthy w ->
  exists w', deactivate_old_articles w = (Ok tt, w') /\
             news w' = news w /\ ~ healthy w'.
Proof.
  intros Hu. unfold deactivate_old_articles, try_except, bind at 1.
  unfold deactivate_old_articles_body, bind, datetime_now.
  assert (Hu1 : ~ healthy (set_clock_reads (S (clock_reads w)) w)) by exact Hu.
  destruct (execute_unhealthy
              (DeactivateOlderThan
                 (clock (env w) (clock_reads w) - timedelta_days retention_days))
              (fun t => inr (deactivate_older_than
                               (clock (env w) (clock_reads w)
                                - timedelta_days retention_days)
                               (tx_start t) (tx_rows t)))
              _ Hu1) as (e & w1 & -> & _ & Hn & _ & Hu').
  unfold logger_error. eexists. split; [reflexivity|]. split; [exact Hn | exact Hu'].
Qed.

Lemma news_unchanged_when_unhealthy_summary (w : World) :
  ~ healthy w ->
  exists w', get_summary_stats w = (Ok None, w') /\
             news w' = news w /\ ~ healthy w'.
Proof.
  intros Hu. unfold get_summary_stats, try_except, bind at 1.
  unfold get_summary_stats_body, bind at 1, query at 1.
  destruct (execute_unhealthy SelectCategoryCounts
              (fun t => inr (category_counts (tx_rows t), tx_rows t)) w Hu)
    as (e & w1 & -> & _ & Hn & _ & Hu').
  unfold logger_error, bind, ret. eexists. split; [reflexivity|].
  split; [exact Hn | exact Hu'].
Qed.

Lemma conn_commit_unhealthy (w w' : World) (r : Result unit) :
  ~ healthy w -> conn_commit w = (r, w') -> news w' = news w.
Proof.
  unfold healthy, conn_commit. intros Hu H.
  destruct (conn w) as [t|].
  - destruct (db_fault (env w) (db_ops w)).
    + injection H as _ <-. reflexivity.
    + destruct (tx_failed t); [|contradiction Hu; reflexivity].
      injection H as _ <-. reflexivity.
  - injection H as _ <-. reflexivity.
Qed.

(** A run commits all of its changes or none: when the loop over the
    candidates leaves the transaction failed, the run returns with the
    table as it was before the run, whatever the loop had stored before
    the failure. *)
Theorem run_with_failed_transaction_stores_nothing
        (w w1 w2 w3 w4 w5 : World) (cz : NewsCategorizer)
        (articles : list Article.t) (st5 : Stats) :
  setup_database (snd (at_start w)) = (Ok tt, w1) ->
  NewsCategorizer_init w1 = (Ok cz, w2) ->
  scrape_all_sites w2 = (Ok articles, w3) ->
  articles <> [] ->
  psycopg2_connect w3 = (Ok tt, w4) ->
  for_each articles (process_article cz) (mkStats 0 0 0, w4) = (Ok tt, (st5, w5)) ->
  ~ healthy w5 ->
  exists stats w',
    run_news_pipeline w = (Ok stats, w') /\
    news w' = news w /\
    new_articles stats = new_articles st5 /\
    updated_articles stats = updated_articles st5.
Proof.
  intros H1 H2 H3 Hne Hc Hloop Hu5.
  rewrite run_news_pipeline_unfold.
  unfold at_start in *. simpl snd in H1.
  rewrite (run_news_pipeline_body_after_scrape _ _ _ _ _ _ _ H1 H2 H3).
  destruct articles as [|a rest]; [contradiction|].
  rewrite (bind_lift_ok _ _ _ _ _ _ Hc).
  unfold bind at 1. rewrite Hloop.
  destruct (setup_database_ok _ _ H1) as (Hn1 & _).
  destruct (NewsCategorizer_init_untouched _ _ _ H2) as (_ & Hn2 & _).
  destruct (scrape_all_sites_untouched _ _ _ H3) as (_ & Hn3 & _).
  assert (Hn4 : news w4 = news w3).
  { unfold psycopg2_connect in Hc.
    destruct (db_fault (env w3) (db_ops w3)); [discriminate|].
    injection Hc as <-. reflexivity. }
  destruct (for_each_process_frame cz (a :: rest) (mkStats 0 0 0) w4)
    as (st & wl & Hloop' & (ups & Hx5 & _) & _).
  rewrite Hloop in Hloop'. injection Hloop' as <- <-.
  pose proof (ext_news _ _ _ Hx5) as Hn5.
  destruct (news_unchanged_when_unhealthy_deactivate w5 Hu5) as (w6 & Hd & Hn6 & Hu6).
  rewrite (bind_lift_ok _ _ _ _ _ _ Hd).
  destruct (news_unchanged_when_unhealthy_summary w6 Hu6) as (w7 & Hs & Hn7 & Hu7).
  rewrite (bind_lift_ok _ _ _ _ _ _ Hs).
  simpl in Hn1.
  assert (Hn : news w7 = news w) by congruence.
  destruct (conn_commit w7) as [[[]|e] w8] eqn:Ec;
    pose proof (conn_commit_unhealthy _ _ _ Hu7 Ec) as Hn8.
  - rewrite (bind_lift_ok _ _ _ _ _ _ Ec).
    rewrite (bind_lift_ok _ _ _ _ _ _ (eq_refl : conn_close w8 = (Ok tt, _))).
    rewrite (bind_lift_ok _ _ _ _ _ _ (eq_refl : datetime_now _ = (Ok _, _))).
    unfold ret. eexists. eexists. split; [reflexivity|].
    split; [simpl; congruence|]. split; reflexivity.
  - rewrite (bind_lift_raise _ _ _ _ _ _ Ec).
    eexists. eexists. split; [reflexivity|].
    split; [simpl; congruence|]. split; reflexivity.
Qed.
End RunOutcomes.

(** No site answers: the run stops after the setup with nothing counted. *)
Lemma run_without_candidates_example :
  fst (@run_news_pipeline example_library no_candidate_world) = Ok (mkStats 0 0 0) /\
  news (snd (@run_news_pipeline example_library no_candidate_world)) = [eight_days_old].
Proof.
  assert (F1 : fst (setup_database (snd (at_start no_candidate_world))) = Ok tt)
    by (vm_compute; reflexivity).
  assert (F2 : exists cz,
             fst (NewsCategorizer_init
                    (snd (setup_database (snd (at_start no_candidate_world)))))
             = Ok cz) by (eexists; vm_compute; reflexivity).
  assert (F3 : fst (@scrape_all_sites example_library
                      (snd (NewsCategorizer_init
                              (snd (setup_database (snd (at_start no_candidate_world)))))))
               = Ok []) by (vm_compute; reflexivity).
  destruct (setup_database (snd (at_start no_candidate_world))) as [r1 w1] eqn:H1.
  cbn [fst snd] in F1, F2, F3. subst r1.
  destruct F2 as [cz F2].
  destruct (NewsCategorizer_init w1) as [r2 w2] eqn:H2.
  cbn [fst snd] in F2, F3. subst r2.
  destruct (@scrape_all_sites example_library w2) as [r3 w3] eqn:H3.
  cbn [fst snd] in F3. subst r3.
  destruct (@run_without_candidates example_library no_candidate_world w1 w2 w3 cz
              H1 H2 H3) as (Hrun & Hn & _).
  rewrite Hrun. cbn [fst snd]. split; [reflexivity|].
  exact Hn.
Defined.

(** Two candidates, of which the first is inserted and the second fails:
    the run counts one new article and stores none. *)
Lemma run_with_failed_transaction_example :
  exists stats w',
    @run_news_pipeline example_library fitting_then_long_world = (Ok stats, w') /\
    news w' = [] /\
    new_articles stats = 1%nat /\
    updated_articles stats = 1%nat.
Proof.
  assert (F1 : fst (setup_database (snd (at_start fitting_then_long_world))) = Ok tt)
    by (vm_compute; reflexivity).
  assert (F2 : exists cz a b,
             fst (NewsCategorizer_init
                    (snd (setup_database (snd (at_start fitting_then_long_world)))))
             = Ok cz /\
             fst (@scrape_all_sites example_library
                    (snd (NewsCategorizer_init
                            (snd (setup_database
                                    (snd (at_start fitting_then_long_world)))))))
             = Ok [a; b] /\
             fst (snd (for_each [a; b] (process_article cz)
                         (mkStats 0 0 0,
                          snd (psycopg2_connect
                                 (snd (@scrape_all_sites example_library
                                         (snd (NewsCategorizer_init
                                                 (snd (setup_database
                                                         (snd (at_start
                                                                 fitting_then_long_world))))))))))))
             = mkStats 1 1 0 /\
             ~ healthy
                 (snd (snd (for_each [a; b] (process_article cz)
                              (mkStats 0 0 0,
                               snd (psycopg2_connect
                                      (snd (@scrape_all_sites example_library
                                              (snd (NewsCategorizer_init
                                                      (snd (setup_database
                                                              (snd (at_start
                                                                      fitting_then_long_world)))))))))))))).
  { do 3 eexists. split; [vm_compute; reflexivity|].
    split; [vm_compute; reflexivity|].
    split; [vm_compute; reflexivity|].
    vm_compute. discriminate. }
  assert (F4 : fst (psycopg2_connect
                      (snd (@scrape_all_sites example_library
                              (snd (NewsCategorizer_init
                                      (snd (setup_database
                                              (snd (at_start fitting_then_long_world)))))))))
               = Ok tt) by (vm_compute; reflexivity).
  destruct F2 as (cz & a & b & F2 & F3 & F5 & F6).
  destruct (setup_database (snd (at_start fitting_then_long_world))) as [r1 w1] eqn:H1.
  cbn [fst snd] in F1, F2, F3, F4, F5, F6. subst r1.
  destruct (NewsCategorizer_init w1) as [r2 w2] eqn:H2.
  cbn [fst snd] in F2, F3, F4, F5, F6. subst r2.
  destruct (@scrape_all_sites example_library w2) as [r3 w3] eqn:H3.
  cbn [fst snd] in F3, F4, F5, F6. subst r3.
  destruct (psycopg2_connect w3) as [r4 w4] eqn:H4.
  cbn [fst snd] in F4, F5, F6. subst r4.
  destruct (for_each_process_frame cz [a; b] (mkStats 0 0 0) w4)
    as (st5 & w5 & Hloop & _).
  rewrite Hloop in F5, F6. cbn [fst snd] in F5, F6. subst st5.
  destruct (@run_with_failed_transaction_stores_nothing example_library
              fitting_then_long_world w1 w2 w3 w4 w5 cz [a; b] _
              H1 H2 H3 ltac:(discriminate) H4 Hloop F6)
    as (stats & w' & Hrun & Hn & Hnew & Hupd).
  exists stats, w'. split; [exact Hrun|]. split; [exact Hn|]. split; assumption.
Defined.

(** ** Sorting and grouping, as the queries use them *)

Lemma insert_sorted_perm {A} (before : A -> A -> bool) (x : A) (l : list A) :
  Permutation (insert_sorted before x l) (x :: l).
Proof.
  induction l as [|y l IH]; simpl; [apply Permutation_refl|].
  destruct (before x y); [apply Permutation_refl|].
  eapply Permutation_trans; [apply perm_skip, IH | apply perm_swap].
Qed.

Lemma sort_by_perm {A} (before : A -> A -> bool) (l : list A) :
  Permutation (sort_by before l) l.
Proof.
  induction l as [|x l IH]; simpl; [constructor|].
  eapply Permutation_trans; [apply insert_sorted_perm | apply perm_skip, IH].
Qed.

Section SortFacts.
Context {A : Type} (before : A -> A -> bool).
Hypothesis before_asym : forall x y, before x y = true -> before y x = false.
Hypothesis before_trans :
  forall x y z, before x y = true -> before y z = true -> before x z = true.

Lemma insert_sorted_sorted (x : A) (l : list A) :
  StronglySorted (fun a b => before b a = false) l ->
  StronglySorted (fun a b => before b a = false) (insert_sorted before x l).
Proof.
  induction l as [|y l IH]; intros Hs; simpl.
  - constructor; constructor.
  - inversion Hs as [|? ? Hl Hy]; subst.
    destruct (before x y) eqn:Hxy.
    + constructor; [exact Hs|]. constructor; [apply before_asym, Hxy|].
      rewrite Forall_forall in *. intros z Hz.
      destruct (before z x) eqn:Hzx; [|reflexivity].
      specialize (Hy z Hz).
      pose proof (before_trans _ _ _ Hzx Hxy) as Hzy. congruence.
    + constructor; [apply IH, Hl|].
      rewrite Forall_forall in *. intros z Hz.
      apply (Permutation_in _ (insert_sorted_perm before x l)) in Hz.
      destruct Hz as [<-|Hz]; [exact Hxy | apply Hy, Hz].
Qed.

Lemma sort_by_sorted (l : list A) :
  StronglySorted (fun a b => before b a = false) (sort_by before l).
Proof.
  induction l as [|x l IH]; simpl; [constructor|].
  apply insert_sorted_sorted, IH.
Qed.
End SortFacts.

Lemma later_asym (r1 r2 : News.row) : later r1 r2 = true -> later r2 r1 = false.
Proof.
  unfold later.
  destruct (News.publish_date r1) as [p1|], (News.publish_date r2) as [p2|];
    try reflexivity; try discriminate.
  intros H. apply Z.ltb_lt in H. apply Z.ltb_ge. lia.
Qed.

Lemma later_trans (r1 r2 r3 : News.row) :
  later r1 r2 = true -> later r2 r3 = true -> later r1 r3 = true.
Proof.
  unfold later.
  destruct (News.publish_date r1) as [p1|], (News.publish_date r2) as [p2|],
    (News.publish_date r3) as [p3|]; try reflexivity; try discriminate.
  intros H1 H2. apply Z.ltb_lt in H1, H2. apply Z.ltb_lt. lia.
Qed.

Lemma StronglySorted_firstn {A} (R : A -> A -> Prop) (n : nat) (l : list A) :
  StronglySorted R l -> StronglySorted R (firstn n l).
Proof.
  revert n. induction l as [|x l IH]; intros n Hs; destruct n; simpl;
    try constructor.
  - inversion Hs; subst. apply IH. assumption.
  - inversion Hs as [|? ? _ Hx]; subst. rewrite Forall_forall in *.
    intros z Hz. apply Hx.
    rewrite <- (firstn_skipn n l). apply in_or_app. left. exact Hz.
Qed.

Lemma opt_eqb_eq (x y : option string) : opt_eqb x y = true <-> x = y.
Proof.
  destruct x as [a|], y as [b|]; simpl; split; intros H;
    try discriminate; try reflexivity.
  - apply String.eqb_eq in H. congruence.
  - injection H as ->. apply String.eqb_refl.
Qed.

Lemma opt_eqb_sym (x y : option string) : opt_eqb x y = opt_eqb y x.
Proof. destruct x, y; simpl; try reflexivity. apply String.eqb_sym. Qed.

Lemma sum_counts_perm (l l' : list (option string * nat)) :
  Permutation l l' -> sum_counts l = sum_counts l'.
Proof.
  induction 1; simpl; lia.
Qed.

Lemma filter_perm {A} (p : A -> bool) (l l' : list A) :
  Permutation l l' -> Permutation (filter p l) (filter p l').
Proof.
  induction 1; simpl.
  - constructor.
  - destruct (p x); [apply perm_skip|]; assumption.
  - destruct (p x), (p y); try apply Permutation_refl. apply perm_swap.
  - eapply Permutation_trans; eassumption.
Qed.

(** The count that a grouping holds for category [c], summed over the
    groups of that category. *)
Lemma bump_count (c c0 : option string) (acc : list (option string * nat)) :
  sum_counts (filter (fun g => opt_eqb c (fst g)) (bump c0 acc))
  = (sum_counts (filter (fun g => opt_eqb c (fst g)) acc)
     + if opt_eqb c c0 then 1 else 0)%nat.
Proof.
  induction acc as [|[c' n] acc IH]; simpl.
  - destruct (opt_eqb c c0); reflexivity.
  - destruct (opt_eqb c0 c') eqn:E0; simpl.
    + apply opt_eqb_eq in E0. subst c'.
      destruct (opt_eqb c c0); simpl; lia.
    + destruct (opt_eqb c c') eqn:E; simpl; rewrite IH; lia.
Qed.

Lemma bump_total (c0 : option string) (acc : list (option string * nat)) :
  sum_counts (bump c0 acc) = S (sum_counts acc).
Proof.
  induction acc as [|[c' n] acc IH]; simpl; [reflexivity|].
  destruct (opt_eqb c0 c'); simpl; [|rewrite IH]; lia.
Qed.

Lemma bump_keys (c c0 : option string) (acc : list (option string * nat)) :
  In c (map fst (bump c0 acc)) <-> c = c0 \/ In c (map fst acc).
Proof.
  induction acc as [|[c' n] acc IH]; simpl.
  - split; [intros [H|[]]; left; congruence | intros [H|[]]; left; congruence].
  - destruct (opt_eqb c0 c') eqn:E0; simpl.
    + apply opt_eqb_eq in E0. subst c'. split; [tauto|].
      intros [->|H]; [left; reflexivity | exact H].
    + rewrite IH. tauto.
Qed.

Lemma bump_nodup (c0 : option string) (acc : list (option string * nat)) :
  NoDup (map fst acc) -> NoDup (map fst (bump c0 acc)).
Proof.
  induction acc as [|[c' n] acc IH]; simpl; intros H.
  - constructor; [intros [] | constructor].
  - inversion H as [|? ? Hnot Hrest]; subst.
    destruct (opt_eqb c0 c') eqn:E0; simpl; [exact H|].
    constructor; [|apply IH, Hrest].
    rewrite bump_keys. intros [->|Hin]; [|contradiction].
    assert (Hrefl : opt_eqb c0 c0 = true) by (apply opt_eqb_eq; reflexivity).
    congruence.
Qed.

Lemma bump_positive (c0 : option string) (acc : list (option string * nat)) :
  Forall (fun g => (0 < snd g)%nat) acc ->
  Forall (fun g => (0 < snd g)%nat) (bump c0 acc).
Proof.
  induction acc as [|[c' n] acc IH]; simpl; intros H.
  - constructor; [simpl; lia | constructor].
  - inversion H; subst. destruct (opt_eqb c0 c'); constructor;
      simpl in *; try lia; try assumption. apply IH. assumption.
Qed.

(** What the grouping loop builds from the groups [acc] and the rows [l]. *)
Lemma fold_bump (l : list News.row) :
  forall acc : list (option string * nat),
  let groups := fold_left (fun acc r => bump (News.category r) acc) l acc in
  (forall c, sum_counts (filter (fun g => opt_eqb c (fst g)) groups)
             = (sum_counts (filter (fun g => opt_eqb c (fst g)) acc)
                + List.length (filter (fun r => opt_eqb c (News.category r)) l))%nat) /\
  sum_counts groups = (sum_counts acc + List.length l)%nat /\
  (NoDup (map fst acc) -> NoDup (map fst groups)) /\
  (Forall (fun g => (0 < snd g)%nat) acc -> Forall (fun g => (0 < snd g)%nat) groups).
Proof.
  induction l as [|r l IH]; intros acc; simpl.
  - repeat split; try tauto; intros; lia.
  - destruct (IH (bump (News.category r) acc)) as (Hc & Ht & Hn & Hp).
    repeat split.
    + intros c. rewrite Hc, bump_count.
      destruct (opt_eqb c (News.category r)); simpl; lia.
    + rewrite Ht, bump_total. lia.
    + intros H. apply Hn, bump_nodup, H.
    + intros H. apply Hp, bump_positive, H.
Qed.

Lemma group_of_key (c : option string) (l : list (option string * nat)) :
  NoDup (map fst l) ->
  forall n, In (c, n) l -> sum_counts (filter (fun g => opt_eqb c (fst g)) l) = n.
Proof.
  induction l as [|[c' m] l IH]; intros Hnd n Hin; [destruct Hin|].
  inversion Hnd as [|? ? Hnot Hrest]; subst. simpl.
  destruct Hin as [Heq|Hin].
  - injection Heq as -> ->.
    assert (Hrefl : opt_eqb c c = true) by (apply opt_eqb_eq; reflexivity).
    rewrite Hrefl. simpl.
    assert (Hnone : filter (fun g => opt_eqb c (fst g)) l = []).
    { apply filter_nothing. intros [c2 k] Hk. simpl.
      apply not_true_is_false. intros E. apply opt_eqb_eq in E. subst c2.
      apply Hnot. apply in_map_iff. exists (c, k). split; [reflexivity | exact Hk]. }
    rewrite Hnone. simpl. lia.
  - destruct (opt_eqb c c') eqn:E.
    + apply opt_eqb_eq in E. subst c'. exfalso. apply Hnot.
      apply in_map_iff. exists (c, n). split; [reflexivity | exact Hin].
    + apply IH; assumption.
Qed.

Lemma key_of_group (c : option string) (l : list (option string * nat)) :
  (0 < sum_counts (filter (fun g => opt_eqb c (fst g)) l))%nat ->
  exists n, In (c, n) l.
Proof.
  induction l as [|[c' m] l IH]; simpl; [lia|].
  destruct (opt_eqb c c') eqn:E.
  - apply opt_eqb_eq in E. subst c'. intros _. exists m. left. reflexivity.
  - intros H. destruct (IH H) as [n Hn]. exists n. right. exact Hn.
Qed.

Lemma filter_active_category (c : option string) (rows : list News.row) :
  List.length (filter (fun r => opt_eqb c (News.category r)) (filter active rows))
  = active_in_category c rows.
Proof.
  unfold active_in_category.
  induction rows as [|r rows IH]; simpl; [reflexivity|].
  destruct (active r); simpl; [|exact IH].
  rewrite (opt_eqb_sym (News.category r) c).
  destruct (opt_eqb c (News.category r)); simpl; rewrite IH; reflexivity.
Qed.

(** The meaning of [SELECT category, COUNT( * ) ... WHERE is_active = TRUE
    GROUP BY category ORDER BY count DESC] as the model computes it:
    one group for each category that has an active row, with the number
    of those rows, in an order of counts that never increases; the counts
    add up to the number of active rows. *)
Lemma category_counts_spec (rows : list News.row) :
  NoDup (map fst (category_counts rows)) /\
  (forall c n, In (c, n) (category_counts rows)
               <-> (0 < n)%nat /\ n = active_in_category c rows) /\
  StronglySorted (fun g1 g2 => (snd g2 <= snd g1)%nat) (category_counts rows) /\
  sum_counts (category_counts rows) = count_active rows.
Proof.
  unfold category_counts.
  set (before := fun x y : option string * nat => (snd y <? snd x)%nat).
  set (groups := fold_left _ _ _).
  destruct (fold_bump (filter active rows) []) as (Hc & Ht & Hn & Hp).
  fold groups in Hc, Ht, Hn, Hp. simpl in Hc, Ht.
  specialize (Hn (NoDup_nil _)). specialize (Hp (Forall_nil _)).
  pose proof (sort_by_perm before groups) as Hperm.
  assert (Hnd : NoDup (map fst (sort_by before groups))).
  { eapply Permutation_NoDup; [|exact Hn].
    apply Permutation_map, Permutation_sym, Hperm. }
  assert (Hcount : forall c,
             sum_counts (filter (fun g => opt_eqb c (fst g)) (sort_by before groups))
             = active_in_category c rows).
  { intros c. rewrite (sum_counts_perm _ _ (filter_perm _ _ _ Hperm)), Hc.
    apply filter_active_category. }
  split; [exact Hnd|]. split; [|split].
  - intros c n. split.
    + intros Hin. split.
      * apply (Permutation_in _ Hperm) in Hin.
        rewrite Forall_forall in Hp. exact (Hp _ Hin).
      * rewrite <- Hcount. symmetry. apply group_of_key; assumption.
    + intros [Hpos ->]. rewrite <- Hcount in Hpos |- *.
      destruct (key_of_group _ _ Hpos) as [m Hm].
      rewrite (group_of_key _ _ Hnd _ Hm). exact Hm.
  - assert (Hs : StronglySorted (fun a b => before b a = false) (sort_by before groups)).
    { apply sort_by_sorted; unfold before; intros x y.
      - intros H. apply Nat.ltb_lt in H. apply Nat.ltb_ge. lia.
      - intros z H1 H2. apply Nat.ltb_lt in H1, H2. apply Nat.ltb_lt. lia. }
    clear -Hs. induction Hs as [|g l Hl IH Hg]; constructor; [exact IH|].
    eapply Forall_impl; [|exact Hg]. unfold before. intros g2 H.
    apply Nat.ltb_ge in H. exact H.
  - rewrite (sum_counts_perm _ _ Hperm), Ht. reflexivity.
Qed.

(** ** The read routes *)

Section ApiFacts.
Context {lib : Library}.

Lemma psycopg2_connect_table (w w' : World) :
  psycopg2_connect w = (Ok tt, w') ->
  table w' = news w /\ news w' = news w /\ healthy w'.
Proof.
  unfold psycopg2_connect. intros H.
  destruct (db_fault (env w) (db_ops w)); [discriminate|].
  injection H as <-. repeat split.
Qed.

Lemma psycopg2_connect_raise (w w' : World) (e : exn) :
  psycopg2_connect w = (Raise e, w') ->
  news w' = news w /\ history w' = history w /\ log w' = log w.
Proof.
  unfold psycopg2_connect. intros H.
  destruct (db_fault (env w) (db_ops w)); [|discriminate].
  injection H as _ <-. repeat split.
Qed.

(** What the [try] block of [get_news] returns when it returns. *)
Lemma get_news_body_ok (request : Request) (w w' : World) (resp : Response) :
  get_news_body request w = (Ok resp, w') ->
  exists limit rows rest,
    match arg_limit request with
    | Some s => py_int s = inr limit
    | None => limit = 10
    end /\
    0 <= limit < 2 ^ 63 /\
    resp = (JObj [("success", JBool true);
                  ("count", JNum (Z.of_nat (List.length rows)));
                  ("articles", JArr (map article_json rows))], 200) /\
    Permutation (rows ++ rest) (filter (answers (requested_category request)) (news w)) /\
    StronglySorted not_after (rows ++ rest) /\
    List.length rows = Nat.min (Z.to_nat limit) (List.length (rows ++ rest)) /\
    news w' = news w /\ conn w' = None /\ log w' = log w.
Proof.
  unfold get_news_body, bind at 1. intros H.
  destruct (psycopg2_connect w) as [[[]|e] w1] eqn:Ec; [|discriminate].
  destruct (psycopg2_connect_table _ _ Ec) as (Ht1 & Hn1 & _).
  assert (Hl1 : log w1 = log w)
    by (destruct (psycopg2_connect_ok _ _ Ec) as (_ & _ & _ & _ & Hl); exact Hl).
  unfold bind at 1 in H.
  assert (Hlim : exists limit,
             match arg_limit request with
             | Some s => py_int s
             | None => inr 10
             end = inr limit).
  { destruct (match arg_limit request with Some s => py_int s | None => inr 10 end)
      as [e|limit]; [discriminate H | exists limit; reflexivity]. }
  destruct Hlim as [limit Hlim]. rewrite Hlim in H. cbn [of_sum ret] in H.
  fold (requested_category request) in H.
  unfold bind at 1 in H.
  destruct (execute (SelectActive (requested_category request) limit) _ w1)
    as [[articles|e] w2] eqn:Ee; [|discriminate].
  apply execute_ok in Ee. destruct Ee as (t & rows0 & Hc1 & _ & _ & Hsem & ->).
  assert (Ht : tx_rows t = news w) by (rewrite <- Ht1; unfold table; rewrite Hc1; reflexivity).
  unfold select_active, bind_sum in Hsem.
  destruct ((limit <? - 2 ^ 63) || (2 ^ 63 <=? limit)) eqn:Hbig; [discriminate|].
  apply orb_false_elim in Hbig. destruct Hbig as [_ Hbig]. apply Z.leb_gt in Hbig.
  destruct (limit <? 0) eqn:Hneg; [discriminate|].
  injection Hsem as <- _.
  unfold bind, conn_close, ret in H. injection H as <- <-.
  fold (answers (requested_category request)).
  set (sorted := sort_by later (filter (answers (requested_category request)) (tx_rows t))).
  exists limit, (firstn (Z.to_nat limit) sorted), (skipn (Z.to_nat limit) sorted).
  rewrite firstn_skipn.
  split.
  { destruct (arg_limit request); [exact Hlim | congruence]. }
  split; [apply Z.ltb_ge in Hneg; split; [exact Hneg | exact Hbig]|].
  split; [rewrite length_map; reflexivity|].
  split; [unfold sorted; rewrite Ht; apply sort_by_perm|].
  split; [apply sort_by_sorted; [apply later_asym | apply later_trans]|].
  split; [apply length_firstn|].
  repeat split; assumption.
Qed.

Lemma get_news_body_raise (request : Request) (w w' : World) (e : exn) :
  get_news_body request w = (Raise e, w') -> news w' = news w /\ log w' = log w.
Proof.
  unfold get_news_body, bind at 1. intros H.
  destruct (psycopg2_connect w) as [[[]|e1] w1] eqn:Ec.
  - destruct (psycopg2_connect_table _ _ Ec) as (_ & Hn1 & _).
    destruct (psycopg2_connect_ok _ _ Ec) as (_ & _ & _ & _ & Hl1).
    unfold bind at 1 in H.
    destruct (match arg_limit request with Some s => py_int s | None => inr 10 end)
      as [e2|limit]; cbn [of_sum raise ret] in H.
    + injection H as _ <-. split; assumption.
    + unfold bind at 1 in H.
      destruct (execute _ _ w1) as [[articles|e3] w2] eqn:Ee.
      * unfold bind, conn_close, ret in H. discriminate.
      * injection H as _ <-. pose proof (execute_news _ _ _ _ _ Ee) as Hn2.
        apply execute_raise_table in Ee. destruct Ee as (_ & _ & Hl2).
        split; congruence.
  - injection H as _ <-. destruct (psycopg2_connect_raise _ _ _ Ec) as (Hn & _ & Hl).
    split; assumption.
Qed.

(** What the [try] block of [get_categories] returns when it returns. *)
Lemma get_categories_body_ok (w w' : World) (resp : Response) :
  get_categories_body w = (Ok resp, w') ->
  resp = (JObj [("success", JBool true);
                ("categories",
                 JArr (map (fun g => JObj [("category", json_opt (fst g));
                                           ("count", JNum (Z.of_nat (snd g)))])
                         (category_counts (news w))))], 200) /\
  news w' = news w /\ conn w' = None /\ log w' = log w.
Proof.
  unfold get_categories_body, bind at 1. intros H.
  destruct (psycopg2_connect w) as [[[]|e] w1] eqn:Ec; [|discriminate].
  destruct (psycopg2_connect_table _ _ Ec) as (Ht1 & Hn1 & _).
  destruct (psycopg2_connect_ok _ _ Ec) as (_ & _ & _ & _ & Hl1).
  unfold bind at 1 in H.
  destruct (query SelectCategoryCounts category_counts w1) as [[groups|e] w2] eqn:Eq;
    [|discriminate].
  pose proof (execute_news _ _ _ _ _ Eq) as Hn2.
  destruct (query_ok _ _ _ _ _ Eq) as (-> & _).
  unfold query in Eq. apply execute_ok in Eq.
  destruct Eq as (t & rows0 & _ & _ & _ & _ & ->).
  unfold bind, conn_close, ret in H. injection H as <- <-.
  rewrite Ht1. repeat split; assumption.
Qed.

Lemma get_categories_body_raise (w w' : World) (e : exn) :
  get_categories_body w = (Raise e, w') -> news w' = news w /\ log w' = log w.
Proof.
  unfold get_categories_body, bind at 1. intros H.
  destruct (psycopg2_connect w) as [[[]|e1] w1] eqn:Ec.
  - destruct (psycopg2_connect_table _ _ Ec) as (_ & Hn1 & _).
    destruct (psycopg2_connect_ok _ _ Ec) as (_ & _ & _ & _ & Hl1).
    unfold bind at 1 in H.
    destruct (query SelectCategoryCounts category_counts w1) as [[groups|e3] w2] eqn:Eq.
    + unfold bind, conn_close, ret in H. discriminate.
    + injection H as _ <-. pose proof (execute_news _ _ _ _ _ Eq) as Hn2.
      apply execute_raise_table in Eq. destruct Eq as (_ & _ & Hl2).
      split; congruence.
  - injection H as _ <-. destruct (psycopg2_connect_raise _ _ _ Ec) as (Hn & _ & Hl).
    split; assumption.
Qed.

(** When [get_news] answers with status 200, the articles of its payload
    are the first rows, [limit] at most, of the committed active rows of
    the requested category in an order in which no row comes before one
    with a later publish date; [count] is their number; the limit is the
    [limit] argument read as an integer, 10 without one, it is not
    negative and below 2^63; and an empty [category] argument asks for
    every category.  The route has changed no row, logged nothing and
    closed its connection. *)
Theorem get_news_answers (request : Request) (w w' : World) (payload : json) :
  get_news request w = (Ok (payload, 200), w') ->
  exists limit rows rest,
    match arg_limit request with
    | Some s => py_int s = inr limit
    | None => limit = 10
    end /\
    0 <= limit < 2 ^ 63 /\
    payload = JObj [("success", JBool true);
                    ("count", JNum (Z.of_nat (List.length rows)));
                    ("articles", JArr (map article_json rows))] /\
    Permutation (rows ++ rest) (filter (answers (requested_category request)) (news w)) /\
    StronglySorted not_after (rows ++ rest) /\
    List.length rows = Nat.min (Z.to_nat limit) (List.length (rows ++ rest)) /\
    news w' = news w /\ conn w' = None /\ log w' = log w.
Proof.
  unfold get_news, try_except. intros H.
  destruct (get_news_body request w) as [[resp|e] w1] eqn:Eb.
  - injection H as -> <-.
    destruct (get_news_body_ok _ _ _ _ Eb)
      as (limit & rows & rest & H1 & H2 & H3 & H4 & H5 & H6 & H7).
    exists limit, rows, rest. injection H3 as ->.
    split; [exact H1|]. split; [exact H2|]. split; [reflexivity|].
    split; [exact H4|]. split; [exact H5|]. split; [exact H6 | exact H7].
  - unfold bind, logger_error, ret, error_response in H. discriminate.
Qed.

(** When [get_categories] answers with status 200, its payload lists
    each category that has a committed active row exactly once, with the
    number of those rows, in an order of counts that never increases. *)
Theorem get_categories_answers (w w' : World) (payload : json) :
  get_categories w = (Ok (payload, 200), w') ->
  exists groups,
    payload = JObj [("success", JBool true);
                    ("categories",
                     JArr (map (fun g => JObj [("category", json_opt (fst g));
                                               ("count", JNum (Z.of_nat (snd g)))])
                             groups))] /\
    NoDup (map fst groups) /\
    (forall c n, In (c, n) groups
                 <-> (0 < n)%nat /\ n = active_in_category c (news w)) /\
    StronglySorted (fun g1 g2 => (snd g2 <= snd g1)%nat) groups /\
    news w' = news w /\ conn w' = None.
Proof.
  unfold get_categories, try_except. intros H.
  destruct (get_categories_body w) as [[resp|e] w1] eqn:Eb.
  - injection H as -> <-.
    destruct (get_categories_body_ok _ _ _ Eb) as (H1 & H2 & H3 & _).
    destruct (category_counts_spec (news w)) as (Hnd & Hin & Hs & _).
    exists (category_counts (news w)). injection H1 as ->.
    split; [reflexivity|]. split; [exact Hnd|]. split; [exact Hin|].
    split; [exact Hs|]. split; assumption.
  - unfold bind, logger_error, ret, error_response in H. discriminate.
Qed.

(** The two routes never raise and never change a row.  Each answers
    with status 200, having logged nothing, or with status 500 and a
    payload whose [success] is false, having logged one error. *)
Theorem routes_never_raise (request : Request) (w : World) :
  (exists payload status w',
      get_news request w = (Ok (payload, status), w') /\
      news w' = news w /\
      (status = 200 /\ log w' = log w \/
       status = 500 /\ json_field "success" payload = Some (JBool false) /\
       error_count w' = S (error_count w))) /\
  (exists payload status w',
      get_categories w = (Ok (payload, status), w') /\
      news w' = news w /\
      (status = 200 /\ log w' = log w \/
       status = 500 /\ json_field "success" payload = Some (JBool false) /\
       error_count w' = S (error_count w))).
Proof.
  split.
  - unfold get_news, try_except.
    destruct (get_news_body request w) as [[resp|e] w1] eqn:Eb.
    + destruct (get_news_body_ok _ _ _ _ Eb)
        as (limit & rows & rest & _ & _ & -> & _ & _ & _ & Hn & _ & Hl).
      eexists. eexists. eexists. split; [reflexivity|].
      split; [exact Hn|]. left. split; [reflexivity | exact Hl].
    + destruct (get_news_body_raise _ _ _ _ Eb) as (Hn & Hl).
      unfold bind, logger_error, ret, error_response.
      eexists. eexists. eexists. split; [reflexivity|].
      split; [exact Hn|]. right. split; [reflexivity|]. split; [reflexivity|].
      rewrite error_count_logged. unfold error_count. rewrite Hl. reflexivity.
  - unfold get_categories, try_except.
    destruct (get_categories_body w) as [[resp|e] w1] eqn:Eb.
    + destruct (get_categories_body_ok _ _ _ Eb) as (-> & Hn & _ & Hl).
      eexists. eexists. eexists. split; [reflexivity|].
      split; [exact Hn|]. left. split; [reflexivity | exact Hl].
    + destruct (get_categories_body_raise _ _ _ Eb) as (Hn & Hl).
      unfold bind, logger_error, ret, error_response.
      eexists. eexists. eexists. split; [reflexivity|].
      split; [exact Hn|]. right. split; [reflexivity|]. split; [reflexivity|].
      rewrite error_count_logged. unfold error_count. rewrite Hl. reflexivity.
Qed.

(** A [limit] argument that [int] rejects is answered with status 500
    and the text of that exception; no statement is sent, although the
    connection has been opened by then. *)
Theorem get_news_rejects_bad_limit
        (request : Request) (w : World) (s : string) (e : exn) :
  db_fault (env w) (db_ops w) = None ->
  arg_limit request = Some s ->
  py_int s = inl e ->
  fst (get_news request w) = Ok (error_response e) /\
  history (snd (get_news request w)) = history w /\
  healthy (snd (get_news request w)).
Proof.
  intros Hf Hs He.
  assert (H : exists w', get_news request w = (Ok (error_response e), w') /\
                         history w' = history w /\ healthy w').
  { unfold get_news, try_except, get_news_body, bind at 1, psycopg2_connect.
    rewrite Hf. unfold bind at 1. rewrite Hs, He. cbn [of_sum raise].
    unfold bind, logger_error, ret. eexists. split; [reflexivity|].
    split; [reflexivity|]. unfold healthy. reflexivity. }
  destruct H as (w' & -> & Hh & Hc). split; [reflexivity|]. split; assumption.
Qed.

(** The summary of a run is consistent: [category_stats] holds each
    category of an active row once, with the number of its active rows,
    so that the dictionary built from it loses no group, and its counts
    add up to [total_active]. *)
Theorem get_summary_stats_consistent (w w' : World) (s : SummaryStats) :
  get_summary_stats_body w = (Ok s, w') ->
  NoDup (map fst (category_stats s)) /\
  (forall c n, In (c, n) (category_stats s)
               <-> (0 < n)%nat /\ n = active_in_category c (table w)) /\
  sum_counts (category_stats s) = total_active s /\
  table w' = table w.
Proof.
  unfold get_summary_stats_body, bind at 1. intros H.
  destruct (query SelectCategoryCounts category_counts w) as [[cs|e] w1] eqn:E1;
    [|discriminate].
  destruct (query_ok _ _ _ _ _ E1) as (-> & Ht1 & _).
  unfold bind at 1 in H.
  destruct (query CountActive count_active w1) as [[n|e] w2] eqn:E2; [|discriminate].
  destruct (query_ok _ _ _ _ _ E2) as (-> & Ht2 & _).
  unfold bind at 1, datetime_now in H.
  unfold bind at 1 in H.
  destruct (query _ _ _) as [[m|e] w3] eqn:E3; [|discriminate].
  destruct (query_ok _ _ _ _ _ E3) as (_ & Ht3 & _).
  unfold ret in H. injection H as <- <-. simpl.
  destruct (category_counts_spec (table w)) as (Hnd & Hin & _ & Hsum).
  split; [exact Hnd|]. split; [exact Hin|].
  split; [rewrite Ht1; exact Hsum|].
  rewrite Ht3. change (table (set_clock_reads (S (clock_reads w2)) w2)) with (table w2).
  congruence.
Qed.
End ApiFacts.

(** One article asked for, of the two active rows. *)
Lemma get_news_answers_example :
  exists payload w' rows rest,
    @get_news example_library one_of_any (start_world quiet_env three_rows)
    = (Ok (payload, 200), w') /\
    payload = JObj [("success", JBool true);
                    ("count", JNum (Z.of_nat (List.length rows)));
                    ("articles", JArr (map (@article_json example_library) rows))] /\
    Permutation (rows ++ rest) [eight_days_old; six_days_old] /\
    List.length rows = 1%nat.
Proof.
  assert (F : exists payload,
             fst (@get_news example_library one_of_any (start_world quiet_env three_rows))
             = Ok (payload, 200)) by (eexists; vm_compute; reflexivity).
  destruct F as [payload F].
  destruct (@get_news example_library one_of_any (start_world quiet_env three_rows))
    as [r w1] eqn:E.
  cbn [fst] in F. subst r.
  destruct (@get_news_answers example_library _ _ _ _ E)
    as (limit & rows & rest & Hlim & _ & Hp & Hperm & _ & Hlen & _).
  exists payload, w1, rows, rest. split; [reflexivity|]. split; [exact Hp|].
  split; [exact Hperm|].
  apply Permutation_length in Hperm. rewrite Hperm in Hlen.
  vm_compute in Hlim. injection Hlim as <-. exact Hlen.
Defined.

(** Both active rows are of one category. *)
Lemma get_categories_answers_example :
  exists payload w' groups,
    get_categories (start_world quiet_env three_rows)
    = (Ok (payload, 200), w') /\
    payload = JObj [("success", JBool true);
                    ("categories",
                     JArr (map (fun g => JObj [("category", json_opt (fst g));
                                               ("count", JNum (Z.of_nat (snd g)))])
                             groups))] /\
    In (Some "market_prices", 2%nat) groups.
Proof.
  assert (F : exists payload,
             fst (get_categories (start_world quiet_env three_rows))
             = Ok (payload, 200)) by (eexists; vm_compute; reflexivity).
  destruct F as [payload F].
  destruct (get_categories (start_world quiet_env three_rows))
    as [r w1] eqn:E.
  cbn [fst] in F. subst r.
  destruct (get_categories_answers _ _ _ E)
    as (groups & Hp & _ & Hin & _).
  exists payload, w1, groups. split; [reflexivity|]. split; [exact Hp|].
  apply Hin. split; [lia | reflexivity].
Defined.

(** [limit=ten] *)
Lemma get_news_rejects_bad_limit_example :
  fst (@get_news example_library limit_ten_in_words (start_world quiet_env three_rows))
  = Ok (JObj [("success", JBool false);
              ("error", JStr "invalid literal for int() with base 10: 'ten'")], 500) /\
  history (snd (@get_news example_library limit_ten_in_words
                  (start_world quiet_env three_rows))) = [].
Proof.
  destruct (@get_news_rejects_bad_limit example_library limit_ten_in_words
              (start_world quiet_env three_rows) "ten"
              (Exception "invalid literal for int() with base 10: 'ten'")
              eq_refl eq_refl eq_refl) as (Hr & Hh & _).
  split; [exact Hr | exact Hh].
Defined.

(** The summary over the three rows: one group of two, two active rows. *)
Lemma get_summary_stats_consistent_example :
  exists s w',
    get_summary_stats_body (connected_world quiet_env three_rows) = (Ok s, w') /\
    NoDup (map fst (category_stats s)) /\
    sum_counts (category_stats s) = total_active s /\
    In (Some "market_prices", 2%nat) (category_stats s).
Proof.
  assert (F : exists s, fst (get_summary_stats_body (connected_world quiet_env three_rows))
                        = Ok s) by (eexists; vm_compute; reflexivity).
  destruct F as [s F].
  destruct (get_summary_stats_body (connected_world quiet_env three_rows))
    as [r w1] eqn:E.
  cbn [fst] in F. subst r.
  destruct (get_summary_stats_consistent _ _ _ E) as (Hnd & Hin & Hsum & _).
  exists s, w1. split; [reflexivity|]. split; [exact Hnd|]. split; [exact Hsum|].
  apply Hin. split; [lia | reflexivity].
Defined.

(** ** A categoriser without a model *)

(** When the model cannot be loaded, building the categoriser still
    returns, after logging one error, and the categoriser it returns
    answers "uncategorized" for every article, without logging anything
    more. *)
Theorem categorizer_without_model (w : World) (e : exn) :
  model (env w) = inl e ->
  exists cz,
    NewsCategorizer_init w
    = (Ok cz, set_log (log w ++ [mkLog ERROR ("Failed to initialize AI categorizer: "
                                              ++ exn_msg e)]) w) /\
    forall title content w2,
      categorize_article cz title content w2 = (Ok "uncategorized", w2).
Proof.
  intros H. unfold NewsCategorizer_init. rewrite H.
  exists (mkCategorizer None). split; reflexivity.
Qed.

(** A world whose model is missing. *)
Lemma categorizer_without_model_example :
  exists cz,
    fst (NewsCategorizer_init (start_world modelless_env [])) = Ok cz /\
    fst (categorize_article cz "Rice blast alert" "Blast reported in Chitwan"
           (start_world modelless_env [])) = Ok "uncategorized".
Proof.
  destruct (categorizer_without_model (start_world modelless_env [])
              (Exception "model not found") eq_refl) as (cz & Hinit & Hcat).
  exists cz. rewrite Hinit, Hcat. split; reflexivity.
Defined.

(** ** A run without errors *)

Lemma deactivate_old_articles_length (w w' : World) :
  deactivate_old_articles w = (Ok tt, w') ->
  List.length (table w') = List.length (table w).
Proof.
  unfold deactivate_old_articles, try_except, bind at 1.
  unfold deactivate_old_articles_body, bind, datetime_now.
  destruct (execute _ _ _) as [[n|e] w1] eqn:E.
  - apply execute_ok in E. destruct E as (t & rows & Hc & _ & _ & Hsem & ->).
    unfold deactivate_older_than in Hsem. injection Hsem as _ <-.
    simpl in Hc. unfold ret. intros H. injection H as <-.
    unfold table. simpl. rewrite Hc. apply length_map.
  - apply execute_raise_table in E. destruct E as (Ht & _).
    unfold logger_error. intros H. injection H as <-.
    rewrite table_set_log, Ht. reflexivity.
Qed.

Section RunCounts.
Context {lib : Library}.

(** In a run that reached the store with at least one candidate and
    logged no error from then on, every candidate is counted as new or
    as updated and none as an error, the committed table has grown by
    exactly the number of new articles, and the connection is closed. *)
Theorem run_counts_new_rows
        (w w1 w2 w3 w4 : World) (cz : NewsCategorizer) (articles : list Article.t) :
  setup_database (snd (at_start w)) = (Ok tt, w1) ->
  NewsCategorizer_init w1 = (Ok cz, w2) ->
  scrape_all_sites w2 = (Ok articles, w3) ->
  articles <> [] ->
  psycopg2_connect w3 = (Ok tt, w4) ->
  error_count (snd (run_news_pipeline w)) = error_count w4 ->
  exists stats,
    fst (run_news_pipeline w) = Ok stats /\
    errors stats = 0%nat /\
    (new_articles stats + updated_articles stats = List.length articles)%nat /\
    List.length (news (snd (run_news_pipeline w)))
    = (List.length (news w) + new_articles stats)%nat /\
    conn (snd (run_news_pipeline w)) = None.
Proof.
  intros H1 H2 H3 Hne Hc.
  destruct (run_news_pipeline w) as [res w'] eqn:E. cbn [fst snd].
  rewrite run_news_pipeline_unfold in E.
  unfold at_start in *. simpl snd in H1.
  rewrite (run_news_pipeline_body_after_scrape _ _ _ _ _ _ _ H1 H2 H3) in E.
  destruct articles as [|a rest]; [contradiction|].
  rewrite (bind_lift_ok _ _ _ _ _ _ Hc) in E.
  destruct (setup_database_ok _ _ H1) as (Hn1 & _).
  destruct (NewsCategorizer_init_untouched _ _ _ H2) as (_ & Hn2 & _).
  destruct (scrape_all_sites_untouched _ _ _ H3) as (_ & Hn3 & _).
  destruct (psycopg2_connect_ok _ _ Hc) as (Hh4 & _).
  assert (Ht4 : table w4 = news w3).
  { unfold psycopg2_connect in Hc.
    destruct (db_fault (env w3) (db_ops w3)); [discriminate|].
    injection Hc as <-. reflexivity. }
  destruct (for_each_process_frame cz (a :: rest) (mkStats 0 0 0) w4)
    as (st5 & w5 & Hloop & (ups & Hx5 & _) & _ & Hq5).
  destruct (for_each_process_rows cz (a :: rest) (mkStats 0 0 0) w4)
    as (st & wl & Hloop' & Herr & Hcount & Hrows & _).
  rewrite Hloop in Hloop'. injection Hloop' as <- <-.
  unfold bind at 1 in E. rewrite Hloop in E.
  destruct (deactivate_old_articles_frame w5) as (w6 & Hd & Hx6 & Hq6).
  pose proof (deactivate_old_articles_length _ _ Hd) as Hlen6.
  rewrite (bind_lift_ok _ _ _ _ _ _ Hd) in E.
  destruct (get_summary_stats_frame w6) as (s & w7 & Hs & (sums & Hx7 & _) & Hq7).
  rewrite (bind_lift_ok _ _ _ _ _ _ Hs) in E.
  pose proof (ext_errors _ _ _ Hx5) as Hle5.
  pose proof (ext_errors _ _ _ Hx6) as Hle6.
  pose proof (ext_errors _ _ _ Hx7) as Hle7.
  simpl in Hn1, Herr, Hcount, Hrows.
  destruct (conn_commit w7) as [[[]|e] w8] eqn:Ec;
    destruct (conn_commit_frame _ _ _ Ec) as (_ & _ & Hl8 & _ & Hnews8).
  - rewrite (bind_lift_ok _ _ _ _ _ _ Ec) in E.
    rewrite (bind_lift_ok _ _ _ _ _ _ (eq_refl : conn_close w8 = (Ok tt, _))) in E.
    rewrite (bind_lift_ok _ _ _ _ _ _ (eq_refl : datetime_now _ = (Ok _, _))) in E.
    unfold ret in E. injection E as <- <-. intros Heq.
    assert (H8 : error_count w8 = error_count w7)
      by (unfold error_count; rewrite Hl8; reflexivity).
    assert (Heq' : error_count w8 = error_count w4) by exact Heq.
    assert (Hh5 : healthy w5) by (apply Hq5; [lia | exact Hh4]).
    destruct Hq6 as [Hh6 _]; [lia|].
    destruct Hq7 as [Hh7 Ht7]; [lia|].
    exists st5. split; [reflexivity|]. split; [exact Herr|].
    split; [simpl List.length; lia|]. split; [|reflexivity].
    change (List.length (news w8) = (List.length (news w) + new_articles st5)%nat).
    rewrite (Hnews8 Hh7), Ht7, Hlen6.
    rewrite Ht4, Hn3, Hn2, Hn1 in Hrows. lia.
  - rewrite (bind_lift_raise _ _ _ _ _ _ Ec) in E. injection E as <- <-.
    unfold pipeline_failed. rewrite error_count_logged.
    assert (H8 : error_count w8 = error_count w7)
      by (unfold error_count; rewrite Hl8; reflexivity).
    intros Heq. exfalso. lia.
Qed.
End RunCounts.

(** One candidate, new to a store of one row: the run counts one new
    article and the table holds two rows. *)
Lemma run_counts_new_rows_example :
  fst (@run_news_pipeline example_library one_candidate_world) = Ok (mkStats 1 0 0) /\
  List.length (news (snd (@run_news_pipeline example_library one_candidate_world)))
  = 2%nat.
Proof.
  assert (F0 : fst (@run_news_pipeline example_library one_candidate_world)
               = Ok (mkStats 1 0 0)) by (vm_compute; reflexivity).
  assert (F1 : fst (setup_database (snd (at_start one_candidate_world))) = Ok tt)
    by (vm_compute; reflexivity).
  assert (F2 : exists cz,
             fst (NewsCategorizer_init
                    (snd (setup_database (snd (at_start one_candidate_world)))))
             = Ok cz) by (eexists; vm_compute; reflexivity).
  assert (F3 : exists a,
             fst (@scrape_all_sites example_library
                    (snd (NewsCategorizer_init
                            (snd (setup_database (snd (at_start one_candidate_world)))))))
             = Ok [a]) by (eexists; vm_compute; reflexivity).
  assert (F4 : fst (psycopg2_connect
                      (snd (@scrape_all_sites example_library
                              (snd (NewsCategorizer_init
                                      (snd (setup_database
                                              (snd (at_start one_candidate_world)))))))))
               = Ok tt) by (vm_compute; reflexivity).
  assert (F5 : error_count (snd (@run_news_pipeline example_library one_candidate_world))
               = error_count
                   (snd (psycopg2_connect
                      (snd (@scrape_all_sites example_library
                              (snd (NewsCategorizer_init
                                      (snd (setup_database
                                              (snd (at_start one_candidate_world)))))))))))
    by (vm_compute; reflexivity).
  destruct (setup_database (snd (at_start one_candidate_world))) as [r1 w1] eqn:H1.
  cbn [fst snd] in F1, F2, F3, F4, F5. subst r1.
  destruct F2 as [cz F2].
  destruct (NewsCategorizer_init w1) as [r2 w2] eqn:H2.
  cbn [fst snd] in F2, F3, F4, F5. subst r2.
  destruct F3 as [a F3].
  destruct (@scrape_all_sites example_library w2) as [r3 w3] eqn:H3.
  cbn [fst snd] in F3, F4, F5. subst r3.
  destruct (psycopg2_connect w3) as [r4 w4] eqn:H4.
  cbn [fst snd] in F4, F5. subst r4.
  destruct (@run_counts_new_rows example_library
              one_candidate_world w1 w2 w3 w4 cz [a] H1 H2 H3 ltac:(discriminate) H4 F5)
    as (stats & Hrun & _ & _ & Hlen & _).
  rewrite F0 in Hrun. injection Hrun as <-.
  split; [exact F0 | exact Hlen].
Defined.

(** ** From a run to the routes *)

(** A call of [upsert_article] that logs no error has run its [try]
    block to the end. *)
Lemma upsert_article_no_error (a : Article.t) (category : string)
      (w w' : World) (b : bool) :
  upsert_article a category w = (Ok b, w') ->
  error_count w' = error_count w ->
  upsert_article_body a category w = (Ok b, w').
Proof.
  intros H Hec.
  destruct (upsert_article_body a category w) as [[b'|e] w1] eqn:E.
  - unfold upsert_article, try_except in H. rewrite E in H. exact H.
  - rewrite (upsert_article_of_raise _ _ _ _ _ E) in H. injection H as _ <-.
    destruct (upsert_article_body_raise _ _ _ _ _ E) as (_ & _ & Hl).
    rewrite error_count_logged in Hec. unfold error_count in Hec.
    rewrite Hl in Hec. lia.
Qed.

(** What one call that ran to the end leaves of a fresh row of [u], and
    what it leaves when its own candidate has that url. *)
Lemma upsert_article_body_fresh (a : Article.t) (category : string)
      (w w' : World) (b : bool) (u : string) (cutoff : datetime) :
  upsert_article_body a category w = (Ok b, w') ->
  (Article.url a = u ->
   (String.length u <= 1000)%nat /\ cutoff <= Article.publish_date a) ->
  Article.url a = u \/ holds_fresh u cutoff (table w) ->
  holds_fresh u cutoff (table w').
Proof.
  intros H Hmine Hcase.
  destruct (upsert_article_body_ok _ _ _ _ _ H)
    as (t & rows' & Hc & _ & Hc' & Hkind).
  assert (Ht : table w = tx_rows t) by (unfold table; rewrite Hc; reflexivity).
  assert (Ht' : table w' = rows') by (unfold table; rewrite Hc'; reflexivity).
  rewrite Ht in Hcase. rewrite Ht'. clear Ht Ht' Hc Hc' H.
  destruct (String.eqb_spec (Article.url a) u) as [Hu|Hu].
  - destruct (Hmine Hu) as [Hlen Hfresh].
    destruct Hkind as [(_ & Hin & Hupd)|(_ & _ & i & Hins)].
    + destruct (update_by_url_shape _ _ _ _ _ Hupd) as (x & y & z & c & ->).
      apply in_map_iff in Hin. destruct Hin as (r0 & Hr0 & Hin0).
      exists (News.mk (News.id r0) x (Some (Article.content a)) y z
                (Some (Article.publish_date a)) (Some c) (News.url r0)
                (Some true) (News.created_at r0) (Some (tx_start t))),
             (Article.publish_date a).
      split; [|simpl; repeat split; [congruence | exact Hfresh]].
      apply in_map_iff. exists r0. split; [|exact Hin0].
      unfold has_url. rewrite Hr0, String.eqb_refl. reflexivity.
    + unfold insert_news, bind_sum in Hins.
      destruct (varchar 500 (Article.title a)); [discriminate|].
      destruct (varchar_opt 1000 (Article.image_url a)); [discriminate|].
      destruct (varchar 100 (Article.source a)); [discriminate|].
      destruct (varchar 50 category); [discriminate|].
      rewrite varchar_fits in Hins by (rewrite Hu; exact Hlen).
      destruct (existsb (has_id i) (tx_rows t)); [discriminate|].
      destruct (existsb _ (tx_rows t)); [discriminate|].
      injection Hins as <-. eexists. exists (Article.publish_date a).
      split; [apply in_or_app; right; left; reflexivity|].
      simpl. repeat split; [exact Hu | exact Hfresh].
  - destruct Hcase as [Heq|(r & p & Hin & Hr & Ha & Hp & Hle)]; [contradiction|].
    exists r, p. split; [|repeat split; assumption].
    destruct Hkind as [(_ & _ & Hupd)|(_ & _ & i & Hins)].
    + destruct (update_by_url_shape _ _ _ _ _ Hupd) as (x & y & z & c & ->).
      apply in_map_iff. exists r. split; [|exact Hin].
      unfold has_url. rewrite Hr.
      destruct (String.eqb_spec u (Article.url a)) as [Heq|_]; [|reflexivity].
      symmetry in Heq. contradiction.
    + destruct (insert_news_shape _ _ _ _ _ _ Hins) as (r1 & ->).
      apply in_or_app. left. exact Hin.
Qed.

(** One turn of the loop that logged no error. *)
Lemma process_article_fresh (cz : NewsCategorizer) (a : Article.t)
      (stats stats' : Stats) (w w' : World) (u : string) (cutoff : datetime) :
  process_article cz a (stats, w) = (Ok tt, (stats', w')) ->
  error_count w' = error_count w ->
  (Article.url a = u ->
   (String.length u <= 1000)%nat /\ cutoff <= Article.publish_date a) ->
  Article.url a = u \/ holds_fresh u cutoff (table w) ->
  holds_fresh u cutoff (table w').
Proof.
  unfold process_article, try_except. intros H Hec Hmine Hcase.
  destruct (categorize_article cz (Article.title a) (Article.content a) w)
    as [rc wc] eqn:Ec.
  destruct (categorize_article_frame _ _ _ _ _ _ Ec) as ((category & ->) & Hx & _ & Hconn).
  rewrite (bind_lift_ok _ _ _ _ _ _ Ec) in H.
  destruct (upsert_article a category wc) as [ru w1] eqn:Eu.
  destruct (upsert_article_frame _ _ _ _ _ Eu) as ((b & ->) & (sent & Hx1 & _) & _).
  rewrite (bind_lift_ok _ _ _ _ _ _ Eu) in H.
  assert (Hw : w' = w1).
  { destruct b; unfold modify_local in H; cbn [fst snd] in H;
      injection H as _ <-; reflexivity. }
  subst w'.
  pose proof (ext_errors _ _ _ Hx) as Hle. pose proof (ext_errors _ _ _ Hx1) as Hle1.
  assert (Htc : table wc = table w)
    by (unfold table; rewrite Hconn, (ext_news _ _ _ Hx); reflexivity).
  apply (upsert_article_body_fresh a category wc w1 b u cutoff).
  - apply upsert_article_no_error; [exact Eu | lia].
  - exact Hmine.
  - rewrite Htc. exact Hcase.
Qed.

(** The loop, when it logged no error: a candidate of the loop has its
    row afterwards, fresh if every candidate of its url is. *)
Lemma for_each_process_fresh (cz : NewsCategorizer) (u : string) (cutoff : datetime)
      (articles : list Article.t) :
  forall (stats stats' : Stats) (w w' : World),
  for_each articles (process_article cz) (stats, w) = (Ok tt, (stats', w')) ->
  error_count w' = error_count w ->
  (forall a, In a articles -> Article.url a = u ->
             (String.length u <= 1000)%nat /\ cutoff <= Article.publish_date a) ->
  (exists a, In a articles /\ Article.url a = u) \/ holds_fresh u cutoff (table w) ->
  holds_fresh u cutoff (table w').
Proof.
  induction articles as [|a0 rest IH]; intros stats stats' w w' H Hec Hall Hcase.
  - simpl in H. unfold ret in H. injection H as _ <-.
    destruct Hcase as [(a & [] & _)|Hinv]. exact Hinv.
  - destruct (process_article_frame cz a0 stats w)
      as (s1 & w1 & Hp & (sent & Hx & _) & _).
    simpl for_each in H. unfold bind at 1 in H. rewrite Hp in H.
    destruct (for_each_process_frame cz rest s1 w1)
      as (s2 & w2 & Hrest & (sent2 & Hx2 & _) & _).
    rewrite Hrest in H. injection H as _ <-.
    pose proof (ext_errors _ _ _ Hx) as Hle. pose proof (ext_errors _ _ _ Hx2) as Hle2.
    apply (IH s1 s2 w1 w2 Hrest); [lia | intros a Ha; apply Hall; right; exact Ha|].
    destruct (String.eqb_spec (Article.url a0) u) as [Hu|Hu].
    + right. apply (process_article_fresh cz a0 stats s1 w w1 u cutoff Hp); [lia| |].
      * intros _. apply Hall; [left; reflexivity | exact Hu].
      * left. exact Hu.
    + destruct Hcase as [(a & [<-|Ha] & Hau)|Hinv].
      * contradiction.
      * left. exists a. split; assumption.
      * right. apply (process_article_fresh cz a0 stats s1 w w1 u cutoff Hp); [lia| |].
        -- intros Heq. contradiction.
        -- right. exact Hinv.
Qed.

(** A deactivation that logged no error leaves a fresh row as it is. *)
Lemma deactivate_old_articles_fresh (w w' : World) (u : string) :
  deactivate_old_articles w = (Ok tt, w') ->
  error_count w' = error_count w ->
  holds_fresh u (cutoff_in w) (table w) ->
  holds_fresh u (cutoff_in w) (table w').
Proof.
  unfold deactivate_old_articles, try_except, bind at 1.
  unfold deactivate_old_articles_body, bind, datetime_now.
  fold (cutoff_in w).
  destruct (execute (DeactivateOlderThan (cutoff_in w)) _ _) as [[n|e] w1] eqn:E.
  - apply execute_ok in E. destruct E as (t & rows & Hc & _ & _ & Hsem & ->).
    simpl in Hc. unfold deactivate_older_than in Hsem. injection Hsem as _ <-.
    unfold ret. intros H _ (r & p & Hin & Hr & Ha & Hp & Hle). injection H as <-.
    assert (Ht : table w = tx_rows t) by (unfold table; rewrite Hc; reflexivity).
    rewrite Ht in Hin.
    exists r, p. split; [|repeat split; assumption].
    unfold table. simpl. apply in_map_iff. exists r. split; [|exact Hin].
    unfold stale. rewrite Hp.
    destruct (Z.ltb_spec p (cutoff_in w)); [lia | reflexivity].
  - apply execute_raise_table in E. destruct E as (_ & _ & Hl).
    unfold logger_error. intros H Hec. injection H as <-.
    rewrite error_count_logged in Hec. unfold error_count in Hec.
    rewrite Hl in Hec. simpl in Hec. lia.
Qed.

Section ServedAfterRun.
Context {lib : Library}.

(** After a run that reached the store and logged no error from then on,
    a candidate of the run is served by [get_news]: if its url fits its
    column and no candidate of the run with that url was published before
    the cutoff of the deactivation, then a request without a category
    that is answered with status 200 lists a row with the url of the
    candidate, unless the answer is full, holding as many articles as
    the limit allows. *)
Theorem run_candidate_is_served
        (w w1 w2 w3 w4 wn : World) (cz : NewsCategorizer)
        (articles : list Article.t) (a : Article.t)
        (request : Request) (payload : json) :
  setup_database (snd (at_start w)) = (Ok tt, w1) ->
  NewsCategorizer_init w1 = (Ok cz, w2) ->
  scrape_all_sites w2 = (Ok articles, w3) ->
  psycopg2_connect w3 = (Ok tt, w4) ->
  error_count (snd (run_news_pipeline w)) = error_count w4 ->
  In a articles ->
  (String.length (Article.url a) <= 1000)%nat ->
  (forall a', In a' articles -> Article.url a' = Article.url a ->
              cutoff_in w4 <= Article.publish_date a') ->
  requested_category request = None ->
  get_news request (snd (run_news_pipeline w)) = (Ok (payload, 200), wn) ->
  exists limit rows,
    match arg_limit request with
    | Some s => py_int s = inr limit
    | None => limit = 10
    end /\
    json_field "articles" payload = Some (JArr (map article_json rows)) /\
    ((exists r, In r rows /\ News.url r = Article.url a /\
                News.is_active r = Some true) \/
     List.length rows = Z.to_nat limit).
Proof.
  intros H1 H2 H3 Hc Herr Ha Hlen Hfresh Hcat Hget.
  destruct (run_news_pipeline w) as [res w'] eqn:E. cbn [fst snd] in Herr, Hget.
  rewrite run_news_pipeline_unfold in E.
  unfold at_start in *. simpl snd in H1.
  rewrite (run_news_pipeline_body_after_scrape _ _ _ _ _ _ _ H1 H2 H3) in E.
  destruct articles as [|a0 rest]; [destruct Ha|].
  rewrite (bind_lift_ok _ _ _ _ _ _ Hc) in E.
  destruct (psycopg2_connect_ok _ _ Hc) as (Hh4 & _).
  destruct (for_each_process_frame cz (a0 :: rest) (mkStats 0 0 0) w4)
    as (st5 & w5 & Hloop & (ups & Hx5 & _) & Hk5 & Hq5).
  unfold bind at 1 in E. rewrite Hloop in E.
  destruct (deactivate_old_articles_frame w5) as (w6 & Hd & Hx6 & Hq6).
  rewrite (bind_lift_ok _ _ _ _ _ _ Hd) in E.
  destruct (get_summary_stats_frame w6) as (s & w7 & Hs & (sums & Hx7 & _) & Hq7).
  rewrite (bind_lift_ok _ _ _ _ _ _ Hs) in E.
  assert (Hcut : cutoff_in w5 = cutoff_in w4)
    by (unfold cutoff_in; rewrite (ext_env _ _ _ Hx5), Hk5; reflexivity).
  pose proof (ext_errors _ _ _ Hx5) as Hle5.
  pose proof (ext_errors _ _ _ Hx6) as Hle6.
  pose proof (ext_errors _ _ _ Hx7) as Hle7.
  destruct (conn_commit w7) as [[[]|e] w8] eqn:Ec;
    destruct (conn_commit_frame _ _ _ Ec) as (_ & _ & Hl8 & _ & Hnews8);
    assert (H8 : error_count w8 = error_count w7)
      by (unfold error_count; rewrite Hl8; reflexivity).
  - rewrite (bind_lift_ok _ _ _ _ _ _ Ec) in E.
    rewrite (bind_lift_ok _ _ _ _ _ _ (eq_refl : conn_close w8 = (Ok tt, _))) in E.
    rewrite (bind_lift_ok _ _ _ _ _ _ (eq_refl : datetime_now _ = (Ok _, _))) in E.
    unfold ret in E. injection E as _ <-.
    assert (Herr8 : error_count w8 = error_count w4) by exact Herr.
    assert (Hh5 : healthy w5) by (apply Hq5; [lia | exact Hh4]).
    destruct Hq6 as [Hh6 _]; [lia|].
    destruct Hq7 as [Hh7 Ht7]; [lia|].
    assert (Hinv5 : holds_fresh (Article.url a) (cutoff_in w4) (table w5)).
    { apply (for_each_process_fresh cz (Article.url a) (cutoff_in w4) (a0 :: rest)
               _ _ _ _ Hloop); [lia| |].
      - intros a' Ha' Hu. split; [exact Hlen | apply Hfresh; assumption].
      - left. exists a. split; [exact Ha | reflexivity]. }
    rewrite <- Hcut in Hinv5.
    assert (Hinv6 : holds_fresh (Article.url a) (cutoff_in w5) (table w6))
      by (apply (deactivate_old_articles_fresh _ _ _ Hd); [lia | exact Hinv5]).
    destruct Hinv6 as (r & p & Hin & Hr & Hact & _).
    assert (Hnews : In r (news w8)) by (rewrite (Hnews8 Hh7), Ht7; exact Hin).
    unfold get_news, try_except in Hget.
    destruct (get_news_body request _) as [[resp|e] wb] eqn:Eb;
      [|unfold bind, logger_error, ret, error_response in Hget; discriminate].
    injection Hget as -> _.
    destruct (get_news_body_ok _ _ _ _ Eb)
      as (limit & rows & rest' & Hlim & _ & Hp & Hperm & _ & Hcount & _).
    injection Hp as ->.
    exists limit, rows. split; [exact Hlim|]. split; [reflexivity|].
    assert (Hans : answers (requested_category request) r = true)
      by (rewrite Hcat; unfold answers, active; rewrite Hact; reflexivity).
    assert (Hr' : In r (rows ++ rest')).
    { apply (Permutation_in _ (Permutation_sym Hperm)).
      apply filter_In. split; [exact Hnews | exact Hans]. }
    apply in_app_or in Hr'. destruct Hr' as [Hr'|Hr'].
    + left. exists r. repeat split; assumption.
    + right. rewrite length_app in Hcount. destruct rest' as [|x rest']; [destruct Hr'|].
      simpl in Hcount. lia.
  - rewrite (bind_lift_raise _ _ _ _ _ _ Ec) in E. injection E as _ <-.
    unfold pipeline_failed in Herr. rewrite error_count_logged in Herr.
    exfalso. lia.
Qed.
End ServedAfterRun.

(** One candidate, published the day before the run, stored beside one
    stale row: a plain request after the run lists it. *)
Lemma run_candidate_is_served_example :
  exists payload rows r,
    fst (@get_news example_library plain_request
           (snd (@run_news_pipeline example_library one_candidate_world)))
    = Ok (payload, 200) /\
    json_field "articles" payload
    = Some (JArr (map (@article_json example_library) rows)) /\
    In r rows /\ News.url r = "https://narc.gov.np/news/1".
Proof.
  assert (F1 : fst (setup_database (snd (at_start one_candidate_world))) = Ok tt)
    by (vm_compute; reflexivity).
  assert (F2 : exists cz a,
             fst (NewsCategorizer_init
                    (snd (setup_database (snd (at_start one_candidate_world)))))
             = Ok cz /\
             fst (@scrape_all_sites example_library
                    (snd (NewsCategorizer_init
                            (snd (setup_database (snd (at_start one_candidate_world)))))))
             = Ok [a] /\
             Article.url a = "https://narc.gov.np/news/1" /\
             (cutoff_in
                (snd (psycopg2_connect
                        (snd (@scrape_all_sites example_library
                                (snd (NewsCategorizer_init
                                        (snd (setup_database
                                                (snd (at_start one_candidate_world))))))))))
              <=? Article.publish_date a) = true).
  { do 2 eexists. split; [vm_compute; reflexivity|].
    split; [vm_compute; reflexivity|].
    split; vm_compute; reflexivity. }
  assert (F4 : fst (psycopg2_connect
                      (snd (@scrape_all_sites example_library
                              (snd (NewsCategorizer_init
                                      (snd (setup_database
                                              (snd (at_start one_candidate_world)))))))))
               = Ok tt) by (vm_compute; reflexivity).
  assert (F5 : error_count (snd (@run_news_pipeline example_library one_candidate_world))
               = error_count
                   (snd (psycopg2_connect
                      (snd (@scrape_all_sites example_library
                              (snd (NewsCategorizer_init
                                      (snd (setup_database
                                              (snd (at_start one_candidate_world)))))))))))
    by (vm_compute; reflexivity).
  assert (F6 : exists payload,
             fst (@get_news example_library plain_request
                    (snd (@run_news_pipeline example_library one_candidate_world)))
             = Ok (payload, 200)) by (eexists; vm_compute; reflexivity).
  assert (F7 : match fst (@get_news example_library plain_request
                            (snd (@run_news_pipeline example_library one_candidate_world)))
               with
               | Ok (payload, _) =>
                   match json_field "articles" payload with
                   | Some (JArr items) => List.length items = 1%nat
                   | _ => False
                   end
               | Raise _ => False
               end) by (vm_compute; reflexivity).
  destruct F2 as (cz & a & F2 & F3 & Furl & Ffresh). destruct F6 as [payload F6].
  destruct (setup_database (snd (at_start one_candidate_world))) as [r1 w1] eqn:H1.
  cbn [fst snd] in F1, F2, F3, F4, F5, Ffresh. subst r1.
  destruct (NewsCategorizer_init w1) as [r2 w2] eqn:H2.
  cbn [fst snd] in F2, F3, F4, F5, Ffresh. subst r2.
  destruct (@scrape_all_sites example_library w2) as [r3 w3] eqn:H3.
  cbn [fst snd] in F3, F4, F5, Ffresh. subst r3.
  destruct (psycopg2_connect w3) as [r4 w4] eqn:H4.
  cbn [fst snd] in F4, F5, Ffresh. subst r4.
  destruct (@get_news example_library plain_request
              (snd (@run_news_pipeline example_library one_candidate_world)))
    as [rg wn] eqn:Hg.
  cbn [fst] in F6, F7. subst rg.
  destruct (@run_candidate_is_served example_library one_candidate_world
              w1 w2 w3 w4 wn cz [a] a plain_request payload H1 H2 H3 H4 F5
              (or_introl eq_refl))
    as (limit & rows & Hlim & Hrows & Hserved).
  - rewrite Furl. simpl. lia.
  - intros a' [<-|[]] _. apply Z.leb_le. exact Ffresh.
  - reflexivity.
  - exact Hg.
  - cbn in Hlim. subst limit.
    destruct Hserved as [(r & Hr & Hu & _)|Hfull].
    + exists payload, rows, r. split; [reflexivity|]. split; [exact Hrows|].
      split; [exact Hr | rewrite Hu; exact Furl].
    + exfalso. rewrite Hrows, length_map in F7. rewrite F7 in Hfull. discriminate.
Defined.

(** ** The summary only reads *)

Lemma query_news {A} (stmt : Stmt) (f : list News.row -> A) (w w' : World)
      (r : Result A) :
  query stmt f w = (r, w') ->
  table w' = table w /\ news w' = news w /\ log w' = log w.
Proof.
  unfold query. intros H. pose proof (execute_news _ _ _ _ _ H) as Hn.
  destruct r as [a|e].
  - apply execute_ok in H. destruct H as (t & rows & Hc & _ & _ & Hsem & ->).
    injection Hsem as _ <-. unfold table. simpl. rewrite Hc. repeat split.
  - apply execute_raise_table in H. destruct H as (Ht & _ & Hl).
    repeat split; assumption.
Qed.

(** [get_summary_stats] never raises and changes no row.  It returns
    the three figures, having logged nothing, or the empty dictionary,
    having logged one error. *)
Theorem get_summary_stats_only_reads (w : World) :
  exists r w',
    get_summary_stats w = (Ok r, w') /\
    table w' = table w /\ news w' = news w /\
    match r with
    | Some s => log w' = log w /\ total_active s = count_active (table w)
    | None => error_count w' = S (error_count w)
    end.
Proof.
  unfold get_summary_stats, try_except, bind at 1.
  unfold get_summary_stats_body, bind at 1.
  destruct (query SelectCategoryCounts category_counts w) as [[cs|e] w1] eqn:E1.
  - destruct (query_news _ _ _ _ _ E1) as (Ht1 & Hn1 & Hl1).
    unfold bind at 1.
    destruct (query CountActive count_active w1) as [[n|e] w2] eqn:E2.
    + destruct (query_news _ _ _ _ _ E2) as (Ht2 & Hn2 & Hl2).
      destruct (query_ok _ _ _ _ _ E2) as (-> & _).
      unfold bind at 1, datetime_now. unfold bind at 1.
      destruct (query (CountPublishedOn _) _ _) as [[m|e] w3] eqn:E3.
      * destruct (query_news _ _ _ _ _ E3) as (Ht3 & Hn3 & Hl3).
        unfold ret, bind. eexists. eexists. split; [reflexivity|].
        change (table (set_clock_reads (S (clock_reads w2)) w2)) with (table w2) in Ht3.
        change (news (set_clock_reads (S (clock_reads w2)) w2)) with (news w2) in Hn3.
        change (log (set_clock_reads (S (clock_reads w2)) w2)) with (log w2) in Hl3.
        split; [congruence|]. split; [congruence|].
        simpl. split; [congruence | rewrite Ht1; reflexivity].
      * destruct (query_news _ _ _ _ _ E3) as (Ht3 & Hn3 & Hl3).
        unfold logger_error, bind, ret. eexists. eexists. split; [reflexivity|].
        change (table (set_clock_reads (S (clock_reads w2)) w2)) with (table w2) in Ht3.
        change (news (set_clock_reads (S (clock_reads w2)) w2)) with (news w2) in Hn3.
        change (log (set_clock_reads (S (clock_reads w2)) w2)) with (log w2) in Hl3.
        rewrite table_set_log. split; [congruence|]. split; [simpl; congruence|].
        rewrite error_count_logged. unfold error_count. congruence.
    + destruct (query_news _ _ _ _ _ E2) as (Ht2 & Hn2 & Hl2).
      unfold logger_error, bind, ret. eexists. eexists. split; [reflexivity|].
      rewrite table_set_log. split; [congruence|]. split; [simpl; congruence|].
      rewrite error_count_logged. unfold error_count. congruence.
  - destruct (query_news _ _ _ _ _ E1) as (Ht1 & Hn1 & Hl1).
    unfold logger_error, bind, ret. eexists. eexists. split; [reflexivity|].
    rewrite table_set_log. split; [congruence|]. split; [simpl; congruence|].
    rewrite error_count_logged. unfold error_count. congruence.
Qed.
